(** * Adafruit_ImageReader: the BMP scanline-streaming decoder

    A shallow embedding of [Adafruit_ImageReader.cpp] (coreBMP, drawBMP,
    loadBMP, bmpDimensions, readLE16, readLE32) and the properties of
    its specification.

    Build modelled: an ESP32, which takes the [#else] branch of every
    platform switch: [DRAWPIXELS] = 200 (32-bit [int], 16-bit
    [srcidx]) and the byte-by-byte [readLE16]/[readLE32].  The other
    branch of the readers, which reads into the result directly, is
    [readLE16_direct]/[readLE32_direct]; it gives the same value
    whenever the bytes asked for are in the file.

    [sdbuf] and [tftbuf] are local arrays without initialiser: what
    they hold at first is a parameter, [stack], of coreBMP and of its
    two callers.

    Machine integers are [Z] with the wrap-around written out ([u8],
    [u16], [u32], [s32]).  Calls to the collaborators (SD card file,
    display, scheduler) and the indexings of the two working buffers
    are recorded, newest first, in the [log] of the state. *)

From Stdlib Require Import Strings.Byte String.
From Stdlib Require Import ZArith List Lia Bool.
Import ListNotations.
Open Scope Z_scope.

(** ** Machine integers *)

Definition u8 (z : Z) : Z := z mod 2 ^ 8.
Definition u16 (z : Z) : Z := z mod 2 ^ 16.
Definition u32 (z : Z) : Z := z mod 2 ^ 32.
Definition s32 (z : Z) : Z := (z + 2 ^ 31) mod 2 ^ 32 - 2 ^ 31.

(** ** Constants of the build *)

Definition DRAWPIXELS : Z := 200.
Definition sizeof_sdbuf : Z := 3 * DRAWPIXELS.

(** The result codes and canvas formats are declared in
    Adafruit_ImageReader.h, which is not among the sources; the names
    are the ones the .cpp file uses. *)
Inductive ImageReturnCode : Type :=
| IMAGE_SUCCESS
| IMAGE_ERR_FILE_NOT_FOUND
| IMAGE_ERR_FORMAT
| IMAGE_ERR_MALLOC.

Inductive CanvasFormat : Type :=
| CANVAS_NONE
| CANVAS_16.

(** ** Collaborators *)

(** Modelled from the spec: the display sink (Adafruit_SPITFT, not part
    of this repository).  Only its dimensions are read back; every call
    made to it goes to the log. *)
Record Adafruit_SPITFT : Type := mkTFT { tft_width : Z; tft_height : Z }.

(** Modelled from the spec: the memory sink of Adafruit_GFX, which is
    not part of this repository: an owned 2-D pixel buffer with its
    declared width and height and a contiguous linear pixel array. *)
Record GFXcanvas16 : Type :=
  mkCanvas { canvas_width : Z; canvas_height : Z; getBuffer : list Z }.

(** Modelled from the spec: [allocate(width, height)] of the memory
    sink factory, when it succeeds; the pixels start as zeros. *)
Definition new_GFXcanvas16 (w h : Z) : GFXcanvas16 :=
  mkCanvas w h (repeat 0 (Z.to_nat (w * h))).

Inductive event : Type :=
| EvOpen (found : bool)            (* SD.open(filename) *)
| EvReadByte                       (* file.read() *)
| EvRead (pos n : Z)               (* file.read(buffer, n) at position pos *)
| EvSeek (pos : Z)                 (* file.seek(pos) *)
| EvClose                          (* file.close() *)
| EvStartWrite                     (* tft->startWrite() *)
| EvEndWrite                       (* tft->endWrite() *)
| EvSetAddrWindow (x y w h : Z)    (* tft->setAddrWindow(x, y, w, h) *)
| EvWritePixels (px : list Z)      (* tft->writePixels(dest, destidx) *)
| EvYield                          (* yield() *)
| EvSdbuf (i v : Z)                (* sdbuf[i] is read and holds v *)
| EvDest (i v : Z).                (* dest[i] = v *)

(** The locals of coreBMP that the loops change, the position of the
    [file] member, and the log. *)
Record State : Type := mkState {
  fpos : Z;
  sdbuf : list Z;
  srcidx : Z;
  dest : list Z;
  destidx : Z;
  log : list event }.

Definition emit (e : event) (st : State) : State :=
  mkState (fpos st) (sdbuf st) (srcidx st) (dest st) (destidx st) (e :: log st).

Definition set_srcidx (i : Z) (st : State) : State :=
  mkState (fpos st) (sdbuf st) i (dest st) (destidx st) (log st).

Definition set_destidx (i : Z) (st : State) : State :=
  mkState (fpos st) (sdbuf st) (srcidx st) (dest st) i (log st).

Definition set_dest (d : list Z) (st : State) : State :=
  mkState (fpos st) (sdbuf st) (srcidx st) d (destidx st) (log st).

Definition byte_val (b : byte) : Z := Z.of_N (Byte.to_N b).

(** Modelled from the spec: the storage stream of the SD library, which
    is not part of this repository.  [read()] gives the next byte, or
    -1 at the end of the file; [read(buf, n)] copies the bytes that are
    left, at most [n], to the front of [buf] and moves the position by
    as many; [seek] sets the absolute position; [position] gives it. *)
Definition file_read1 (data : list byte) (st : State) : Z * State :=
  let next := nth_error data (Z.to_nat (fpos st)) in
  (match next with Some b => byte_val b | None => -1 end,
   mkState (match next with Some _ => fpos st + 1 | None => fpos st end)
           (sdbuf st) (srcidx st) (dest st) (destidx st)
           (EvReadByte :: log st)).

(** Modelled from the spec: [read(buffer, n)] of the storage stream,
    into [sdbuf]. *)
Definition file_read (data : list byte) (n : Z) (st : State) : State :=
  let got := map byte_val
                 (firstn (Z.to_nat n) (skipn (Z.to_nat (fpos st)) data)) in
  mkState (fpos st + Z.of_nat (length got))
          (got ++ skipn (length got) (sdbuf st))
          (srcidx st) (dest st) (destidx st)
          (EvRead (fpos st) n :: log st).

(** Modelled from the spec: [seek(absoluteBytePosition)] of the storage
    stream. *)
Definition file_seek (pos : Z) (st : State) : State :=
  mkState pos (sdbuf st) (srcidx st) (dest st) (destidx st)
          (EvSeek pos :: log st).

(** Modelled from the spec: [position()] of the storage stream. *)
Definition file_position (st : State) : Z := fpos st.

(** ** readLE16, readLE32 *)

(** Line 368, the [#else] branch (ESP32, big-endian or unknown byte
    order): [file.read() | ((uint16_t)file.read() << 8)], the result
    cut to 16 bits.  The [#if] branch is [readLE16_direct] below. *)
Definition readLE16 (data : list byte) (st : State) : Z * State :=
  let (b0, st) := file_read1 data st in
  let (b1, st) := file_read1 data st in
  (u16 (Z.lor b0 (Z.shiftl (u16 b1) 8)), st).

(** Lines 386-389, the [#else] branch: four single-byte reads, each
    converted to [uint32_t] and shifted.  The [#if] branch is
    [readLE32_direct] below. *)
Definition readLE32 (data : list byte) (st : State) : Z * State :=
  let (b0, st) := file_read1 data st in
  let (b1, st) := file_read1 data st in
  let (b2, st) := file_read1 data st in
  let (b3, st) := file_read1 data st in
  (Z.lor (Z.lor (Z.lor (u32 b0) (u32 (Z.shiftl (u32 b1) 8)))
                (u32 (Z.shiftl (u32 b2) 16)))
         (u32 (Z.shiftl (u32 b3) 24)), st).

(** ** The pixel pipeline of coreBMP *)

(** The value stored by
    [dest[destidx++] = ((r & 0xF8) << 8) | ((g & 0xFC) << 3) | ((b & 0xF8) >> 3)]
    into the 16-bit destination. *)
Definition color565 (b g r : Z) : Z :=
  u16 (Z.lor (Z.lor (Z.shiftl (Z.land r 248) 8) (Z.shiftl (Z.land g 252) 3))
             (Z.shiftr (Z.land b 248) 3)).

(** [l[i] = v]; an index outside the array (undefined in the source)
    leaves the list as it is. *)
Fixpoint list_set (l : list Z) (i : nat) (v : Z) : list Z :=
  match l, i with
  | [], _ => []
  | _ :: t, O => v :: t
  | h :: t, S i' => h :: list_set t i' v
  end.

Definition array_set (l : list Z) (i v : Z) : list Z :=
  if i <? 0 then l else list_set l (Z.to_nat i) v.

Definition array_get (l : list Z) (i : Z) : Z :=
  if i <? 0 then 0 else nth (Z.to_nat i) l 0.

(** [tft->writePixels(dest, destidx); destidx = 0;] *)
Definition flush (st : State) : State :=
  set_destidx 0
    (emit (EvWritePixels (firstn (Z.to_nat (destidx st)) (dest st))) st).

(** The body of [if(srcidx >= sizeof sdbuf)], lines 278-289. *)
Definition refill (tft : bool) (data : list byte) (st : State) : State :=
  if tft then
    let st := emit EvEndWrite st in
    let st := file_read data sizeof_sdbuf st in
    let st := emit EvStartWrite st in
    let st := if destidx st =? 0 then st else flush st in
    set_srcidx 0 st
  else
    set_srcidx 0 (file_read data sizeof_sdbuf st).

(** Lines 292-297: fetch B, G, R, convert, store. *)
Definition convert (st : State) : State :=
  let i0 := srcidx st in
  let b := array_get (sdbuf st) i0 in
  let i1 := u16 (i0 + 1) in
  let g := array_get (sdbuf st) i1 in
  let i2 := u16 (i1 + 1) in
  let r := array_get (sdbuf st) i2 in
  let i3 := u16 (i2 + 1) in
  let v := color565 b g r in
  let j := destidx st in
  mkState (fpos st) (sdbuf st) i3 (array_set (dest st) j v) (u32 (j + 1))
          (EvDest j v :: EvSdbuf i2 r :: EvSdbuf i1 g :: EvSdbuf i0 b :: log st).

(** One turn of the pixel loop, lines 277-297. *)
Definition pixel (tft : bool) (data : list byte) (st : State) : State :=
  convert (if srcidx st >=? sizeof_sdbuf then refill tft data st else st).

(** [for(col=0; col<loadWidth; col++)] with [n] turns left. *)
Fixpoint pixels (tft : bool) (data : list byte) (n : nat) (st : State) : State :=
  match n with
  | O => st
  | S n' => pixels tft data n' (pixel tft data st)
  end.

(** Lines 267-270: where the scanline of destination row [row] starts. *)
Definition bmpPos_of (flip : bool) (offset bmpHeight rowSize row : Z) : Z :=
  if flip
  then u32 (offset + u32 (u32 (s32 (s32 (bmpHeight - 1) - row)) * rowSize))
  else u32 (offset + u32 (u32 row * rowSize)).

(** Lines 271-275: seek only when the position has to change. *)
Definition seek_to (tft : bool) (bmpPos : Z) (st : State) : State :=
  if file_position st =? bmpPos then st
  else
    let st := if tft then emit EvEndWrite st else st in
    let st := file_seek bmpPos st in
    set_srcidx sizeof_sdbuf st.

(** Lines 299-305: the end of a scanline. *)
Definition finish_row (tft : bool) (st : State) : State :=
  if tft then
    let st := if destidx st =? 0 then st else flush st in
    emit EvEndWrite st
  else st.

(** One turn of the scanline loop, lines 260-305. *)
Definition scanline (tft : bool) (data : list byte) (flip : bool)
    (offset bmpHeight rowSize loadWidth row : Z) (st : State) : State :=
  let st := emit EvYield st in
  let bmpPos := bmpPos_of flip offset bmpHeight rowSize row in
  let st := seek_to tft bmpPos st in
  let st := pixels tft data (Z.to_nat loadWidth) st in
  finish_row tft st.

(** [for(row=0; row<loadHeight; row++)] with [n] turns left. *)
Fixpoint scanlines (tft : bool) (data : list byte) (flip : bool)
    (offset bmpHeight rowSize loadWidth : Z) (n : nat) (row : Z)
    (st : State) : State :=
  match n with
  | O => st
  | S n' =>
      scanlines tft data flip offset bmpHeight rowSize loadWidth n' (row + 1)
        (scanline tft data flip offset bmpHeight rowSize loadWidth row st)
  end.

(** ** coreBMP *)

(** A pointer argument through which a result is handed back: [None]
    is the NULL pointer, [Some v] a variable of the caller that holds
    [v]. *)
Definition outptr (A : Type) : Type := option A.

Definition poke {A : Type} (p : outptr A) (v : A) : outptr A :=
  match p with
  | None => None
  | Some _ => Some v
  end.

Record Result : Type := mkResult {
  status : ImageReturnCode;
  canvas1_out : outptr (option GFXcanvas16);
  canvas2_out : outptr (option unit);
  palette_out : outptr (option unit);
  fmt_out : outptr CanvasFormat;
  trace : list event }.               (* oldest first *)

(** Lines 201-211: the header fields, read in order; [None] when a
    check fails.  [depth] is a [uint8_t]. *)
Definition parse_header (data : list byte) (st : State)
  : option (Z * Z * Z) * State :=
  let (sig, st) := readLE16 data st in
  if sig =? 0x4D42 then
    let (_, st) := readLE32 data st in
    let (_, st) := readLE32 data st in
    let (offset, st) := readLE32 data st in
    let (_, st) := readLE32 data st in
    let (w, st) := readLE32 data st in
    let bmpWidth := s32 w in
    let (h, st) := readLE32 data st in
    let bmpHeight := s32 h in
    let (planes, st) := readLE16 data st in
    if planes =? 1 then
      let (d, st) := readLE16 data st in
      let depth := u8 d in
      if depth =? 24 then
        let (compression, st) := readLE32 data st in
        if compression =? 0
        then (Some (offset, bmpWidth, bmpHeight), st)
        else (None, st)
      else (None, st)
    else (None, st)
  else (None, st).

(** Line 214. *)
Definition rowSize_of (bmpWidth : Z) : Z :=
  u32 (Z.land (s32 (s32 (bmpWidth * 3) + 3)) (-4)).

(** Lines 218-221: the height as used from here on, and [flip]. *)
Definition normalize_height (bmpHeight : Z) : Z * bool :=
  if bmpHeight <? 0 then (s32 (- bmpHeight), false) else (bmpHeight, true).

(** Lines 228-237: the region to load on a display; gives
    [(x, y, loadWidth, loadHeight)]. *)
Definition crop (t : Adafruit_SPITFT) (x y loadWidth loadHeight : Z)
  : Z * Z * Z * Z :=
  let '(loadWidth, x) :=
    if x <? 0 then (s32 (loadWidth + x), 0) else (loadWidth, x) in
  let '(loadHeight, y) :=
    if y <? 0 then (s32 (loadHeight + y), 0) else (loadHeight, y) in
  let loadWidth :=
    if s32 (x + loadWidth) >? tft_width t then s32 (tft_width t - x)
    else loadWidth in
  let loadHeight :=
    if s32 (y + loadHeight) >? tft_height t then s32 (tft_height t - y)
    else loadHeight in
  (x, y, loadWidth, loadHeight).

(** Line 194. *)
Definition offscreen (tft : option Adafruit_SPITFT) (x y : Z) : bool :=
  match tft with
  | Some t => (x >=? tft_width t) || (y >=? tft_height t)
  | None => false
  end.

Definition is_tft (tft : option Adafruit_SPITFT) : bool :=
  match tft with Some _ => true | None => false end.

(** Lines 250-252: the start of the transfer to a display. *)
Definition start_region (tft : bool) (x y loadWidth loadHeight : Z)
    (st : State) : State :=
  if tft
  then emit (EvSetAddrWindow x y loadWidth loadHeight) (emit EvStartWrite st)
  else st.

(** Line 174, [uint8_t sdbuf[3*DRAWPIXELS]], has no initialiser: cell
    [i] of the array starts with the byte [stack i] that the stack
    holds there. *)
Definition stack_sdbuf (stack : nat -> byte) : list Z :=
  map (fun i => byte_val (stack i)) (seq 0 (Z.to_nat sizeof_sdbuf)).

(** The state when the file has just been opened, with [buf] in the
    transfer buffer. *)
Definition opened (buf : list Z) : State :=
  mkState 0 buf sizeof_sdbuf [] 0 [EvOpen true].

(** [stack] gives what [sdbuf] holds at first; [SD] gives the contents
    of the file of a name, if there is one; [can_alloc w h] tells
    whether [new GFXcanvas16(w, h)] and its buffer can be allocated. *)
Definition coreBMP (stack : nat -> byte) (SD : string -> option (list byte))
    (can_alloc : Z -> Z -> bool) (filename : string)
    (tft : option Adafruit_SPITFT) (dest_arg : option (list Z)) (x y : Z)
    (canvas1 : outptr (option GFXcanvas16))
    (canvas2 palette : outptr (option unit))
    (fmt : outptr CanvasFormat) : Result :=
  let fmt := poke fmt CANVAS_NONE in
  let canvas2 := poke canvas2 None in
  let palette := poke palette None in
  if offscreen tft x y
  then mkResult IMAGE_SUCCESS canvas1 canvas2 palette fmt []
  else
    match SD filename with
    | None =>
        mkResult IMAGE_ERR_FILE_NOT_FOUND canvas1 canvas2 palette fmt
                 [EvOpen false]
    | Some data =>
        let (hdr, st) := parse_header data (opened (stack_sdbuf stack)) in
        let '(status, canvas1, fmt, st) :=
          match hdr with
          | None => (IMAGE_ERR_FORMAT, canvas1, fmt, st)
          | Some (offset, bmpWidth, bmpHeight) =>
              let rowSize := rowSize_of bmpWidth in
              let '(bmpHeight, flip) := normalize_height bmpHeight in
              let '(status, x, y, loadWidth, loadHeight, canvas, dest_ptr) :=
                match tft with
                | Some t =>
                    let '(x, y, loadWidth, loadHeight) :=
                      crop t x y bmpWidth bmpHeight in
                    (IMAGE_ERR_FORMAT, x, y, loadWidth, loadHeight, None, dest_arg)
                | None =>
                    let canvas :=
                      if can_alloc bmpWidth bmpHeight
                      then Some (new_GFXcanvas16 bmpWidth bmpHeight)
                      else None in
                    (IMAGE_ERR_MALLOC, x, y, bmpWidth, bmpHeight, canvas,
                     match canvas with
                     | Some c => Some (getBuffer c)
                     | None => dest_arg
                     end)
                end in
              match dest_ptr with
              | None => (status, canvas1, fmt, st)
              | Some d =>
                  if (loadWidth >? 0) && (loadHeight >? 0) then
                    let st :=
                      start_region (is_tft tft) x y loadWidth loadHeight
                                   (set_dest d st) in
                    let fmt := if is_tft tft then fmt else poke fmt CANVAS_16 in
                    let st :=
                      scanlines (is_tft tft) data flip offset bmpHeight rowSize
                                loadWidth (Z.to_nat loadHeight) 0 st in
                    (* the canvas handed back through canvas1 shares its
                       buffer with dest *)
                    let canvas1 :=
                      if is_tft tft then canvas1
                      else poke canvas1
                             (match canvas with
                              | Some c =>
                                  Some (mkCanvas (canvas_width c)
                                                 (canvas_height c) (dest st))
                              | None => None
                              end) in
                    (IMAGE_SUCCESS, canvas1, fmt, st)
                  else (IMAGE_SUCCESS, canvas1, fmt, st)
              end
          end in
        mkResult status canvas1 canvas2 palette fmt (rev (EvClose :: log st))
    end.

(** Line 85, [uint16_t tftbuf[DRAWPIXELS]], has no initialiser either:
    cell [i] starts with the 16-bit number that the stack holds there,
    made of the bytes that [stack] gives behind those of [sdbuf]. *)
Definition tftbuf (stack : nat -> byte) : list Z :=
  map (fun i => byte_val (stack (600 + 2 * i)%nat)
                + 2 ^ 8 * byte_val (stack (601 + 2 * i)%nat))
      (seq 0 (Z.to_nat DRAWPIXELS)).

Definition drawBMP (stack : nat -> byte) (SD : string -> option (list byte))
    (filename : string) (tft : Adafruit_SPITFT) (x y : Z) : Result :=
  coreBMP stack SD (fun _ _ => false) filename (Some tft)
          (Some (tftbuf stack)) x y
          None None None None.

Definition loadBMP (stack : nat -> byte) (SD : string -> option (list byte))
    (can_alloc : Z -> Z -> bool) (filename : string)
    (canvas1 : outptr (option GFXcanvas16))
    (canvas2 palette : outptr (option unit))
    (fmt : outptr CanvasFormat) : Result :=
  coreBMP stack SD can_alloc filename None None 0 0
          canvas1 canvas2 palette fmt.

(** ** bmpDimensions *)

Record Dimensions : Type := mkDimensions {
  dim_status : ImageReturnCode;
  width_out : outptr Z;
  height_out : outptr Z;
  dim_trace : list event }.

(** bmpDimensions has none of the buffers of coreBMP: the state it
    reads the header with has an empty one. *)
Definition bmpDimensions (SD : string -> option (list byte))
    (filename : string) (width height : outptr Z) : Dimensions :=
  match SD filename with
  | None =>
      mkDimensions IMAGE_ERR_FILE_NOT_FOUND width height [EvOpen false; EvClose]
  | Some data =>
      let (sig, st) := readLE16 data (opened []) in
      if sig =? 0x4D42 then
        let (_, st) := readLE32 data st in
        let (_, st) := readLE32 data st in
        let (_, st) := readLE32 data st in
        let (_, st) := readLE32 data st in
        let (width, st) :=
          match width with
          | Some _ => let (w, st) := readLE32 data st in (Some (s32 w), st)
          | None => (None, st)
          end in
        let (height, st) :=
          match height with
          | Some _ =>
              let (v, st) := readLE32 data st in
              let h := s32 v in
              let h := if h <? 0 then s32 (- h) else h in
              (Some h, st)
          | None => (None, st)
          end in
        mkDimensions IMAGE_SUCCESS width height (rev (EvClose :: log st))
      else
        mkDimensions IMAGE_ERR_FORMAT width height (rev (EvClose :: log st))
  end.

(** ** Header fields by offset *)

(** What [file.read()] gives when it is the [k]-th read of a file that
    has only been read byte by byte from its start. *)
Definition byte_at (data : list byte) (k : Z) : Z :=
  match nth_error data (Z.to_nat k) with
  | Some b => byte_val b
  | None => -1
  end.

Definition le16_at (data : list byte) (k : Z) : Z :=
  u16 (Z.lor (byte_at data k) (Z.shiftl (u16 (byte_at data (k + 1))) 8)).

Definition le32_at (data : list byte) (k : Z) : Z :=
  Z.lor (Z.lor (Z.lor (u32 (byte_at data k))
                      (u32 (Z.shiftl (u32 (byte_at data (k + 1))) 8)))
               (u32 (Z.shiftl (u32 (byte_at data (k + 2))) 16)))
        (u32 (Z.shiftl (u32 (byte_at data (k + 3))) 24)).

(** The state after [k] single-byte reads from the start of the file. *)
Definition cursor (buf : list Z) (data : list byte) (k : Z) (l : list event)
  : State :=
  mkState (Z.min k (Z.of_nat (length data))) buf sizeof_sdbuf [] 0 l.

(** The log after [n] single-byte reads. *)
Definition header_log (n : nat) : list event :=
  repeat EvReadByte n ++ [EvOpen true].

(** The header check of coreBMP on the fields at their offsets. *)
Definition accepted (data : list byte) : bool :=
  (le16_at data 0 =? 0x4D42) && (le16_at data 26 =? 1)
  && (u8 (le16_at data 28) =? 24) && (le32_at data 30 =? 0).

(** How many bytes parse_header reads. *)
Definition header_reads (data : list byte) : Z :=
  if le16_at data 0 =? 0x4D42 then
    if le16_at data 26 =? 1 then
      if u8 (le16_at data 28) =? 24 then 34 else 30
    else 28
  else 2.

(** ** The shape of a run of coreBMP *)

(** The state in which parse_header leaves the reader. *)
Definition after_header (stack : nat -> byte) (data : list byte) : State :=
  cursor (stack_sdbuf stack) data (header_reads data)
         (header_log (Z.to_nat (header_reads data))).

(** The traces of a run that opened the file: either no scanline was
    loaded, or the scanline loop ran over a region that is not empty. *)
Inductive run_shape (stack : nat -> byte) (tft : bool)
    (dest_arg : option (list Z)) (data : list byte) : list event -> Prop :=
| shape_no_rows :
    run_shape stack tft dest_arg data
      (rev (EvClose :: log (after_header stack data)))
| shape_rows (flip : bool) (offset bmpHeight rowSize loadWidth loadHeight : Z)
    (x y : Z) (d : list Z) :
    0 < loadWidth -> 0 < loadHeight ->
    (tft = true -> dest_arg = Some d) ->
    run_shape stack tft dest_arg data
      (rev (EvClose ::
            log (scanlines tft data flip offset bmpHeight rowSize loadWidth
                   (Z.to_nat loadHeight) 0
                   (start_region tft x y loadWidth loadHeight
                      (set_dest d (after_header stack data)))))).

(** ** Buffer indices *)

(** What it means for a logged access to stay inside its buffer:
    [sdbuf] has [3 * DRAWPIXELS] cells; when drawing to a display,
    [dest] is the working buffer of [DRAWPIXELS] pixels. *)
Definition event_in_bounds (tft : bool) (e : event) : Prop :=
  match e with
  | EvSdbuf i _ => 0 <= i < 3 * DRAWPIXELS
  | EvDest j _ => tft = true -> 0 <= j < DRAWPIXELS
  | EvWritePixels px => Z.of_nat (length px) <= DRAWPIXELS
  | _ => True
  end.

Definition buffers_ok (tft : bool) (st : State) : Prop :=
  (exists k, srcidx st = 3 * k /\ 0 <= k <= DRAWPIXELS)
  /\ (tft = true -> 0 <= destidx st /\ 3 * destidx st <= srcidx st)
  /\ Forall (event_in_bounds tft) (log st).

(** ** Display transactions *)

(** Whether a display write transaction is open after the events of
    [t], oldest first. *)
Definition txn_step (open : bool) (e : event) : bool :=
  match e with
  | EvStartWrite => true
  | EvEndWrite => false
  | _ => open
  end.

Definition in_transaction (t : list event) : bool := fold_left txn_step t false.

(** The calls that go to the storage device. *)
Definition is_storage (e : event) : bool :=
  match e with
  | EvOpen _ | EvReadByte | EvRead _ _ | EvSeek _ | EvClose => true
  | _ => false
  end.

(** The same on a log, newest first. *)
Fixpoint txn_open (l : list event) : bool :=
  match l with
  | [] => false
  | EvStartWrite :: _ => true
  | EvEndWrite :: _ => false
  | _ :: l' => txn_open l'
  end.

(** No storage call of the log was made inside a transaction. *)
Fixpoint exclusive (l : list event) : Prop :=
  match l with
  | [] => True
  | e :: l' => (is_storage e = true -> txn_open l' = false) /\ exclusive l'
  end.

(** In the log, the event before a seek or a buffer read is endWrite,
    and the event after a buffer read is startWrite. *)
Fixpoint bracketed (l : list event) : Prop :=
  match l with
  | [] => True
  | e :: l' =>
      match l' with
      | EvRead _ _ :: _ => e = EvStartWrite
      | _ => True
      end
      /\ match e with
         | EvRead _ _ | EvSeek _ =>
             match l' with
             | EvEndWrite :: _ => True
             | _ => False
             end
         | _ => True
         end
      /\ bracketed l'
  end.

Definition head_not_read (l : list event) : Prop :=
  match l with
  | EvRead _ _ :: _ => False
  | _ => True
  end.

Definition txn_inv (st : State) : Prop :=
  exclusive (log st) /\ bracketed (log st) /\ head_not_read (log st).

(** ** Colour conversion *)

Definition is_byte (z : Z) : Prop := 0 <= z < 256.

(** The formula of the specification, on unbounded integers:
    [((R & 0xF8) << 8) | ((G & 0xFC) << 3) | ((B & 0xF8) >> 3)]. *)
Definition formula_565 (b g r : Z) : Z :=
  Z.lor (Z.lor (Z.shiftl (Z.land r 0xF8) 8) (Z.shiftl (Z.land g 0xFC) 3))
        (Z.shiftr (Z.land b 0xF8) 3).

(** In the log, every store to [dest] comes right after the reads of
    three cells of [sdbuf] that follow one another, which hold bytes B,
    G, R in this order, and stores the formula's value. *)
Fixpoint converted (l : list event) : Prop :=
  match l with
  | [] => True
  | EvDest _ v :: l' =>
      match l' with
      | EvSdbuf i2 r :: EvSdbuf i1 g :: EvSdbuf i0 b :: _ =>
          i1 = i0 + 1 /\ i2 = i0 + 2
          /\ is_byte b /\ is_byte g /\ is_byte r /\ v = formula_565 b g r
      | _ => False
      end
      /\ converted l'
  | _ :: l' => converted l'
  end.

Definition conv_inv (st : State) : Prop :=
  (exists k, srcidx st = 3 * k /\ 0 <= k <= DRAWPIXELS)
  /\ Forall is_byte (sdbuf st) /\ converted (log st).

(** ** What the display receives *)

(** The pixels handed to writePixels, and the pixels stored to [dest],
    in a trace, oldest first. *)
Definition written (t : list event) : list Z :=
  flat_map (fun e => match e with EvWritePixels px => px | _ => [] end) t.

Definition stored (t : list event) : list Z :=
  flat_map (fun e => match e with EvDest _ v => [v] | _ => [] end) t.

(** On a log, newest first: the pixels stored since the last
    writePixels, oldest first. *)
Fixpoint pending (l : list event) : list Z :=
  match l with
  | [] => []
  | EvDest _ v :: l' => pending l' ++ [v]
  | EvWritePixels _ :: _ => []
  | _ :: l' => pending l'
  end.

(** Every writePixels of the log hands over what was pending. *)
Fixpoint delivered (l : list event) : Prop :=
  match l with
  | [] => True
  | EvWritePixels px :: l' => px = pending l' /\ delivered l'
  | _ :: l' => delivered l'
  end.

Definition batch_inv (st : State) : Prop :=
  buffers_ok true st
  /\ Z.of_nat (length (dest st)) = DRAWPIXELS
  /\ firstn (Z.to_nat (destidx st)) (dest st) = pending (log st)
  /\ delivered (log st).

(** ** Seeks *)

(** The row of the file, counted from the start of the image data,
    that destination row [row] is taken from. *)
Definition source_row (flip : bool) (bmpHeight row : Z) : Z :=
  if flip then bmpHeight - 1 - row else row.

Definition is_seek (e : event) : bool :=
  match e with
  | EvSeek _ => true
  | _ => false
  end.

(** How many seeks a list of events holds. *)
Definition seeks (t : list event) : nat := length (filter is_seek t).

(** ** What the loops add to the log *)

(** The state [st'] has the log of [st] with events that satisfy [P]
    on top. *)
Definition adds (P : event -> Prop) (st st' : State) : Prop :=
  exists evs, log st' = evs ++ log st /\ Forall P evs.

(** The events of the pixel loop and of the end of a scanline. *)
Definition row_event (e : event) : Prop :=
  match e with
  | EvRead _ _ | EvStartWrite | EvEndWrite | EvWritePixels _
  | EvSdbuf _ _ | EvDest _ _ => True
  | _ => False
  end.

(** The events of the scanline loop. *)
Definition loop_event (e : event) : Prop :=
  match e with
  | EvYield | EvSeek _ => True
  | _ => row_event e
  end.

(** The events of the transfer to a display or to memory: all but the
    opening and the closing of the file. *)
Definition transfer_event (e : event) : Prop :=
  match e with
  | EvOpen _ | EvClose => False
  | _ => True
  end.

(** Whether the file is open after the events of [t], oldest first. *)
Definition stream_step (open : bool) (e : event) : bool :=
  match e with
  | EvOpen found => found
  | EvClose => false
  | _ => open
  end.

Definition stream_open (t : list event) : bool := fold_left stream_step t false.

Definition is_close (e : event) : bool :=
  match e with
  | EvClose => true
  | _ => false
  end.

Definition is_opened (e : event) : bool :=
  match e with
  | EvOpen true => true
  | _ => false
  end.

(** How often the file is closed, and how often it is opened with
    success. *)
Definition closes (t : list event) : nat := length (filter is_close t).
Definition opens (t : list event) : nat := length (filter is_opened t).

(** The number of stores to [dest] in the log. *)
Definition stores (st : State) : nat := length (stored (log st)).

(** ** Building files *)

Definition b8 (z : Z) : byte :=
  match Byte.of_N (Z.to_N (z mod 256)) with
  | Some b => b
  | None => x00
  end.

Definition le16 (z : Z) : list byte := [b8 z; b8 (z / 2 ^ 8)].

Definition le32 (z : Z) : list byte :=
  [b8 z; b8 (z / 2 ^ 8); b8 (z / 2 ^ 16); b8 (z / 2 ^ 24)].

(** A 54-byte BMP/DIB header: signature, file size, creator bytes,
    start of image data (54), header size (40), width, height, planes,
    bits per pixel, compression, and 20 bytes that coreBMP never
    reads. *)
Definition bmp_header (sig w h planes depth compression : Z) : list byte :=
  le16 sig ++ le32 0 ++ le32 0 ++ le32 54 ++ le32 40 ++ le32 w ++ le32 h
  ++ le16 planes ++ le16 depth ++ le32 compression ++ repeat x00 20.

(** A 24-bit uncompressed BMP with the given bytes of image data. *)
Definition bmp_file (w h : Z) (image : list Z) : list byte :=
  bmp_header 0x4D42 w h 1 24 0 ++ map b8 image.

(** An SD card that holds one file. *)
Definition card (name : string) (data : list byte) : string -> option (list byte) :=
  fun f => if String.eqb f name then Some data else None.

(** Stored pixels (B, G, R). *)
Definition blue : list Z := [255; 0; 0].
Definition green : list Z := [0; 255; 0].
Definition red : list Z := [0; 0; 255].
Definition white : list Z := [255; 255; 255].

(** ** Files used in the examples *)





(** A 320 x 240 display. *)
Definition tft_320x240 : Adafruit_SPITFT := mkTFT 320 240.

(** An image of one row of eight pixels: blue, green, red, white,
    black, yellow, cyan, magenta (0x001F, 0x07E0, 0xF800, 0xFFFF,
    0x0000, 0xFFE0, 0x07FF, 0xF81F once converted). *)
Definition strip : list byte :=
  bmp_file 8 1 (blue ++ green ++ red ++ white ++ [0; 0; 0] ++ [0; 255; 255]
                ++ [255; 255; 0] ++ [255; 0; 255]).

Definition strip_card : string -> option (list byte) :=
  card "strip.bmp"%string strip.

(** A display of 2 x 2 pixels. *)
Definition tft_2x2 : Adafruit_SPITFT := mkTFT 2 2.

(** A top-down image (height field -2) of two rows of 200 pixels, the
    first row blue, the second red; a row takes 600 bytes. *)
Definition two_rows : list byte :=
  bmp_file 200 (-2) (concat (repeat blue 200) ++ concat (repeat red 200)).

Definition two_rows_card : string -> option (list byte) :=
  card "rows.bmp"%string two_rows.

(** The same with rows of 199 pixels; each row ends with 3 bytes of
    padding (zeros), so a row takes 600 bytes as well. *)
Definition two_rows_199 : list byte :=
  bmp_file 199 (-2) (concat (repeat blue 199) ++ [0; 0; 0]
                     ++ concat (repeat red 199) ++ [0; 0; 0]).

Definition two_rows_199_card : string -> option (list byte) :=
  card "rows199.bmp"%string two_rows_199.

(** A display of 128 x 160 pixels. *)
Definition tft_128x160 : Adafruit_SPITFT := mkTFT 128 160.

(** A file with a valid header that declares an image 0 pixels wide and
    1 pixel high. *)
Definition zero_width : list byte := bmp_file 0 1 [].

Definition zero_width_card : string -> option (list byte) :=
  card "empty.bmp"%string zero_width.

(** The same with a width field of -1 (the bytes FF FF FF FF). *)
Definition negative_width : list byte := bmp_file (-1) 1 [].

Definition negative_width_card : string -> option (list byte) :=
  card "neg.bmp"%string negative_width.

(** A canvas that the caller's variable may still point to. *)
Definition stale_canvas : GFXcanvas16 := mkCanvas 7 7 [].

(** The header of an image 3 pixels wide and 7 pixels high. *)
Definition three_by_seven : list byte := bmp_file 3 7 [].

Definition three_by_seven_card : string -> option (list byte) :=
  card "3x7.bmp"%string three_by_seven.

(** On a log of a decode to a display, newest first: every seek is
    followed at once by endWrite and the read that reloads the transfer
    buffer at the position of the seek. *)
Definition reloaded (l : list event) : Prop :=
  forall l1 p l2,
    l = l1 ++ EvSeek p :: l2 ->
    exists l1', l1 = l1' ++ [EvRead p sizeof_sdbuf; EvEndWrite].

(** ** The pixels of the file *)

(** The converted pixel whose three bytes start [3 * c] bytes after
    position [p] of the file. *)
Definition pixel_at (data : list byte) (p : Z) (c : nat) : Z :=
  color565 (byte_at data (p + 3 * Z.of_nat c))
           (byte_at data (p + 3 * Z.of_nat c + 1))
           (byte_at data (p + 3 * Z.of_nat c + 2)).

(** The transfer buffer is in step with the file: [k] pixels of the
    row that starts at [p] have been taken, the unread cells of [sdbuf]
    hold the bytes that follow in the file, and the file is positioned
    behind what the buffer was loaded with. *)
Definition synced (data : list byte) (p : Z) (k : nat) (st : State) : Prop :=
  (exists j, srcidx st = 3 * j /\ 0 <= j <= DRAWPIXELS)
  /\ fpos st
     = Z.min (Z.of_nat (length data))
             (p + 3 * Z.of_nat k - srcidx st + sizeof_sdbuf)
  /\ forall i,
       srcidx st <= i < sizeof_sdbuf ->
       p + 3 * Z.of_nat k - srcidx st + i < Z.of_nat (length data) ->
       array_get (sdbuf st) i
       = byte_at data (p + 3 * Z.of_nat k - srcidx st + i).

(** The [n] integers from [start] on. *)
Fixpoint zseq (start : Z) (n : nat) : list Z :=
  match n with
  | O => []
  | S n' => start :: zseq (start + 1) n'
  end.

(** The first [loadWidth] pixels of each of the rows stored at
    [offset + (bmpHeight - 1 - r) * rowSize], for the [n] destination
    rows [r] from [row] on: what a bottom-up image should give. *)
Definition bottom_up_pixels (data : list byte)
    (offset bmpHeight rowSize loadWidth : Z) (row : Z) (n : nat) : list Z :=
  flat_map (fun r => map (pixel_at data (offset + (bmpHeight - 1 - r) * rowSize))
                         (seq 0 (Z.to_nat loadWidth)))
           (zseq row n).

(** ** The pixels of an image, row by row *)

(** The first [loadWidth] pixels of the rows of the file that the [n]
    destination rows from [row] on are taken from. *)
Definition image_rows (data : list byte) (flip : bool)
    (offset bmpHeight rowSize loadWidth : Z) (row : Z) (n : nat) : list Z :=
  flat_map
    (fun r => map (pixel_at data
                     (offset + source_row flip bmpHeight r * rowSize))
                  (seq 0 (Z.to_nat loadWidth)))
    (zseq row n).

(** The same with the formula of the specification in the place of
    [color565]. *)
Definition formula_pixel (data : list byte) (p : Z) (c : nat) : Z :=
  formula_565 (byte_at data (p + 3 * Z.of_nat c))
              (byte_at data (p + 3 * Z.of_nat c + 1))
              (byte_at data (p + 3 * Z.of_nat c + 2)).

Definition formula_rows (data : list byte) (flip : bool)
    (offset bmpHeight rowSize loadWidth : Z) (row : Z) (n : nat) : list Z :=
  flat_map
    (fun r => map (formula_pixel data
                     (offset + source_row flip bmpHeight r * rowSize))
                  (seq 0 (Z.to_nat loadWidth)))
    (zseq row n).

(** ** readLE16, readLE32: the branch that reads into the result *)

(** Modelled from the spec: [read(buffer, n)] of the storage stream,
    into a variable of [n] bytes that holds [var]: the bytes that are
    left in the file, at most [n], take the place of the first bytes of
    the variable, and the position moves by as many. *)
Definition file_read_var (data : list byte) (n : nat) (var : list byte)
    (st : State) : list byte * State :=
  let got := firstn n (skipn (Z.to_nat (fpos st)) data) in
  (got ++ skipn (length got) var,
   mkState (fpos st + Z.of_nat (length got))
           (sdbuf st) (srcidx st) (dest st) (destidx st)
           (EvRead (fpos st) (Z.of_nat n) :: log st)).

(** The number a little-endian machine finds in a variable that holds
    the bytes [bs], lowest address first. *)
Fixpoint little_endian (bs : list byte) : Z :=
  match bs with
  | [] => 0
  | b :: bs' => byte_val b + 2 ^ 8 * little_endian bs'
  end.

(** Lines 363-365, the branch of a little-endian machine that is not an
    ESP32: [uint16_t result; file.read(&result, sizeof result);
    return result;].  [result] has no initialiser: it starts with the
    bytes [r0], [r1] of the stack. *)
Definition readLE16_direct (r0 r1 : byte) (data : list byte) (st : State)
  : Z * State :=
  let (result, st) := file_read_var data 2 [r0; r1] st in
  (little_endian result, st).

(** Lines 381-383, the same for 32 bits. *)
Definition readLE32_direct (r0 r1 r2 r3 : byte) (data : list byte)
    (st : State) : Z * State :=
  let (result, st) := file_read_var data 4 [r0; r1; r2; r3] st in
  (little_endian result, st).

(** ** More readings of a trace *)

(** The stores to [dest] of a trace, oldest first, each with its
    index. *)
Definition stores_at (t : list event) : list (Z * Z) :=
  flat_map (fun e => match e with EvDest j v => [(j, v)] | _ => [] end) t.

(** The calls that go to the display. *)
Definition is_display (e : event) : bool :=
  match e with
  | EvStartWrite | EvEndWrite | EvSetAddrWindow _ _ _ _ | EvWritePixels _ =>
      true
  | _ => false
  end.

Definition is_yield (e : event) : bool :=
  match e with
  | EvYield => true
  | _ => false
  end.

(** How often a trace yields to the scheduler. *)
Definition yields (t : list event) : nat := length (filter is_yield t).

Definition is_window (e : event) : bool :=
  match e with
  | EvSetAddrWindow _ _ _ _ => true
  | _ => false
  end.

(** How often a trace declares an address window. *)
Definition windows (t : list event) : nat := length (filter is_window t).

Definition is_read (e : event) : bool :=
  match e with
  | EvRead _ _ => true
  | _ => false
  end.

(** How many reads of the transfer buffer a list of events holds. *)
Definition reads (t : list event) : nat := length (filter is_read t).

(** A storage call of the scanline loop that starts between the bytes
    [lo] and [hi] of the file: a seek to a position from [lo] to
    before [hi], or a read of the whole transfer buffer that starts
    there.  Where the read ends is not bounded. *)
Definition io_within (lo hi : Z) (e : event) : Prop :=
  match e with
  | EvSeek p => lo <= p < hi
  | EvRead p n => lo <= p < hi /\ n = sizeof_sdbuf
  | _ => True
  end.

(** A batch handed to writePixels that holds at least one pixel. *)
Definition batch_not_empty (e : event) : Prop :=
  match e with
  | EvWritePixels px => px <> []
  | _ => True
  end.

(** On a log, newest first: every writePixels was made with a display
    write transaction open. *)
Fixpoint inside (l : list event) : Prop :=
  match l with
  | [] => True
  | EvWritePixels _ :: l' => txn_open l' = true /\ inside l'
  | _ :: l' => inside l'
  end.

(** ** More invariants of the scanline loop *)

(** No call of the log went to a display. *)
Definition quiet (st : State) : Prop :=
  Forall (fun e => is_display e = false) (log st).

(** Loading to memory: as long as no more pixels were stored than
    [dest] has cells, the stores so far went to the cells 0, 1, 2, ...
    in this order, [destidx] is their number, and the cells hold what
    was stored. *)
Definition filled (st : State) : Prop :=
  Z.of_nat (stores st) <= Z.of_nat (length (dest st)) ->
  destidx st = Z.of_nat (stores st)
  /\ stores_at (rev (log st))
     = combine (zseq 0 (stores st)) (firstn (stores st) (dest st)).

(** Two states at the start of a scanline, one of a decode to a display
    and one of a decode to memory: they have stored the same pixels,
    stand at the same index of their transfer buffers, and both
    buffers are in step with the file from the same position [s] on.
    What the buffers hold elsewhere may differ. *)
Definition alike (data : list byte) (st1 st2 : State) : Prop :=
  stored (rev (log st1)) = stored (rev (log st2))
  /\ srcidx st1 = srcidx st2 /\ 0 < srcidx st1
  /\ exists s, 0 <= s /\ synced data s 0 st1 /\ synced data s 0 st2.

(** ** bmpDimensions: the signature and the results asked for *)

(** Whether a file starts with the two bytes 'B' 'M'. *)
Definition starts_with_BM (data : list byte) : bool :=
  match data with
  | x42 :: x4d :: _ => true
  | _ => false
  end.

(** Whether a result pointer of bmpDimensions is given, as a
    number. *)
Definition asked {A : Type} (p : outptr A) : nat :=
  match p with
  | Some _ => 1%nat
  | None => 0%nat
  end.

(** ** The reader object *)

(** The constructor, lines 56-57, has an empty body: the [file] member
    is as its own constructor made it, not open. *)
Definition constructor : bool := false.

(** The destructor, lines 63-65: [if(file) file.close();].
    Modelled from the spec: the storage stream, of which [if(file)]
    tells whether it is open. *)
Definition destructor (file_is_open : bool) : list event :=
  if file_is_open then [EvClose] else [].

(** A call of one of the three public functions; a call that decodes
    comes with what the stack holds when it is made. *)
Inductive call : Type :=
| CallDraw (stack : nat -> byte) (filename : string) (tft : Adafruit_SPITFT)
    (x y : Z)
| CallLoad (stack : nat -> byte) (can_alloc : Z -> Z -> bool)
    (filename : string) (canvas1 : outptr (option GFXcanvas16))
    (canvas2 palette : outptr (option unit)) (fmt : outptr CanvasFormat)
| CallDimensions (filename : string) (width height : outptr Z).

Definition call_trace (SD : string -> option (list byte)) (c : call)
  : list event :=
  match c with
  | CallDraw stack filename tft x y =>
      trace (drawBMP stack SD filename tft x y)
  | CallLoad stack can_alloc filename canvas1 canvas2 palette fmt =>
      trace (loadBMP stack SD can_alloc filename canvas1 canvas2 palette fmt)
  | CallDimensions filename width height =>
      dim_trace (bmpDimensions SD filename width height)
  end.

(** Whether [file] is open after a call, given whether it was
    before. *)
Definition file_after (SD : string -> option (list byte)) (open : bool)
    (c : call) : bool :=
  fold_left stream_step (call_trace SD c) open.

(** The life of a reader: constructed, used for the calls [cs] one
    after the other, destroyed.  Gives the calls made to the
    collaborators. *)
Definition lifetime (SD : string -> option (list byte)) (cs : list call)
  : list event :=
  flat_map (call_trace SD) cs
  ++ destructor (fold_left (file_after SD) cs constructor).

(** ** More files for the examples *)

(** A top-down image (height field -2) of two rows of two pixels: blue
    and green, then red and white; each row takes 8 bytes, 2 of them
    padding. *)
Definition top_down_2x2 : list byte :=
  bmp_file 2 (-2) (blue ++ green ++ [0; 0] ++ red ++ white ++ [0; 0]).

Definition top_down_card : string -> option (list byte) :=
  card "td.bmp"%string top_down_2x2.

(** A bottom-up image (height field 2) of two rows of two pixels.  The
    file stores the bottom row first: red and white; then the top row:
    blue and green. *)
Definition bottom_up_2x2 : list byte :=
  bmp_file 2 2 (red ++ white ++ [0; 0] ++ blue ++ green ++ [0; 0]).

Definition bottom_up_card : string -> option (list byte) :=
  card "bu.bmp"%string bottom_up_2x2.

(** What the stack holds in the examples: bytes that belong to no
    file. *)
Definition leftover : nat -> byte := fun i => b8 (165 + 7 * Z.of_nat i).

(** Another stack. *)
Definition leftover' : nat -> byte := fun i => b8 (90 + 3 * Z.of_nat i).

(** ** Machine integers: basic facts *)

Lemma u16_small (z : Z) : 0 <= z < 2 ^ 16 -> u16 z = z.
Proof. intros H. unfold u16. now apply Z.mod_small. Qed.

Lemma u32_small (z : Z) : 0 <= z < 2 ^ 32 -> u32 z = z.
Proof. intros H. unfold u32. now apply Z.mod_small. Qed.

Lemma u32_range (z : Z) : 0 <= u32 z < 2 ^ 32.
Proof. unfold u32. apply Z.mod_pos_bound. reflexivity. Qed.

Lemma s32_small (z : Z) : - 2 ^ 31 <= z < 2 ^ 31 -> s32 z = z.
Proof.
  intros H. unfold s32. rewrite Z.mod_small; [ring|].
  change (2 ^ 32) with 4294967296. change (2 ^ 31) with 2147483648 in *. lia.
Qed.

Lemma s32_range (z : Z) : - 2 ^ 31 <= s32 z < 2 ^ 31.
Proof.
  unfold s32.
  pose proof (Z.mod_pos_bound (z + 2 ^ 31) (2 ^ 32) eq_refl) as H.
  change (2 ^ 32) with 4294967296 in *. change (2 ^ 31) with 2147483648 in *.
  lia.
Qed.

Lemma u32_s32 (z : Z) : u32 (s32 z) = u32 z.
Proof.
  unfold u32, s32.
  rewrite <- Zminus_mod_idemp_l, <- Zplus_mod_idemp_l.
  rewrite Z.mod_mod by discriminate.
  rewrite Zplus_mod_idemp_l, Zminus_mod_idemp_l.
  f_equal. ring.
Qed.

(** ** Reading the header *)

Lemma opened_cursor (buf : list Z) (data : list byte) :
  opened buf = cursor buf data 0 [EvOpen true].
Proof. unfold cursor, opened. cbn [fpos sdbuf srcidx dest destidx]. f_equal. lia. Qed.

Lemma file_read1_cursor (buf : list Z) (data : list byte) (k : Z)
    (l : list event) :
  0 <= k ->
  file_read1 data (cursor buf data k l)
  = (byte_at data k, cursor buf data (k + 1) (EvReadByte :: l)).
Proof.
  intros Hk. unfold file_read1, cursor, byte_at.
  cbn [fpos sdbuf srcidx dest destidx log].
  destruct (Z_lt_le_dec k (Z.of_nat (length data))) as [Hlt | Hge].
  - rewrite (Z.min_l k) by lia.
    destruct (nth_error data (Z.to_nat k)) eqn:E.
    + rewrite (Z.min_l (k + 1)) by lia. reflexivity.
    + apply nth_error_None in E. lia.
  - rewrite (Z.min_r k) by lia. rewrite Nat2Z.id.
    assert (E1 : nth_error data (length data) = None)
      by (apply nth_error_None; lia).
    assert (E2 : nth_error data (Z.to_nat k) = None)
      by (apply nth_error_None; lia).
    rewrite E1, E2. rewrite (Z.min_r (k + 1)) by lia. reflexivity.
Qed.

Lemma readLE16_cursor (buf : list Z) (data : list byte) (k : Z)
    (l : list event) :
  0 <= k ->
  readLE16 data (cursor buf data k l)
  = (le16_at data k, cursor buf data (k + 2) (EvReadByte :: EvReadByte :: l)).
Proof.
  intros Hk. unfold readLE16, le16_at.
  rewrite file_read1_cursor by lia.
  rewrite file_read1_cursor by lia.
  replace (k + 1 + 1) with (k + 2) by ring. reflexivity.
Qed.

Lemma readLE32_cursor (buf : list Z) (data : list byte) (k : Z)
    (l : list event) :
  0 <= k ->
  readLE32 data (cursor buf data k l)
  = (le32_at data k,
     cursor buf data (k + 4)
            (EvReadByte :: EvReadByte :: EvReadByte :: EvReadByte :: l)).
Proof.
  intros Hk. unfold readLE32, le32_at.
  rewrite file_read1_cursor by lia.
  rewrite file_read1_cursor by lia.
  rewrite file_read1_cursor by lia.
  rewrite file_read1_cursor by lia.
  replace (k + 1 + 1) with (k + 2) by ring.
  replace (k + 2 + 1) with (k + 3) by ring.
  replace (k + 3 + 1) with (k + 4) by ring. reflexivity.
Qed.

Lemma parse_header_spec (buf : list Z) (data : list byte) :
  parse_header data (opened buf)
  = (if accepted data
     then Some (le32_at data 10, s32 (le32_at data 18), s32 (le32_at data 22))
     else None,
     cursor buf data (header_reads data)
            (header_log (Z.to_nat (header_reads data)))).
Proof.
  unfold parse_header, accepted, header_reads.
  rewrite (opened_cursor buf data).
  rewrite readLE16_cursor by lia.
  destruct (le16_at data 0 =? 0x4D42); [|reflexivity].
  repeat (rewrite readLE32_cursor by lia; cbn [Z.add Pos.add Pos.succ]).
  rewrite readLE16_cursor by lia. cbn [Z.add Pos.add Pos.succ].
  destruct (le16_at data 26 =? 1); [|reflexivity].
  rewrite readLE16_cursor by lia. cbn [Z.add Pos.add Pos.succ].
  destruct (u8 (le16_at data 28) =? 24); [|reflexivity].
  rewrite readLE32_cursor by lia. cbn [Z.add Pos.add Pos.succ].
  destruct (le32_at data 30 =? 0); reflexivity.
Qed.

(** From here on [stack] stands for what the two arrays without
    initialiser hold at first: what is proved holds whatever that
    is. *)
Section Stack.

Variable stack : nat -> byte.

(** ** Invariants of the loops *)

Lemma srcidx_refill (tft : bool) (data : list byte) (st : State) :
  srcidx (refill tft data st) = 0.
Proof. unfold refill. destruct tft; reflexivity. Qed.

Section LoopInvariant.

Variables (tft : bool) (data : list byte) (I : State -> Prop).

Hypothesis I_yield : forall st, I st -> I (emit EvYield st).
Hypothesis I_seek_to : forall pos st, I st -> I (seek_to tft pos st).
Hypothesis I_refill : forall st, I st -> I (refill tft data st).
Hypothesis I_convert :
  forall st, I st -> srcidx st < sizeof_sdbuf -> I (convert st).
Hypothesis I_finish_row : forall st, I st -> I (finish_row tft st).

Lemma pixel_inv (st : State) : I st -> I (pixel tft data st).
Proof.
  intros H. unfold pixel.
  destruct (srcidx st >=? sizeof_sdbuf) eqn:E.
  - apply I_convert; [now apply I_refill|].
    rewrite srcidx_refill. reflexivity.
  - apply I_convert; [assumption|]. lia.
Qed.

Lemma pixels_inv (n : nat) : forall st, I st -> I (pixels tft data n st).
Proof.
  induction n as [|n IH]; intros st H; cbn [pixels]; [assumption|].
  apply IH. now apply pixel_inv.
Qed.

Lemma scanline_inv (flip : bool) (offset bmpHeight rowSize loadWidth row : Z)
    (st : State) :
  I st -> I (scanline tft data flip offset bmpHeight rowSize loadWidth row st).
Proof.
  intros H. unfold scanline.
  apply I_finish_row, pixels_inv, I_seek_to, I_yield, H.
Qed.

Lemma scanlines_inv (flip : bool) (offset bmpHeight rowSize loadWidth : Z)
    (n : nat) :
  forall row st,
    I st ->
    I (scanlines tft data flip offset bmpHeight rowSize loadWidth n row st).
Proof.
  induction n as [|n IH]; intros row st H; cbn [scanlines]; [assumption|].
  apply IH. now apply scanline_inv.
Qed.

End LoopInvariant.

(** ** The shape of a run of coreBMP: proofs *)

Lemma coreBMP_shape (SD : string -> option (list byte))
    (can_alloc : Z -> Z -> bool) (filename : string)
    (tft : option Adafruit_SPITFT) (dest_arg : option (list Z)) (x y : Z)
    (canvas1 : outptr (option GFXcanvas16))
    (canvas2 palette : outptr (option unit)) (fmt : outptr CanvasFormat)
    (data : list byte) :
  offscreen tft x y = false ->
  SD filename = Some data ->
  run_shape stack (is_tft tft) dest_arg data
    (trace (coreBMP stack SD can_alloc filename tft dest_arg x y
                    canvas1 canvas2 palette fmt)).
Proof.
  intros Hoff HSD. unfold coreBMP. rewrite Hoff, HSD, parse_header_spec.
  fold (after_header stack data).
  destruct (accepted data); [|apply shape_no_rows].
  destruct (normalize_height _) as [bmpHeight flip].
  destruct tft as [t|].
  - destruct (crop t x y _ bmpHeight) as [[[x' y'] lw] lh].
    destruct dest_arg as [d|]; [|apply shape_no_rows].
    destruct (lw >? 0) eqn:Ew; [|apply shape_no_rows].
    destruct (lh >? 0) eqn:Eh; [|apply shape_no_rows].
    cbn [andb trace]. apply shape_rows; auto; lia.
  - destruct (can_alloc _ bmpHeight).
    + destruct (s32 (le32_at data 18) >? 0) eqn:Ew; [|apply shape_no_rows].
      destruct (bmpHeight >? 0) eqn:Eh; [|apply shape_no_rows].
      cbn [andb trace is_tft].
      apply (shape_rows stack false _ data flip _ _ _ _ _ 0 0); try discriminate; lia.
    + destruct dest_arg as [d|]; [|apply shape_no_rows].
      destruct (s32 (le32_at data 18) >? 0) eqn:Ew; [|apply shape_no_rows].
      destruct (bmpHeight >? 0) eqn:Eh; [|apply shape_no_rows].
      cbn [andb trace is_tft].
      apply (shape_rows stack false _ data flip _ _ _ _ _ 0 0); try discriminate; lia.
Qed.

(** ** Buffer indices: proofs *)

Lemma firstn_length_le (n : Z) (l : list Z) :
  0 <= n -> Z.of_nat (length (firstn (Z.to_nat n) l)) <= n.
Proof.
  intros Hn. rewrite length_firstn. lia.
Qed.

Lemma buffers_ok_flush (tft : bool) (st : State) :
  tft = true -> buffers_ok tft st -> buffers_ok tft (flush st).
Proof.
  intros Ht (Hs & Hd & Hl). destruct (Hd Ht) as [Hd0 Hd3].
  destruct Hs as (k & Hk & Hk').
  unfold buffers_ok, flush. cbn [srcidx destidx log set_destidx emit].
  split; [|split].
  - exists k. auto.
  - intros _. lia.
  - constructor; [|assumption].
    cbn [event_in_bounds]. pose proof (firstn_length_le (destidx st) (dest st) Hd0).
    lia.
Qed.

Lemma buffers_ok_emit (tft : bool) (e : event) (st : State) :
  event_in_bounds tft e -> buffers_ok tft st -> buffers_ok tft (emit e st).
Proof.
  intros He (Hs & Hd & Hl). unfold buffers_ok.
  cbn [srcidx destidx log emit]. auto.
Qed.

Lemma buffers_ok_seek_to (tft : bool) (pos : Z) (st : State) :
  buffers_ok tft st -> buffers_ok tft (seek_to tft pos st).
Proof.
  intros H. unfold seek_to.
  destruct (file_position st =? pos); [assumption|].
  assert (H1 : buffers_ok tft (if tft then emit EvEndWrite st else st))
    by (destruct tft; [apply buffers_ok_emit; [exact Logic.I|]|]; assumption).
  destruct H1 as (Hs & Hd & Hl). destruct Hs as (k & Hk & Hk').
  unfold buffers_ok. cbn [srcidx destidx log set_srcidx file_seek].
  split; [|split].
  - exists DRAWPIXELS. unfold sizeof_sdbuf, DRAWPIXELS. lia.
  - intros Ht. specialize (Hd Ht). unfold sizeof_sdbuf. lia.
  - constructor; [exact Logic.I | assumption].
Qed.

Lemma buffers_ok_refill (tft : bool) (data : list byte) (st : State) :
  buffers_ok tft st -> buffers_ok tft (refill tft data st).
Proof.
  intros H. unfold refill. destruct tft.
  - assert (H1 : buffers_ok true
                   (emit EvStartWrite
                      (file_read data sizeof_sdbuf (emit EvEndWrite st)))).
    { destruct H as (Hs & Hd & Hl). unfold buffers_ok.
      cbn [srcidx destidx log emit file_read].
      split; [|split]; auto.
      repeat (constructor; [exact Logic.I|]). assumption. }
    set (st1 := emit EvStartWrite _) in *.
    assert (H2 : buffers_ok true (if destidx st1 =? 0 then st1 else flush st1)
                 /\ destidx (if destidx st1 =? 0 then st1 else flush st1) = 0).
    { destruct (destidx st1 =? 0) eqn:E.
      - split; [assumption | lia].
      - split; [now apply buffers_ok_flush | reflexivity]. }
    destruct H2 as [(Hs & Hd & Hl) Hz].
    unfold buffers_ok. cbn [srcidx destidx log set_srcidx].
    split; [|split]; try assumption.
    + exists 0. unfold DRAWPIXELS. lia.
    + intros _. lia.
  - destruct H as (Hs & Hd & Hl). unfold buffers_ok.
    cbn [srcidx destidx log set_srcidx file_read].
    split; [|split]; try discriminate.
    + exists 0. unfold DRAWPIXELS. lia.
    + constructor; [exact Logic.I | assumption].
Qed.

Lemma buffers_ok_convert (tft : bool) (st : State) :
  buffers_ok tft st -> srcidx st < sizeof_sdbuf -> buffers_ok tft (convert st).
Proof.
  intros (Hs & Hd & Hl) Hlt. destruct Hs as (k & Hk & Hk').
  unfold sizeof_sdbuf in Hlt. unfold convert.
  assert (D : DRAWPIXELS = 200) by reflexivity.
  assert (E1 : u16 (srcidx st + 1) = 3 * k + 1)
    by (rewrite Hk; apply u16_small; change (2 ^ 16) with 65536; lia).
  rewrite E1.
  assert (E2 : u16 (3 * k + 1 + 1) = 3 * k + 2)
    by (rewrite u16_small; change (2 ^ 16) with 65536; lia).
  rewrite E2.
  assert (E3 : u16 (3 * k + 2 + 1) = 3 * (k + 1))
    by (rewrite u16_small; change (2 ^ 16) with 65536; lia).
  rewrite E3.
  unfold buffers_ok. cbn [srcidx destidx log].
  split; [|split].
  - exists (k + 1). lia.
  - intros Ht. specialize (Hd Ht).
    rewrite u32_small by (change (2 ^ 32) with 4294967296; lia). lia.
  - constructor; [intros Ht; specialize (Hd Ht); lia|].
    constructor; [cbn [event_in_bounds]; lia|].
    constructor; [cbn [event_in_bounds]; lia|].
    constructor; [cbn [event_in_bounds]; lia|]. assumption.
Qed.

Lemma buffers_ok_finish_row (tft : bool) (st : State) :
  buffers_ok tft st -> buffers_ok tft (finish_row tft st).
Proof.
  intros H. unfold finish_row. destruct tft; [|assumption].
  apply buffers_ok_emit; [exact Logic.I|].
  destruct (destidx st =? 0); [assumption | now apply buffers_ok_flush].
Qed.

Lemma buffers_ok_after_header (tft : bool) (data : list byte) :
  buffers_ok tft (after_header stack data).
Proof.
  unfold buffers_ok, after_header, cursor, opened.
  cbn [srcidx destidx log]. split; [|split].
  - exists DRAWPIXELS. unfold sizeof_sdbuf, DRAWPIXELS. lia.
  - intros _. unfold sizeof_sdbuf, DRAWPIXELS. lia.
  - unfold header_log. apply Forall_app. split.
    + apply Forall_forall. intros e He. apply repeat_spec in He. now subst.
    + repeat constructor.
Qed.

Lemma buffers_ok_run (tft : bool) (dest_arg : option (list Z))
    (data : list byte) (t : list event) :
  run_shape stack tft dest_arg data t -> Forall (event_in_bounds tft) t.
Proof.
  intros H.
  assert (R : forall st, buffers_ok tft st ->
                         Forall (event_in_bounds tft) (rev (EvClose :: log st))).
  { intros st (_ & _ & Hl). apply Forall_rev. constructor; [exact Logic.I|assumption]. }
  destruct H; apply R.
  - apply buffers_ok_after_header.
  - apply scanlines_inv.
    + intros st. apply buffers_ok_emit. exact Logic.I.
    + intros pos st. apply buffers_ok_seek_to.
    + intros st. apply buffers_ok_refill.
    + intros st. apply buffers_ok_convert.
    + intros st. apply buffers_ok_finish_row.
    + assert (Hset : buffers_ok tft (set_dest d (after_header stack data)))
        by apply (buffers_ok_after_header tft data).
      unfold start_region. destruct tft; [|assumption].
      repeat (apply buffers_ok_emit; [exact Logic.I|]). assumption.
Qed.

(** ** Display transactions: proofs *)

Lemma txn_open_fold (l : list event) :
  txn_open l = fold_right (fun e b => txn_step b e) false l.
Proof.
  induction l as [|e l IH]; [reflexivity|].
  cbn [fold_right]. rewrite <- IH. destruct e; reflexivity.
Qed.

Lemma in_transaction_rev (t : list event) : in_transaction t = txn_open (rev t).
Proof.
  unfold in_transaction. rewrite txn_open_fold.
  symmetry. apply fold_left_rev_right.
Qed.

Lemma exclusive_app (l1 l2 : list event) (e : event) :
  exclusive (l1 ++ e :: l2) -> is_storage e = true -> txn_open l2 = false.
Proof.
  induction l1 as [|a l1 IH]; cbn [app exclusive]; intros [H1 H2] He; auto.
Qed.

Lemma bracketed_app_read (l1 l2 : list event) (p n : Z) :
  bracketed (l1 ++ EvRead p n :: l2) ->
  (exists l2', l2 = EvEndWrite :: l2')
  /\ (l1 = [] \/ exists l1', l1 = l1' ++ [EvStartWrite]).
Proof.
  induction l1 as [|a l1 IH].
  - cbn [app bracketed]. intros (_ & H & _). split; [|now left].
    destruct l2 as [|[] l2]; try contradiction. now exists l2.
  - cbn [app]. intros H. cbn [bracketed] in H. destruct H as (Ha & _ & Hb).
    destruct (IH Hb) as [Hl2 Hl1]. split; [assumption|]. right.
    destruct Hl1 as [-> | [l1' ->]].
    + cbn [app] in Ha. subst a. now exists [].
    + now exists (a :: l1').
Qed.

Lemma bracketed_app_seek (l1 l2 : list event) (p : Z) :
  bracketed (l1 ++ EvSeek p :: l2) -> exists l2', l2 = EvEndWrite :: l2'.
Proof.
  induction l1 as [|a l1 IH].
  - cbn [app bracketed]. intros (_ & H & _).
    destruct l2 as [|[] l2]; try contradiction. now exists l2.
  - cbn [app]. intros H. cbn [bracketed] in H. apply IH, H.
Qed.

Lemma txn_inv_emit (e : event) (st : State) :
  is_storage e = false -> txn_inv st -> txn_inv (emit e st).
Proof.
  intros He (H1 & H2 & H3). unfold txn_inv. cbn [log emit].
  split; [|split].
  - cbn [exclusive]. split; [congruence | assumption].
  - cbn [bracketed]. split; [|split; [|assumption]].
    + destruct (log st) as [|[] l]; try exact Logic.I. contradiction.
    + destruct e; try exact Logic.I; discriminate.
  - destruct e; try exact Logic.I; discriminate.
Qed.

Lemma txn_inv_flush (st : State) : txn_inv st -> txn_inv (flush st).
Proof.
  intros H. unfold flush.
  apply (txn_inv_emit (EvWritePixels (firstn (Z.to_nat (destidx st)) (dest st))))
    in H; [|reflexivity].
  exact H.
Qed.

Lemma txn_inv_seek_to (pos : Z) (st : State) :
  txn_inv st -> txn_inv (seek_to true pos st).
Proof.
  intros H. unfold seek_to. destruct (file_position st =? pos); [assumption|].
  apply (txn_inv_emit EvEndWrite) in H; [|reflexivity].
  destruct H as (H1 & H2 & H3).
  unfold txn_inv. cbn [log set_srcidx file_seek emit] in *.
  split; [|split].
  - cbn [exclusive] in *. split; [reflexivity | assumption].
  - cbn [bracketed] in *. split; [exact Logic.I|]. split; [exact Logic.I|].
    assumption.
  - exact Logic.I.
Qed.

Lemma txn_inv_refill (data : list byte) (st : State) :
  txn_inv st -> txn_inv (refill true data st).
Proof.
  intros H. unfold refill.
  assert (H1 : txn_inv (emit EvStartWrite
                          (file_read data sizeof_sdbuf (emit EvEndWrite st)))).
  { apply (txn_inv_emit EvEndWrite) in H; [|reflexivity].
    destruct H as (H1 & H2 & H3).
    unfold txn_inv. cbn [log emit file_read] in *.
    split; [|split].
    - cbn [exclusive] in *. split; [discriminate|]. split; [reflexivity|].
      assumption.
    - cbn [bracketed] in *. split; [reflexivity|]. split; [exact Logic.I|].
      split; [exact Logic.I|]. split; [exact Logic.I|]. assumption.
    - exact Logic.I. }
  set (st1 := emit EvStartWrite _) in *.
  destruct (destidx st1 =? 0); [exact H1|].
  apply txn_inv_flush in H1. exact H1.
Qed.

Lemma txn_inv_convert (st : State) : txn_inv st -> txn_inv (convert st).
Proof.
  intros H. unfold convert.
  set (i0 := srcidx st). set (i1 := u16 (i0 + 1)). set (i2 := u16 (i1 + 1)).
  set (b := array_get (sdbuf st) i0). set (g := array_get (sdbuf st) i1).
  set (r := array_get (sdbuf st) i2).
  apply (txn_inv_emit (EvSdbuf i0 b)) in H; [|reflexivity].
  apply (txn_inv_emit (EvSdbuf i1 g)) in H; [|reflexivity].
  apply (txn_inv_emit (EvSdbuf i2 r)) in H; [|reflexivity].
  apply (txn_inv_emit (EvDest (destidx st) (color565 b g r))) in H; [|reflexivity].
  exact H.
Qed.

Lemma txn_inv_finish_row (st : State) : txn_inv st -> txn_inv (finish_row true st).
Proof.
  intros H. unfold finish_row.
  apply txn_inv_emit; [reflexivity|].
  destruct (destidx st =? 0); [assumption | now apply txn_inv_flush].
Qed.

Lemma header_log_quiet (n : nat) :
  exclusive (header_log n) /\ bracketed (header_log n)
  /\ head_not_read (header_log n) /\ txn_open (header_log n) = false.
Proof.
  unfold header_log. induction n as [|n (H1 & H2 & H3 & H4)].
  - cbn. auto.
  - cbn [repeat app exclusive bracketed head_not_read txn_open].
    split; [split; [intros _; exact H4 | exact H1]|].
    split; [|split; [exact Logic.I | exact H4]].
    split; [|split; [exact Logic.I | exact H2]].
    destruct n; exact Logic.I.
Qed.

Lemma txn_inv_after_header (data : list byte) : txn_inv (after_header stack data).
Proof.
  unfold txn_inv, after_header, cursor. cbn [log].
  destruct (header_log_quiet (Z.to_nat (header_reads data))) as (H1 & H2 & H3 & _).
  auto.
Qed.

Lemma scanlines_ends_row (data : list byte) (flip : bool)
    (offset bmpHeight rowSize loadWidth : Z) (n : nat) :
  forall row st,
    (0 < n)%nat ->
    exists l,
      log (scanlines true data flip offset bmpHeight rowSize loadWidth n row st)
      = EvEndWrite :: l.
Proof.
  induction n as [|n IH]; intros row st Hn; [lia|].
  cbn [scanlines]. destruct n as [|m].
  - cbn [scanlines]. unfold scanline, finish_row. cbn [log emit]. eauto.
  - apply IH. lia.
Qed.

(** The log of a run that draws to a display, with the closing of the
    file on top, keeps the storage and the display apart. *)
Lemma txn_run (dest_arg : option (list Z)) (data : list byte)
    (t : list event) :
  run_shape stack true dest_arg data t ->
  exists l, t = rev l /\ exclusive l /\ bracketed l /\ head_not_read l.
Proof.
  intros H.
  assert (R : forall st, txn_inv st -> txn_open (log st) = false ->
                exists l, rev (EvClose :: log st) = rev l
                          /\ exclusive l /\ bracketed l /\ head_not_read l).
  { intros st (H1 & H2 & H3) H4. exists (EvClose :: log st).
    split; [reflexivity|]. cbn [exclusive bracketed head_not_read].
    split; [split; [intros _; exact H4 | exact H1]|].
    split; [|exact Logic.I].
    split; [|split; [exact Logic.I | exact H2]].
    destruct (log st) as [|[] l]; try exact Logic.I. contradiction. }
  destruct H as [|flip offset bmpHeight rowSize lw lh x y d Hw Hh _]; apply R.
  - apply txn_inv_after_header.
  - unfold after_header, cursor. cbn [log]. apply header_log_quiet.
  - apply scanlines_inv.
    + intros st. apply txn_inv_emit. reflexivity.
    + intros pos st. apply txn_inv_seek_to.
    + intros st. apply txn_inv_refill.
    + intros st Hs _. now apply txn_inv_convert.
    + intros st. apply txn_inv_finish_row.
    + unfold start_region.
      apply txn_inv_emit; [reflexivity|]. apply txn_inv_emit; [reflexivity|].
      apply (txn_inv_after_header data).
  - destruct (scanlines_ends_row data flip offset bmpHeight rowSize lw
                (Z.to_nat lh) 0
                (start_region true x y lw lh (set_dest d (after_header stack data))))
      as [l Hl]; [lia|].
    rewrite Hl. reflexivity.
Qed.

(** ** Runs that do not open a file *)

Lemma coreBMP_offscreen (SD : string -> option (list byte))
    (can_alloc : Z -> Z -> bool) (filename : string)
    (tft : option Adafruit_SPITFT) (dest_arg : option (list Z)) (x y : Z)
    (canvas1 : outptr (option GFXcanvas16))
    (canvas2 palette : outptr (option unit)) (fmt : outptr CanvasFormat) :
  offscreen tft x y = true ->
  coreBMP stack SD can_alloc filename tft dest_arg x y canvas1 canvas2 palette fmt
  = mkResult IMAGE_SUCCESS canvas1 (poke canvas2 None) (poke palette None)
             (poke fmt CANVAS_NONE) [].
Proof. intros H. unfold coreBMP. rewrite H. reflexivity. Qed.

Lemma coreBMP_not_found (SD : string -> option (list byte))
    (can_alloc : Z -> Z -> bool) (filename : string)
    (tft : option Adafruit_SPITFT) (dest_arg : option (list Z)) (x y : Z)
    (canvas1 : outptr (option GFXcanvas16))
    (canvas2 palette : outptr (option unit)) (fmt : outptr CanvasFormat) :
  offscreen tft x y = false ->
  SD filename = None ->
  coreBMP stack SD can_alloc filename tft dest_arg x y canvas1 canvas2 palette fmt
  = mkResult IMAGE_ERR_FILE_NOT_FOUND canvas1 (poke canvas2 None)
             (poke palette None) (poke fmt CANVAS_NONE) [EvOpen false].
Proof. intros H1 H2. unfold coreBMP. rewrite H1, H2. reflexivity. Qed.

(** The three ways a run of coreBMP can go. *)
Lemma coreBMP_trace_cases (SD : string -> option (list byte))
    (can_alloc : Z -> Z -> bool) (filename : string)
    (tft : option Adafruit_SPITFT) (dest_arg : option (list Z)) (x y : Z)
    (canvas1 : outptr (option GFXcanvas16))
    (canvas2 palette : outptr (option unit)) (fmt : outptr CanvasFormat) :
  let tr := trace (coreBMP stack SD can_alloc filename tft dest_arg x y
                           canvas1 canvas2 palette fmt) in
  tr = [] \/ tr = [EvOpen false]
  \/ exists data,
       SD filename = Some data /\ run_shape stack (is_tft tft) dest_arg data tr.
Proof.
  intros tr. subst tr.
  destruct (offscreen tft x y) eqn:Hoff.
  - left. now rewrite coreBMP_offscreen.
  - destruct (SD filename) as [data|] eqn:HSD.
    + right. right. exists data. split; [reflexivity|].
      now apply coreBMP_shape.
    + right. left. now rewrite coreBMP_not_found.
Qed.

Lemma coreBMP_in_bounds (SD : string -> option (list byte))
    (can_alloc : Z -> Z -> bool) (filename : string)
    (tft : option Adafruit_SPITFT) (dest_arg : option (list Z)) (x y : Z)
    (canvas1 : outptr (option GFXcanvas16))
    (canvas2 palette : outptr (option unit)) (fmt : outptr CanvasFormat) :
  Forall (event_in_bounds (is_tft tft))
         (trace (coreBMP stack SD can_alloc filename tft dest_arg x y
                         canvas1 canvas2 palette fmt)).
Proof.
  destruct (coreBMP_trace_cases SD can_alloc filename tft dest_arg x y
              canvas1 canvas2 palette fmt) as [-> | [-> | (data & _ & H)]].
  - constructor.
  - repeat constructor.
  - now apply (buffers_ok_run _ dest_arg data).
Qed.

Lemma rev_split (l t1 t2 : list event) (e : event) :
  rev l = t1 ++ e :: t2 -> l = rev t2 ++ e :: rev t1.
Proof.
  intros H. rewrite <- (rev_involutive l), H, rev_app_distr.
  cbn [rev]. rewrite <- app_assoc. reflexivity.
Qed.

(** ** Colour conversion: proofs *)

Lemma byte_val_is_byte (b : byte) : is_byte (byte_val b).
Proof.
  unfold is_byte, byte_val. pose proof (Byte.to_N_bounded b). lia.
Qed.

Lemma land_le (a b : Z) : 0 <= a -> 0 <= b -> 0 <= Z.land a b <= b.
Proof.
  intros Ha Hb. rewrite <- (Z2N.id a), <- (Z2N.id b) by assumption.
  rewrite <- N2Z.inj_land. split.
  - apply N2Z.is_nonneg.
  - apply N2Z.inj_le, N.land_le_r.
Qed.

Lemma lor_below (n a b : Z) :
  0 <= n -> 0 <= a < 2 ^ n -> 0 <= b < 2 ^ n -> 0 <= Z.lor a b < 2 ^ n.
Proof.
  intros Hn Ha Hb.
  assert (E : Z.lor a b = Z.lor a b mod 2 ^ n).
  { rewrite <- Z.land_ones by assumption.
    rewrite Z.land_lor_distr_l.
    rewrite !Z.land_ones by assumption.
    rewrite !Z.mod_small by assumption. reflexivity. }
  rewrite E. apply Z.mod_pos_bound. apply Z.pow_pos_nonneg; lia.
Qed.


(** The masks keep the conversion inside 16 bits whatever the three
    numbers are. *)
Lemma land_mask_le (z m : Z) : 0 <= m < 256 -> 0 <= Z.land z m <= m.
Proof.
  intros Hm.
  assert (E : Z.land z m = Z.land (z mod 2 ^ 8) m).
  { rewrite <- (Z.land_ones z 8) by lia.
    rewrite <- Z.land_assoc, (Z.land_comm (Z.ones 8) m).
    rewrite (Z.land_ones m 8) by lia.
    rewrite (Z.mod_small m) by (change (2 ^ 8) with 256; lia).
    reflexivity. }
  rewrite E. apply land_le; [|lia].
  apply Z.mod_pos_bound. reflexivity.
Qed.

Lemma color565_any (b g r : Z) : color565 b g r = formula_565 b g r.
Proof.
  unfold color565, formula_565. apply u16_small.
  pose proof (land_mask_le r 248 ltac:(lia)) as Lr.
  pose proof (land_mask_le g 252 ltac:(lia)) as Lg.
  pose proof (land_mask_le b 248 ltac:(lia)) as Lb.
  apply lor_below; [lia | apply lor_below; [lia | |] |].
  - rewrite Z.shiftl_mul_pow2 by lia.
    change (2 ^ 8) with 256. change (2 ^ 16) with 65536. lia.
  - rewrite Z.shiftl_mul_pow2 by lia.
    change (2 ^ 3) with 8. change (2 ^ 16) with 65536. lia.
  - rewrite Z.shiftr_div_pow2 by lia.
    change (2 ^ 3) with 8. change (2 ^ 16) with 65536.
    split.
    + apply Z.div_pos; lia.
    + apply Z.div_lt_upper_bound; lia.
Qed.

Lemma color565_bytes (b g r : Z) :
  is_byte b -> is_byte g -> is_byte r -> color565 b g r = formula_565 b g r.
Proof. intros _ _ _. apply color565_any. Qed.

Lemma array_get_is_byte (l : list Z) (i : Z) :
  Forall is_byte l -> is_byte (array_get l i).
Proof.
  intros H. unfold array_get.
  destruct (i <? 0); [unfold is_byte; lia|].
  destruct (nth_in_or_default (Z.to_nat i) l 0) as [Hin | ->].
  - rewrite Forall_forall in H. now apply H.
  - unfold is_byte. lia.
Qed.

Lemma conv_inv_emit (e : event) (st : State) :
  (forall j v, e <> EvDest j v) -> conv_inv st -> conv_inv (emit e st).
Proof.
  intros He (H0 & H1 & H2). split; [exact H0|]. split; [exact H1|].
  cbn [log emit]. destruct e; try exact H2. now elim (He i v).
Qed.

Lemma conv_inv_flush (st : State) : conv_inv st -> conv_inv (flush st).
Proof.
  intros H. unfold flush.
  apply (conv_inv_emit (EvWritePixels (firstn (Z.to_nat (destidx st)) (dest st))))
    in H; [exact H | discriminate].
Qed.

Lemma conv_inv_file_read (data : list byte) (n : Z) (st : State) :
  conv_inv st -> conv_inv (file_read data n st).
Proof.
  intros (H0 & H1 & H2). split; [exact H0|]. split; [|exact H2].
  cbn [sdbuf file_read].
  apply Forall_app. split.
  - apply Forall_forall. intros z Hz. apply in_map_iff in Hz.
    destruct Hz as (b & <- & _). apply byte_val_is_byte.
  - set (k := length _). rewrite <- (firstn_skipn k (sdbuf st)) in H1.
    apply Forall_app in H1. exact (proj2 H1).
Qed.

Lemma conv_inv_seek_to (tft : bool) (pos : Z) (st : State) :
  conv_inv st -> conv_inv (seek_to tft pos st).
Proof.
  intros H. unfold seek_to. destruct (file_position st =? pos); [assumption|].
  assert (H1 : conv_inv (if tft then emit EvEndWrite st else st))
    by (destruct tft; [apply conv_inv_emit; [discriminate|]|]; assumption).
  destruct H1 as (_ & H1 & H2). split; [|split; assumption].
  exists DRAWPIXELS. cbn [srcidx set_srcidx]. unfold sizeof_sdbuf, DRAWPIXELS.
  lia.
Qed.

Lemma conv_inv_set_srcidx_0 (st : State) :
  conv_inv st -> conv_inv (set_srcidx 0 st).
Proof.
  intros (_ & H1 & H2). split; [|split; assumption].
  exists 0. cbn [srcidx set_srcidx]. unfold DRAWPIXELS. lia.
Qed.

Lemma conv_inv_refill (tft : bool) (data : list byte) (st : State) :
  conv_inv st -> conv_inv (refill tft data st).
Proof.
  intros H. unfold refill. destruct tft.
  - apply (conv_inv_emit EvEndWrite) in H; [|discriminate].
    apply (conv_inv_file_read data sizeof_sdbuf) in H.
    apply (conv_inv_emit EvStartWrite) in H; [|discriminate].
    set (st1 := emit EvStartWrite _) in *.
    apply conv_inv_set_srcidx_0.
    destruct (destidx st1 =? 0); [exact H|].
    apply conv_inv_flush in H. exact H.
  - apply (conv_inv_file_read data sizeof_sdbuf) in H.
    now apply conv_inv_set_srcidx_0.
Qed.

Lemma conv_inv_convert (st : State) :
  conv_inv st -> srcidx st < sizeof_sdbuf -> conv_inv (convert st).
Proof.
  intros ((k & Hk & Hr) & H1 & H2) Hs.
  unfold sizeof_sdbuf, DRAWPIXELS in *.
  assert (W : 2 ^ 16 = 65536) by reflexivity.
  assert (E1 : u16 (srcidx st + 1) = srcidx st + 1)
    by (apply u16_small; lia).
  assert (E2 : u16 (srcidx st + 1 + 1) = srcidx st + 2)
    by (rewrite u16_small; lia).
  unfold convert. rewrite E1, E2. split; [|split; [exact H1|]].
  - exists (k + 1). cbn [srcidx]. unfold DRAWPIXELS.
    rewrite u16_small; lia.
  - cbn [log converted].
    set (b := array_get (sdbuf st) (srcidx st)).
    set (g := array_get (sdbuf st) _). set (r := array_get (sdbuf st) _).
    assert (Hb : is_byte b) by now apply array_get_is_byte.
    assert (Hg : is_byte g) by now apply array_get_is_byte.
    assert (Hr' : is_byte r) by now apply array_get_is_byte.
    split; [|exact H2].
    split; [reflexivity|]. split; [reflexivity|].
    split; [exact Hb|]. split; [exact Hg|]. split; [exact Hr'|].
    now apply color565_bytes.
Qed.

Lemma conv_inv_finish_row (tft : bool) (st : State) :
  conv_inv st -> conv_inv (finish_row tft st).
Proof.
  intros H. unfold finish_row. destruct tft; [|assumption].
  apply conv_inv_emit; [discriminate|].
  destruct (destidx st =? 0); [assumption | now apply conv_inv_flush].
Qed.

Lemma converted_header_log (n : nat) : converted (header_log n).
Proof.
  unfold header_log. induction n as [|n IH]; [exact Logic.I | exact IH].
Qed.

Lemma conv_inv_after_header (data : list byte) :
  conv_inv (after_header stack data).
Proof.
  split; [|split].
  - exists DRAWPIXELS. cbn [srcidx after_header cursor].
    unfold sizeof_sdbuf, DRAWPIXELS. lia.
  - cbn [sdbuf after_header cursor]. unfold stack_sdbuf.
    apply Forall_forall. intros z Hz. apply in_map_iff in Hz.
    destruct Hz as (i & <- & _). apply byte_val_is_byte.
  - apply converted_header_log.
Qed.

Lemma conv_run (tft : bool) (dest_arg : option (list Z)) (data : list byte)
    (t : list event) :
  run_shape stack tft dest_arg data t -> exists l, t = rev l /\ converted l.
Proof.
  intros H.
  assert (R : forall st, conv_inv st ->
                exists l, rev (EvClose :: log st) = rev l /\ converted l).
  { intros st (_ & _ & H2). exists (EvClose :: log st).
    split; [reflexivity | exact H2]. }
  destruct H; apply R.
  - apply conv_inv_after_header.
  - apply scanlines_inv.
    + intros st. apply conv_inv_emit. discriminate.
    + intros pos st. apply conv_inv_seek_to.
    + intros st. apply conv_inv_refill.
    + intros st Hs Hlt. now apply conv_inv_convert.
    + intros st. apply conv_inv_finish_row.
    + assert (Hset : conv_inv (set_dest d (after_header stack data)))
        by apply (conv_inv_after_header data).
      unfold start_region. destruct tft; [|assumption].
      apply conv_inv_emit; [discriminate|].
      apply conv_inv_emit; [discriminate|]. assumption.
Qed.

Lemma converted_app (l1 l2 : list event) (j v : Z) :
  converted (l1 ++ EvDest j v :: l2) ->
  exists i b g r l2',
    l2 = EvSdbuf (i + 2) r :: EvSdbuf (i + 1) g :: EvSdbuf i b :: l2'
    /\ is_byte b /\ is_byte g /\ is_byte r /\ v = formula_565 b g r.
Proof.
  induction l1 as [|a l1 IH].
  - cbn [app converted]. intros [H _].
    destruct l2 as [|[] [|[] [|[] l2]]]; try contradiction.
    destruct H as (-> & -> & Hb & Hg & Hr & Hv).
    do 5 eexists. split; [reflexivity|].
    exact (conj Hb (conj Hg (conj Hr Hv))).
  - cbn [app]. intros H. apply IH.
    destruct a; try exact H. cbn [converted] in H. apply H.
Qed.

(** ** What the display receives: proofs *)

Lemma length_list_set (l : list Z) (i : nat) (v : Z) :
  length (list_set l i v) = length l.
Proof.
  revert i. induction l as [|h t IH]; intros [|i]; cbn [list_set length];
    try reflexivity. now rewrite IH.
Qed.

Lemma firstn_list_set (l : list Z) (i : nat) (v : Z) :
  (i < length l)%nat ->
  firstn (S i) (list_set l i v) = firstn i l ++ [v].
Proof.
  revert i. induction l as [|h t IH]; intros i Hi; cbn [length] in Hi; [lia|].
  destruct i as [|i].
  - reflexivity.
  - cbn [list_set]. rewrite firstn_cons, (firstn_cons i h t).
    rewrite IH by lia. reflexivity.
Qed.

Lemma batch_inv_emit (e : event) (st : State) :
  match e with
  | EvDest _ _ | EvWritePixels _ | EvSdbuf _ _ => False
  | _ => True
  end ->
  batch_inv st -> batch_inv (emit e st).
Proof.
  intros He (Hb & Hn & Hp & Hd). unfold batch_inv.
  cbn [dest destidx log emit].
  split; [|split; [exact Hn|]].
  - apply buffers_ok_emit; [|exact Hb].
    destruct e; try exact Logic.I; contradiction.
  - destruct e; try (split; assumption); contradiction.
Qed.

Lemma batch_inv_flush (st : State) : batch_inv st -> batch_inv (flush st).
Proof.
  intros (Hb & Hn & Hp & Hd). unfold batch_inv.
  split; [now apply buffers_ok_flush|].
  cbn [dest destidx log flush set_destidx emit pending delivered].
  split; [exact Hn|]. split; [reflexivity|]. split; [exact Hp | exact Hd].
Qed.

Lemma batch_inv_seek_to (pos : Z) (st : State) :
  batch_inv st -> batch_inv (seek_to true pos st).
Proof.
  intros H. pose proof H as (Hb & _).
  apply (buffers_ok_seek_to true pos) in Hb.
  unfold seek_to in *. destruct (file_position st =? pos); [assumption|].
  apply (batch_inv_emit EvEndWrite) in H; [|exact Logic.I].
  destruct H as (_ & Hn & Hp & Hd). unfold batch_inv.
  split; [exact Hb|]. cbn [dest destidx log set_srcidx file_seek] in *.
  auto.
Qed.

Lemma batch_inv_refill (data : list byte) (st : State) :
  batch_inv st -> batch_inv (refill true data st).
Proof.
  intros H. pose proof H as (Hb & _).
  apply (buffers_ok_refill true data) in Hb.
  unfold refill in *.
  assert (H1 : batch_inv (emit EvStartWrite
                            (file_read data sizeof_sdbuf (emit EvEndWrite st)))).
  { apply (batch_inv_emit EvEndWrite) in H; [|exact Logic.I].
    apply batch_inv_emit; [exact Logic.I|].
    destruct H as ((Hs & Hx & Hl) & Hn & Hp & Hd). unfold batch_inv, buffers_ok.
    cbn [srcidx dest destidx log file_read] in *.
    split; [split; [exact Hs | split; [exact Hx|]]|].
    - constructor; [exact Logic.I | exact Hl].
    - auto. }
  set (st1 := emit EvStartWrite _) in *.
  assert (H2 : batch_inv (if destidx st1 =? 0 then st1 else flush st1))
    by (destruct (destidx st1 =? 0); [exact H1 | now apply batch_inv_flush]).
  destruct H2 as (_ & Hn & Hp & Hd). unfold batch_inv.
  split; [exact Hb|]. cbn [dest destidx log set_srcidx]. auto.
Qed.

Lemma batch_inv_convert (st : State) :
  batch_inv st -> srcidx st < sizeof_sdbuf -> batch_inv (convert st).
Proof.
  intros (Hb & Hn & Hp & Hd) Hlt. unfold batch_inv.
  split; [now apply buffers_ok_convert|].
  destruct Hb as (_ & Hx & _). destruct (Hx eq_refl) as [H0 H3].
  unfold sizeof_sdbuf in Hlt.
  assert (D : DRAWPIXELS = 200) by reflexivity.
  unfold convert. cbn [dest destidx log pending delivered].
  unfold array_set. destruct (destidx st <? 0) eqn:E; [lia|].
  split; [now rewrite length_list_set|]. split; [|exact Hd].
  rewrite u32_small by (change (2 ^ 32) with 4294967296; lia).
  rewrite Z2Nat.inj_add by lia. change (Z.to_nat 1) with 1%nat.
  rewrite Nat.add_1_r, firstn_list_set by lia.
  now rewrite Hp.
Qed.

Lemma batch_inv_finish_row (st : State) :
  batch_inv st -> batch_inv (finish_row true st).
Proof.
  intros H. unfold finish_row.
  apply batch_inv_emit; [exact Logic.I|].
  destruct (destidx st =? 0); [assumption | now apply batch_inv_flush].
Qed.

Lemma pending_header_log (n : nat) :
  pending (header_log n) = [] /\ delivered (header_log n).
Proof.
  unfold header_log. induction n as [|n IH]; [now split | exact IH].
Qed.

Lemma batch_inv_start (data : list byte) (d : list Z) :
  Z.of_nat (length d) = DRAWPIXELS ->
  batch_inv (set_dest d (after_header stack data)).
Proof.
  intros Hd. unfold batch_inv.
  split; [apply (buffers_ok_after_header true data)|].
  cbn [dest destidx log set_dest after_header cursor opened].
  split; [exact Hd|].
  destruct (pending_header_log (Z.to_nat (header_reads data))) as [-> H].
  split; [reflexivity | exact H].
Qed.

Lemma written_stored (l : list event) :
  delivered l -> written (rev l) ++ pending l = stored (rev l).
Proof.
  unfold written, stored. induction l as [|e l IH]; intros H; [reflexivity|].
  cbn [rev]. rewrite !flat_map_app. cbn [flat_map].
  destruct e; cbn [delivered pending] in *;
    rewrite ?app_nil_r; try (now apply IH).
  - destruct H as [-> H]. now apply IH.
  - rewrite app_assoc, IH by assumption. reflexivity.
Qed.

Lemma pending_after_rows (data : list byte) (flip : bool)
    (offset bmpHeight rowSize loadWidth : Z) (n : nat) :
  forall row st,
    (0 < n)%nat ->
    destidx (scanlines true data flip offset bmpHeight rowSize loadWidth
               n row st) = 0.
Proof.
  induction n as [|n IH]; intros row st Hn; [lia|].
  cbn [scanlines]. destruct n as [|m].
  - cbn [scanlines]. unfold scanline, finish_row. cbn [destidx emit].
    set (st1 := pixels _ _ _ _).
    destruct (destidx st1 =? 0) eqn:E; [lia | reflexivity].
  - apply IH. lia.
Qed.

Lemma batch_run (data : list byte) (d0 : list Z) (t : list event) :
  Z.of_nat (length d0) = DRAWPIXELS ->
  run_shape stack true (Some d0) data t -> written t = stored t.
Proof.
  intros Hd0 H.
  assert (R : forall st, delivered (log st) -> pending (log st) = [] ->
                written (rev (EvClose :: log st))
                = stored (rev (EvClose :: log st))).
  { intros st Hd Hp.
    rewrite <- (written_stored (EvClose :: log st)) by exact Hd.
    cbn [pending]. rewrite Hp, app_nil_r. reflexivity. }
  destruct H as [|flip offset bmpHeight rowSize lw lh x y d Hw Hh Hd].
  - apply R; apply pending_header_log.
  - specialize (Hd eq_refl). injection Hd as <-.
    set (st0 := start_region true x y lw lh (set_dest d0 (after_header stack data))).
    assert (H0 : batch_inv st0).
    { unfold st0, start_region.
      apply batch_inv_emit; [exact Logic.I|].
      apply batch_inv_emit; [exact Logic.I|].
      now apply batch_inv_start. }
    assert (HF : batch_inv (scanlines true data flip offset bmpHeight rowSize lw
                              (Z.to_nat lh) 0 st0)).
    { apply scanlines_inv; try assumption.
      - intros st. apply batch_inv_emit. exact Logic.I.
      - intros pos st. apply batch_inv_seek_to.
      - intros st. apply batch_inv_refill.
      - intros st. apply batch_inv_convert.
      - intros st. apply batch_inv_finish_row. }
    destruct HF as (_ & _ & Hp & Hdl).
    rewrite pending_after_rows in Hp by lia.
    apply R; [exact Hdl | now rewrite <- Hp].
Qed.

Lemma length_tftbuf : Z.of_nat (length (tftbuf stack)) = DRAWPIXELS.
Proof. unfold tftbuf. now rewrite length_map, length_seq. Qed.

(** The display is handed exactly the pixels that were stored to the
    working buffer, in the same order. *)
Lemma drawBMP_written_stored (SD : string -> option (list byte))
    (filename : string) (tft : Adafruit_SPITFT) (x y : Z) :
  written (trace (drawBMP stack SD filename tft x y))
  = stored (trace (drawBMP stack SD filename tft x y)).
Proof.
  unfold drawBMP.
  destruct (coreBMP_trace_cases SD (fun _ _ => false) filename (Some tft)
              (Some (tftbuf stack)) x y None None None None)
    as [-> | [-> | (data & _ & H)]]; try reflexivity.
  exact (batch_run data (tftbuf stack) _ length_tftbuf H).
Qed.

(** ** Seeks: proofs *)

Lemma u32_add_r (a b : Z) : u32 (a + u32 b) = u32 (a + b).
Proof. unfold u32. apply Zplus_mod_idemp_r. Qed.

Lemma u32_mul_l (a b : Z) : u32 (u32 a * b) = u32 (a * b).
Proof. unfold u32. apply Zmult_mod_idemp_l. Qed.

Lemma u32_sub_s32 (a b : Z) : u32 (s32 a - b) = u32 (a - b).
Proof.
  unfold u32. rewrite <- Zminus_mod_idemp_l.
  fold (u32 (s32 a)). rewrite u32_s32. unfold u32.
  apply Zminus_mod_idemp_l.
Qed.

Lemma bmpPos_of_source_row (flip : bool) (offset bmpHeight rowSize row : Z) :
  bmpPos_of flip offset bmpHeight rowSize row
  = u32 (offset + source_row flip bmpHeight row * rowSize).
Proof.
  unfold bmpPos_of, source_row. destruct flip.
  - rewrite u32_s32, u32_mul_l.
    rewrite <- (u32_mul_l (s32 (bmpHeight - 1) - row)).
    rewrite u32_sub_s32, u32_mul_l, u32_add_r. reflexivity.
  - rewrite u32_mul_l, u32_add_r. reflexivity.
Qed.

Lemma seeks_app (t1 t2 : list event) : seeks (t1 ++ t2) = (seeks t1 + seeks t2)%nat.
Proof. unfold seeks. now rewrite filter_app, length_app. Qed.

Lemma seeks_rev (t : list event) : seeks (rev t) = seeks t.
Proof.
  induction t as [|e t IH]; [reflexivity|].
  cbn [rev]. rewrite seeks_app, IH.
  change (e :: t) with ([e] ++ t). rewrite seeks_app. lia.
Qed.

Lemma adds_refl (P : event -> Prop) (st : State) : adds P st st.
Proof. now exists []. Qed.

Lemma adds_trans (P : event -> Prop) (st1 st2 st3 : State) :
  adds P st1 st2 -> adds P st2 st3 -> adds P st1 st3.
Proof.
  intros (e1 & H1 & S1) (e2 & H2 & S2). exists (e2 ++ e1). split.
  - now rewrite H2, H1, app_assoc.
  - apply Forall_app. now split.
Qed.

Lemma adds_weaken (P Q : event -> Prop) (st st' : State) :
  (forall e, P e -> Q e) -> adds P st st' -> adds Q st st'.
Proof.
  intros H (evs & H1 & H2). exists evs. split; [exact H1|].
  eapply Forall_impl; [exact H | exact H2].
Qed.

Lemma adds_emit (P : event -> Prop) (e : event) (st : State) :
  P e -> adds P st (emit e st).
Proof. intros H. exists [e]. split; [reflexivity | now constructor]. Qed.

Lemma adds_flush (st : State) : adds row_event st (flush st).
Proof.
  exists [EvWritePixels (firstn (Z.to_nat (destidx st)) (dest st))].
  split; [reflexivity | now repeat constructor].
Qed.

Lemma adds_convert (st : State) : adds row_event st (convert st).
Proof.
  unfold convert.
  set (i0 := srcidx st). set (i1 := u16 (i0 + 1)). set (i2 := u16 (i1 + 1)).
  set (b := array_get (sdbuf st) i0). set (g := array_get (sdbuf st) i1).
  set (r := array_get (sdbuf st) i2).
  exists [EvDest (destidx st) (color565 b g r); EvSdbuf i2 r; EvSdbuf i1 g;
          EvSdbuf i0 b].
  split; [reflexivity | now repeat constructor].
Qed.

(** A refill reads [sizeof sdbuf] bytes at the current position. *)
Lemma refill_log (tft : bool) (data : list byte) (st : State) :
  exists evs,
    log (refill tft data st)
    = evs ++ EvRead (fpos st) sizeof_sdbuf
          :: (if tft then [EvEndWrite] else []) ++ log st
    /\ Forall row_event evs.
Proof.
  unfold refill. destruct tft.
  - set (st1 := emit EvStartWrite _).
    destruct (destidx st1 =? 0).
    + exists [EvStartWrite]. split; [reflexivity | now repeat constructor].
    + exists [EvWritePixels (firstn (Z.to_nat (destidx st1)) (dest st1));
              EvStartWrite].
      split; [reflexivity | now repeat constructor].
  - now exists [].
Qed.

Lemma adds_refill (tft : bool) (data : list byte) (st : State) :
  adds row_event st (refill tft data st).
Proof.
  destruct (refill_log tft data st) as (evs & H & S).
  exists (evs ++ EvRead (fpos st) sizeof_sdbuf
              :: (if tft then [EvEndWrite] else [])).
  split.
  - rewrite H, <- app_assoc. reflexivity.
  - apply Forall_app. split; [exact S|].
    destruct tft; now repeat constructor.
Qed.

Lemma adds_pixels (tft : bool) (data : list byte) (n : nat) (st : State) :
  adds row_event st (pixels tft data n st).
Proof.
  apply (pixels_inv tft data (adds row_event st)).
  - intros st1 H. eapply adds_trans; [exact H|]. apply adds_refill.
  - intros st1 H _. eapply adds_trans; [exact H|]. apply adds_convert.
  - apply adds_refl.
Qed.

Lemma adds_finish_row (tft : bool) (st : State) :
  adds row_event st (finish_row tft st).
Proof.
  unfold finish_row. destruct tft; [|apply adds_refl].
  eapply adds_trans; [|apply adds_emit; exact Logic.I].
  destruct (destidx st =? 0); [apply adds_refl | apply adds_flush].
Qed.

Lemma row_event_loop_event (e : event) : row_event e -> loop_event e.
Proof. destruct e; cbn; auto. Qed.

Lemma adds_seek_to (tft : bool) (pos : Z) (st : State) :
  adds loop_event st (seek_to tft pos st).
Proof.
  unfold seek_to. destruct (file_position st =? pos); [apply adds_refl|].
  destruct tft.
  - exists [EvSeek pos; EvEndWrite].
    split; [reflexivity | now repeat constructor].
  - exists [EvSeek pos]. split; [reflexivity | now repeat constructor].
Qed.

Lemma adds_scanline (tft : bool) (data : list byte) (flip : bool)
    (offset bmpHeight rowSize loadWidth row : Z) (st : State) :
  adds loop_event st
       (scanline tft data flip offset bmpHeight rowSize loadWidth row st).
Proof.
  unfold scanline.
  apply (adds_trans _ st (emit EvYield st)); [apply adds_emit; exact Logic.I|].
  set (st0 := emit EvYield st).
  apply (adds_trans _ st0 (seek_to tft (bmpPos_of flip offset bmpHeight rowSize row) st0));
    [apply adds_seek_to|].
  set (st1 := seek_to _ _ _).
  apply (adds_trans _ st1 (pixels tft data (Z.to_nat loadWidth) st1)).
  - eapply adds_weaken; [apply row_event_loop_event | apply adds_pixels].
  - eapply adds_weaken; [apply row_event_loop_event | apply adds_finish_row].
Qed.

Lemma adds_scanlines (tft : bool) (data : list byte) (flip : bool)
    (offset bmpHeight rowSize loadWidth : Z) (n : nat) :
  forall row st,
    adds loop_event st
         (scanlines tft data flip offset bmpHeight rowSize loadWidth n row st).
Proof.
  induction n as [|n IH]; intros row st; cbn [scanlines]; [apply adds_refl|].
  eapply adds_trans; [apply adds_scanline | apply IH].
Qed.

Lemma seeks_row_events (evs : list event) :
  Forall row_event evs -> seeks evs = 0%nat.
Proof.
  induction 1 as [|e evs He _ IH]; [reflexivity|].
  change (e :: evs) with ([e] ++ evs). rewrite seeks_app, IH.
  destruct e; try contradiction; reflexivity.
Qed.

(** ** Opening and closing the file *)

Lemma rev_header_log (n : nat) :
  rev (header_log n) = EvOpen true :: repeat EvReadByte n.
Proof.
  unfold header_log. rewrite rev_app_distr. cbn [rev app]. f_equal.
  induction n as [|n IH]; [reflexivity|].
  cbn [repeat rev]. rewrite IH. symmetry. apply repeat_cons.
Qed.

Lemma Forall_repeat_ReadByte (P : event -> Prop) (n : nat) :
  P EvReadByte -> Forall P (repeat EvReadByte n).
Proof.
  intros H. apply Forall_forall. intros e He. apply repeat_spec in He.
  now subst e.
Qed.

Lemma loop_event_transfer_event (e : event) : loop_event e -> transfer_event e.
Proof. destruct e; cbn; auto. Qed.

Lemma start_region_log (tft : bool) (x y w h : Z) (st : State) :
  log (start_region tft x y w h st)
  = (if tft then [EvSetAddrWindow x y w h; EvStartWrite] else []) ++ log st.
Proof. unfold start_region. now destruct tft. Qed.

(** A run that opened the file: the opening comes first, the closing
    last, and the file is neither opened nor closed in between. *)
Lemma run_events (tft : bool) (dest_arg : option (list Z)) (data : list byte)
    (t : list event) :
  run_shape stack tft dest_arg data t ->
  exists mid, t = EvOpen true :: mid ++ [EvClose] /\ Forall transfer_event mid.
Proof.
  intros H. destruct H as [|flip offset bmpHeight rowSize lw lh x y d Hw Hh Hd].
  - cbn [rev log after_header cursor]. rewrite rev_header_log.
    eexists. split; [reflexivity|].
    now apply Forall_repeat_ReadByte.
  - destruct (adds_scanlines tft data flip offset bmpHeight rowSize lw
                (Z.to_nat lh) 0
                (start_region tft x y lw lh (set_dest d (after_header stack data))))
      as (evs & He & Hf).
    cbn [rev]. rewrite He, start_region_log.
    cbn [log set_dest after_header cursor].
    rewrite !rev_app_distr, rev_header_log. cbn [app].
    exists (repeat EvReadByte (Z.to_nat (header_reads data))
            ++ rev (if tft then [EvSetAddrWindow x y lw lh; EvStartWrite]
                    else [])
            ++ rev evs).
    split.
    + rewrite <- !app_assoc. reflexivity.
    + apply Forall_app. split; [now apply Forall_repeat_ReadByte|].
      apply Forall_app. split.
      * destruct tft; now repeat constructor.
      * apply Forall_rev. eapply Forall_impl; [|exact Hf].
        apply loop_event_transfer_event.
Qed.

Lemma transfer_counts (mid : list event) :
  Forall transfer_event mid ->
  closes mid = 0%nat /\ opens mid = 0%nat
  /\ forall b, fold_left stream_step mid b = b.
Proof.
  unfold closes, opens.
  induction 1 as [|e mid He _ (IH1 & IH2 & IH3)]; [now repeat split|].
  cbn [filter fold_left].
  destruct e; try contradiction; cbn [is_close is_opened stream_step];
    now repeat split.
Qed.

Lemma opened_once (mid : list event) :
  Forall transfer_event mid ->
  let t := EvOpen true :: mid ++ [EvClose] in
  closes t = 1%nat /\ opens t = 1%nat /\ stream_open t = false.
Proof.
  intros H t. destruct (transfer_counts mid H) as (H1 & H2 & H3).
  subst t. unfold closes, opens, stream_open in *.
  cbn [filter is_close is_opened fold_left stream_step].
  rewrite !filter_app, !length_app, fold_left_app, H3.
  cbn [filter is_close is_opened length fold_left stream_step].
  rewrite ?app_nil_r, H1, H2. now repeat split.
Qed.

(** ** The header fields are the little-endian numbers of the file *)

Lemma lor_shiftl_add (n a b : Z) :
  0 <= n -> 0 <= a < 2 ^ n -> Z.lor a (Z.shiftl b n) = a + b * 2 ^ n.
Proof.
  intros Hn Ha.
  assert (E : Z.land a (Z.shiftl b n) = 0).
  { apply Z.bits_inj'. intros m Hm. rewrite Z.land_spec, Z.bits_0.
    destruct (Z.lt_ge_cases m n) as [Hlt | Hge].
    - rewrite (Z.shiftl_spec_low b n m Hlt). apply andb_false_r.
    - rewrite <- (Z.mod_small a (2 ^ n)) by assumption.
      rewrite Z.mod_pow2_bits_high by lia. reflexivity. }
  rewrite <- Z.lxor_lor by assumption.
  rewrite <- Z.add_nocarry_lxor by assumption.
  now rewrite Z.shiftl_mul_pow2.
Qed.

Lemma byte_at_is_byte (data : list byte) (k : Z) :
  0 <= k < Z.of_nat (length data) -> is_byte (byte_at data k).
Proof.
  intros Hk. unfold byte_at.
  destruct (nth_error data (Z.to_nat k)) eqn:E.
  - apply byte_val_is_byte.
  - apply nth_error_None in E. lia.
Qed.

Lemma le16_at_bytes (data : list byte) (k : Z) :
  0 <= k -> k + 1 < Z.of_nat (length data) ->
  le16_at data k = byte_at data k + 2 ^ 8 * byte_at data (k + 1).
Proof.
  intros Hk Hl. unfold le16_at.
  pose proof (byte_at_is_byte data k ltac:(lia)) as H0.
  pose proof (byte_at_is_byte data (k + 1) ltac:(lia)) as H1.
  unfold is_byte in *.
  rewrite (u16_small (byte_at data (k + 1)))
    by (change (2 ^ 16) with 65536; lia).
  rewrite lor_shiftl_add by (change (2 ^ 8) with 256; lia).
  rewrite u16_small; change (2 ^ 8) with 256; change (2 ^ 16) with 65536; lia.
Qed.

Lemma le32_at_bytes (data : list byte) (k : Z) :
  0 <= k -> k + 3 < Z.of_nat (length data) ->
  le32_at data k
  = byte_at data k + 2 ^ 8 * byte_at data (k + 1)
    + 2 ^ 16 * byte_at data (k + 2) + 2 ^ 24 * byte_at data (k + 3).
Proof.
  intros Hk Hl. unfold le32_at.
  pose proof (byte_at_is_byte data k ltac:(lia)) as H0.
  pose proof (byte_at_is_byte data (k + 1) ltac:(lia)) as H1.
  pose proof (byte_at_is_byte data (k + 2) ltac:(lia)) as H2.
  pose proof (byte_at_is_byte data (k + 3) ltac:(lia)) as H3.
  unfold is_byte in *.
  set (b0 := byte_at data k) in *. set (b1 := byte_at data (k + 1)) in *.
  set (b2 := byte_at data (k + 2)) in *. set (b3 := byte_at data (k + 3)) in *.
  assert (P8 : 2 ^ 8 = 256) by reflexivity.
  assert (P16 : 2 ^ 16 = 65536) by reflexivity.
  assert (P24 : 2 ^ 24 = 16777216) by reflexivity.
  assert (P32 : 2 ^ 32 = 4294967296) by reflexivity.
  rewrite (u32_small b0), (u32_small b1), (u32_small b2), (u32_small b3)
    by lia.
  assert (S1 : u32 (Z.shiftl b1 8) = Z.shiftl b1 8)
    by (apply u32_small; rewrite Z.shiftl_mul_pow2 by lia; lia).
  assert (S2 : u32 (Z.shiftl b2 16) = Z.shiftl b2 16)
    by (apply u32_small; rewrite Z.shiftl_mul_pow2 by lia; lia).
  assert (S3 : u32 (Z.shiftl b3 24) = Z.shiftl b3 24)
    by (apply u32_small; rewrite Z.shiftl_mul_pow2 by lia; lia).
  rewrite S1, S2, S3.
  rewrite (lor_shiftl_add 8 b0 b1) by lia.
  rewrite (lor_shiftl_add 16 (b0 + b1 * 2 ^ 8) b2) by lia.
  rewrite (lor_shiftl_add 24 (b0 + b1 * 2 ^ 8 + b2 * 2 ^ 16) b3) by lia.
  ring.
Qed.

(** ** Rejected headers *)

Lemma storage_only_no_pixels (t : list event) :
  Forall (fun e => is_storage e = true) t -> written t = [] /\ stored t = [].
Proof.
  unfold written, stored.
  induction 1 as [|e t He _ [IH1 IH2]]; [now split|].
  cbn [flat_map]. rewrite IH1, IH2.
  destruct e; try discriminate; now split.
Qed.

Lemma coreBMP_rejected (SD : string -> option (list byte))
    (can_alloc : Z -> Z -> bool) (filename : string)
    (tft : option Adafruit_SPITFT) (dest_arg : option (list Z)) (x y : Z)
    (canvas1 : outptr (option GFXcanvas16))
    (canvas2 palette : outptr (option unit)) (fmt : outptr CanvasFormat)
    (data : list byte) :
  offscreen tft x y = false ->
  SD filename = Some data ->
  accepted data = false ->
  coreBMP stack SD can_alloc filename tft dest_arg x y canvas1 canvas2 palette fmt
  = mkResult IMAGE_ERR_FORMAT canvas1 (poke canvas2 None) (poke palette None)
      (poke fmt CANVAS_NONE)
      (EvOpen true :: repeat EvReadByte (Z.to_nat (header_reads data))
       ++ [EvClose]).
Proof.
  intros Hoff HSD Hacc. unfold coreBMP.
  rewrite Hoff, HSD, parse_header_spec, Hacc.
  cbn [rev log cursor]. now rewrite rev_header_log.
Qed.

(** ** The region that is loaded *)

Lemma crop_formula (t : Adafruit_SPITFT) (x y w h : Z) :
  - 2 ^ 15 <= x < 2 ^ 15 -> - 2 ^ 15 <= y < 2 ^ 15 ->
  0 <= tft_width t < 2 ^ 15 -> 0 <= tft_height t < 2 ^ 15 ->
  0 <= w < 2 ^ 30 -> 0 <= h < 2 ^ 30 ->
  crop t x y w h
  = (Z.max x 0, Z.max y 0,
     Z.min (w + Z.min x 0) (tft_width t - Z.max x 0),
     Z.min (h + Z.min y 0) (tft_height t - Z.max y 0)).
Proof.
  change (2 ^ 15) with 32768. change (2 ^ 30) with 1073741824.
  intros Hx Hy Htw Hth Hw Hh. unfold crop.
  assert (S : forall z, - 2147483648 <= z < 2147483648 -> s32 z = z)
    by (intros z Hz; apply s32_small; change (2 ^ 31) with 2147483648; lia).
  destruct (x <? 0) eqn:Ex; destruct (y <? 0) eqn:Ey;
    repeat match goal with
           | |- context [s32 ?z] => rewrite (S z) by lia
           end;
    repeat match goal with
           | |- context [?a >? ?b] => destruct (a >? b) eqn:?
           end;
    (f_equal; [f_equal; [f_equal|]|]); lia.
Qed.

Lemma normalize_height_abs (f : Z) :
  - 2 ^ 31 < f < 2 ^ 31 -> normalize_height f = (Z.abs f, 0 <=? f).
Proof.
  change (2 ^ 31) with 2147483648. intros Hf. unfold normalize_height.
  destruct (f <? 0) eqn:E.
  - rewrite s32_small by (change (2 ^ 31) with 2147483648; lia).
    f_equal; [lia|]. symmetry. apply Z.leb_gt. lia.
  - f_equal; [lia|]. symmetry. apply Z.leb_le. lia.
Qed.

Lemma header_reads_accepted (data : list byte) :
  accepted data = true -> header_reads data = 34.
Proof.
  unfold accepted, header_reads. intros H.
  apply andb_prop in H. destruct H as [H _].
  apply andb_prop in H. destruct H as [H H3].
  apply andb_prop in H. destruct H as [H1 H2].
  now rewrite H1, H2, H3.
Qed.

(** What drawBMP does with a file that passes the header check. *)
Lemma drawBMP_accepted (SD : string -> option (list byte)) (filename : string)
    (t : Adafruit_SPITFT) (x y : Z) (data : list byte) :
  SD filename = Some data ->
  accepted data = true ->
  offscreen (Some t) x y = false ->
  forall bmpHeight flip x' y' lw lh,
    normalize_height (s32 (le32_at data 22)) = (bmpHeight, flip) ->
    crop t x y (s32 (le32_at data 18)) bmpHeight = (x', y', lw, lh) ->
    drawBMP stack SD filename t x y
    = mkResult IMAGE_SUCCESS None None None None
        (rev (EvClose ::
              log (if (lw >? 0) && (lh >? 0)
                   then scanlines true data flip (le32_at data 10) bmpHeight
                          (rowSize_of (s32 (le32_at data 18))) lw
                          (Z.to_nat lh) 0
                          (start_region true x' y' lw lh
                             (set_dest (tftbuf stack) (after_header stack data)))
                   else after_header stack data))).
Proof.
  intros HSD Hacc Hoff bmpHeight flip x' y' lw lh Hn Hc.
  unfold drawBMP, coreBMP.
  rewrite Hoff, HSD, parse_header_spec, Hacc, Hn, Hc.
  fold (after_header stack data).
  destruct ((lw >? 0) && (lh >? 0)); reflexivity.
Qed.

Lemma length_stored_app (t1 t2 : list event) :
  length (stored (t1 ++ t2)) = (length (stored t1) + length (stored t2))%nat.
Proof. unfold stored. now rewrite flat_map_app, length_app. Qed.

Lemma length_stored_rev (t : list event) :
  length (stored (rev t)) = length (stored t).
Proof.
  induction t as [|e t IH]; [reflexivity|].
  cbn [rev]. rewrite length_stored_app, IH.
  change (e :: t) with ([e] ++ t). rewrite length_stored_app. lia.
Qed.

Lemma stores_refill (tft : bool) (data : list byte) (st : State) :
  stores (refill tft data st) = stores st.
Proof.
  unfold stores, refill. destruct tft; [|reflexivity].
  set (st1 := emit EvStartWrite _).
  destruct (destidx st1 =? 0); reflexivity.
Qed.

Lemma stores_convert (st : State) : stores (convert st) = S (stores st).
Proof. reflexivity. Qed.

Lemma stores_pixels (tft : bool) (data : list byte) (n : nat) :
  forall st, stores (pixels tft data n st) = (n + stores st)%nat.
Proof.
  induction n as [|n IH]; intros st; [reflexivity|].
  cbn [pixels]. rewrite IH. unfold pixel. rewrite stores_convert.
  destruct (srcidx st >=? sizeof_sdbuf); [rewrite stores_refill|]; lia.
Qed.

Lemma stores_scanline (tft : bool) (data : list byte) (flip : bool)
    (offset bmpHeight rowSize loadWidth row : Z) (st : State) :
  stores (scanline tft data flip offset bmpHeight rowSize loadWidth row st)
  = (Z.to_nat loadWidth + stores st)%nat.
Proof.
  unfold scanline.
  set (st1 := seek_to _ _ _).
  assert (E1 : stores st1 = stores st).
  { unfold st1, seek_to. cbn [file_position fpos emit].
    destruct (fpos st =? _); [reflexivity|]. now destruct tft. }
  set (st2 := pixels _ _ _ _).
  assert (E2 : stores st2 = (Z.to_nat loadWidth + stores st)%nat)
    by (unfold st2; now rewrite stores_pixels, E1).
  rewrite <- E2. unfold finish_row. destruct tft; [|reflexivity].
  destruct (destidx st2 =? 0); reflexivity.
Qed.

Lemma stores_scanlines (tft : bool) (data : list byte) (flip : bool)
    (offset bmpHeight rowSize loadWidth : Z) (n : nat) :
  forall row st,
    stores (scanlines tft data flip offset bmpHeight rowSize loadWidth n row st)
    = (n * Z.to_nat loadWidth + stores st)%nat.
Proof.
  induction n as [|n IH]; intros row st; [reflexivity|].
  cbn [scanlines]. rewrite IH, stores_scanline. lia.
Qed.

Lemma stores_after_header (data : list byte) (d : list Z) (x y w h : Z) :
  stores (start_region true x y w h (set_dest d (after_header stack data))) = 0%nat.
Proof.
  unfold stores. rewrite start_region_log.
  cbn [app log set_dest after_header cursor stored flat_map].
  fold (stored (header_log (Z.to_nat (header_reads data)))).
  rewrite <- length_stored_rev, rev_header_log.
  assert (H : Forall (fun e => is_storage e = true)
                     (EvOpen true
                      :: repeat EvReadByte (Z.to_nat (header_reads data))))
    by (constructor; [reflexivity | now apply Forall_repeat_ReadByte]).
  apply storage_only_no_pixels in H. destruct H as [_ H]. now rewrite H.
Qed.

(** The region loaded by drawBMP: the window it declares and the
    number of pixels it hands to the display. *)
Lemma drawBMP_region (SD : string -> option (list byte)) (filename : string)
    (t : Adafruit_SPITFT) (x y : Z) (data : list byte) (lw lh : Z) :
  SD filename = Some data ->
  accepted data = true ->
  offscreen (Some t) x y = false ->
  - 2 ^ 31 < s32 (le32_at data 22) ->
  crop t x y (s32 (le32_at data 18)) (Z.abs (s32 (le32_at data 22)))
  = (Z.max x 0, Z.max y 0, lw, lh) ->
  status (drawBMP stack SD filename t x y) = IMAGE_SUCCESS
  /\ (0 < lw -> 0 < lh ->
      (exists rest,
          trace (drawBMP stack SD filename t x y)
          = EvOpen true :: repeat EvReadByte 34
            ++ EvStartWrite :: EvSetAddrWindow (Z.max x 0) (Z.max y 0) lw lh
            :: rest)
      /\ Z.of_nat (length (written (trace (drawBMP stack SD filename t x y))))
         = lw * lh)
  /\ (lw <= 0 \/ lh <= 0 ->
      Forall (fun e => is_storage e = true)
             (trace (drawBMP stack SD filename t x y))).
Proof.
  intros HSD Hacc Hoff Hf Hc.
  pose proof (s32_range (le32_at data 22)) as Hr.
  pose proof (normalize_height_abs (s32 (le32_at data 22)) ltac:(lia)) as Hn.
  rewrite drawBMP_written_stored.
  rewrite (drawBMP_accepted SD filename t x y data HSD Hacc Hoff _ _ _ _ _ _
             Hn Hc).
  cbn [status trace]. split; [reflexivity|].
  pose proof (header_reads_accepted data Hacc) as H34.
  split.
  - intros Hw Hh.
    rewrite (proj2 (Z.gtb_lt lw 0)), (proj2 (Z.gtb_lt lh 0)) by lia.
    cbn [andb].
    set (st0 := start_region true _ _ lw lh _).
    set (stF := scanlines _ _ _ _ _ _ _ _ _ _).
    split.
    + destruct (adds_scanlines true data (0 <=? s32 (le32_at data 22))
                  (le32_at data 10) (Z.abs (s32 (le32_at data 22)))
                  (rowSize_of (s32 (le32_at data 18))) lw (Z.to_nat lh) 0 st0)
        as (evs & He & _).
      fold stF in He. exists (rev evs ++ [EvClose]).
      cbn [rev]. rewrite He. unfold st0. rewrite start_region_log.
      cbn [log set_dest after_header cursor].
      rewrite !rev_app_distr, rev_header_log, H34. cbn [rev app].
      rewrite <- !app_assoc. reflexivity.
    + cbn [rev]. rewrite length_stored_app, length_stored_rev.
      fold (stores stF). unfold stF. rewrite stores_scanlines.
      unfold st0. rewrite stores_after_header.
      cbn [stored flat_map app length]. rewrite !Nat.add_0_r.
      rewrite Nat2Z.inj_mul, !Z2Nat.id by lia. ring.
  - intros Hz.
    assert (E : (lw >? 0) && (lh >? 0) = false)
      by (destruct (lw >? 0) eqn:E1; destruct (lh >? 0) eqn:E2;
          try reflexivity; lia).
    rewrite E. cbn [rev log after_header cursor]. rewrite rev_header_log.
    constructor; [reflexivity|]. apply Forall_app. split.
    + now apply Forall_repeat_ReadByte.
    + now repeat constructor.
Qed.

(** ** Loading to memory *)

Lemma length_dest_scanlines (data : list byte) (flip : bool)
    (offset bmpHeight rowSize loadWidth : Z) (n : nat) (row : Z) (st : State) :
  length (dest (scanlines false data flip offset bmpHeight rowSize loadWidth
                  n row st))
  = length (dest st).
Proof.
  apply (scanlines_inv false data
           (fun st' => length (dest st') = length (dest st))).
  - intros st1 H. exact H.
  - intros pos st1 H. unfold seek_to.
    destruct (file_position st1 =? pos); exact H.
  - intros st1 H. exact H.
  - intros st1 H _. unfold convert. cbn [dest]. unfold array_set.
    destruct (destidx st1 <? 0); [exact H|]. now rewrite length_list_set.
  - intros st1 H. exact H.
  - reflexivity.
Qed.

(** What loadBMP does with a file that passes the header check when the
    canvas can be allocated: with an area, the canvas of the full size
    of the image is handed back with its format; without, neither. *)
Lemma loadBMP_accepted (SD : string -> option (list byte))
    (can_alloc : Z -> Z -> bool) (filename : string)
    (canvas1 : outptr (option GFXcanvas16))
    (canvas2 palette : outptr (option unit)) (fmt : outptr CanvasFormat)
    (data : list byte) (bmpHeight : Z) (flip : bool) :
  SD filename = Some data ->
  accepted data = true ->
  normalize_height (s32 (le32_at data 22)) = (bmpHeight, flip) ->
  can_alloc (s32 (le32_at data 18)) bmpHeight = true ->
  let w := s32 (le32_at data 18) in
  let r := loadBMP stack SD can_alloc filename canvas1 canvas2 palette fmt in
  status r = IMAGE_SUCCESS
  /\ (0 < w -> 0 < bmpHeight ->
      fmt_out r = poke fmt CANVAS_16
      /\ exists buf,
           canvas1_out r = poke canvas1 (Some (mkCanvas w bmpHeight buf))
           /\ Z.of_nat (length buf) = w * bmpHeight)
  /\ (w <= 0 \/ bmpHeight <= 0 ->
      fmt_out r = poke fmt CANVAS_NONE /\ canvas1_out r = canvas1).
Proof.
  intros HSD Hacc Hn Hcan w r. subst r. unfold loadBMP, coreBMP.
  cbn [offscreen]. rewrite HSD, parse_header_spec, Hacc, Hn, Hcan. fold w.
  cbn [is_tft getBuffer new_GFXcanvas16 canvas_width canvas_height].
  destruct (w >? 0) eqn:Ew; destruct (bmpHeight >? 0) eqn:Eh;
    cbn [andb status fmt_out canvas1_out].
  - split; [reflexivity|]. split; [|intros [F | F]; lia].
    intros _ _. split; [now destruct fmt|].
    eexists. split; [reflexivity|].
    unfold start_region. rewrite length_dest_scanlines.
    cbn [dest set_dest]. rewrite repeat_length. nia.
  - split; [reflexivity|]. split; [intros; lia | auto].
  - split; [reflexivity|]. split; [intros; lia | auto].
  - split; [reflexivity|]. split; [intros; lia | auto].
Qed.

(** ** bmpDimensions *)

(** What bmpDimensions gives when both results are asked for. *)
Lemma bmpDimensions_both (SD : string -> option (list byte))
    (filename : string) (w0 h0 : Z) (data : list byte) :
  SD filename = Some data ->
  le16_at data 0 = 0x4D42 ->
  let r := bmpDimensions SD filename (Some w0) (Some h0) in
  dim_status r = IMAGE_SUCCESS
  /\ width_out r = Some (s32 (le32_at data 18))
  /\ exists h,
       height_out r = Some h
       /\ u32 h = Z.abs (s32 (le32_at data 22))
       /\ (- 2 ^ 31 < s32 (le32_at data 22) ->
           h = Z.abs (s32 (le32_at data 22))).
Proof.
  intros HSD Hsig r. subst r. unfold bmpDimensions.
  rewrite HSD, (opened_cursor [] data), readLE16_cursor, Hsig by lia.
  cbn [Z.eqb Pos.eqb].
  repeat (rewrite readLE32_cursor by lia; cbn [Z.add Pos.add Pos.succ]).
  cbn [dim_status width_out height_out].
  split; [reflexivity|]. split; [reflexivity|].
  eexists. split; [reflexivity|].
  pose proof (s32_range (le32_at data 22)) as Hr.
  set (f := s32 (le32_at data 22)) in *.
  change (2 ^ 31) with 2147483648 in *.
  destruct (f <? 0) eqn:E.
  - split.
    + rewrite u32_s32. unfold u32. change (2 ^ 32) with 4294967296.
      rewrite Z.mod_small by lia. lia.
    + intros Hf. rewrite s32_small by (change (2 ^ 31) with 2147483648; lia).
      lia.
  - split.
    + rewrite Z.abs_eq by lia.
      apply u32_small. change (2 ^ 32) with 4294967296. lia.
    + intros _. lia.
Qed.

(** What it gives when only the height is asked for: the field at
    offset 18. *)
Lemma bmpDimensions_height_only (SD : string -> option (list byte))
    (filename : string) (h0 : Z) (data : list byte) :
  SD filename = Some data ->
  le16_at data 0 = 0x4D42 ->
  height_out (bmpDimensions SD filename None (Some h0))
  = Some (if s32 (le32_at data 18) <? 0
          then s32 (- s32 (le32_at data 18))
          else s32 (le32_at data 18)).
Proof.
  intros HSD Hsig. unfold bmpDimensions.
  rewrite HSD, (opened_cursor [] data), readLE16_cursor, Hsig by lia.
  cbn [Z.eqb Pos.eqb].
  repeat (rewrite readLE32_cursor by lia; cbn [Z.add Pos.add Pos.succ]).
  reflexivity.
Qed.

(** ** Reloading after a seek *)

(** The events of one scanline, oldest first: no seek when the file is
    already at [bmpPos]; otherwise one seek to [bmpPos], and the next
    storage call is the read that reloads the transfer buffer there. *)
Lemma scanline_events
    (tft : bool) (data : list byte) (flip : bool)
    (offset bmpHeight rowSize loadWidth row : Z) (st : State) :
  0 < loadWidth ->
  let bmpPos := bmpPos_of flip offset bmpHeight rowSize row in
  let st' := scanline tft data flip offset bmpHeight rowSize loadWidth row st in
  exists evs,
    log st' = rev evs ++ log st
    /\ (file_position st = bmpPos -> seeks evs = 0%nat)
    /\ (file_position st <> bmpPos ->
        seeks evs = 1%nat
        /\ exists rest,
            evs = EvYield :: (if tft then [EvEndWrite] else [])
                  ++ EvSeek bmpPos :: (if tft then [EvEndWrite] else [])
                  ++ EvRead bmpPos sizeof_sdbuf :: rest
            /\ seeks rest = 0%nat).
Proof.
  intros Hw bmpPos st'.
  subst st'. unfold scanline. fold bmpPos.
  set (st0 := emit EvYield st).
  destruct (Z.eq_dec (file_position st) bmpPos) as [E | E].
  - assert (E0 : seek_to tft bmpPos st0 = st0).
    { unfold seek_to. change (file_position st0) with (file_position st).
      now rewrite (proj2 (Z.eqb_eq _ _) E). }
    rewrite E0.
    destruct (adds_pixels tft data (Z.to_nat loadWidth) st0)
      as (e1 & H1 & S1).
    destruct (adds_finish_row tft
                (pixels tft data (Z.to_nat loadWidth) st0)) as (e2 & H2 & S2).
    apply seeks_row_events in S1, S2.
    exists (rev (e2 ++ e1 ++ [EvYield])). split; [|split].
    + rewrite rev_involutive, H2, H1, <- !app_assoc. reflexivity.
    + intros _. rewrite seeks_rev, !seeks_app, S1, S2. reflexivity.
    + intros F. contradiction.
  - set (st1 := seek_to tft bmpPos st0).
    assert (L1 : log st1
                 = EvSeek bmpPos :: (if tft then [EvEndWrite] else [])
                   ++ EvYield :: log st
                 /\ fpos st1 = bmpPos /\ srcidx st1 = sizeof_sdbuf).
    { unfold st1, seek_to. change (file_position st0) with (file_position st).
      rewrite (proj2 (Z.eqb_neq _ _) E). destruct tft; auto. }
    destruct L1 as (L1 & P1 & I1).
    destruct (Z.to_nat loadWidth) as [|n] eqn:En; [lia|].
    cbn [pixels].
    assert (Epx : pixel tft data st1 = convert (refill tft data st1)).
    { unfold pixel. rewrite I1.
      now rewrite (proj2 (Z.geb_le _ _) (Z.le_refl sizeof_sdbuf)). }
    rewrite Epx.
    destruct (refill_log tft data st1) as (e1 & H1 & S1). rewrite P1 in H1.
    destruct (adds_convert (refill tft data st1)) as (e2 & H2 & S2).
    destruct (adds_pixels tft data n (convert (refill tft data st1)))
      as (e3 & H3 & S3).
    destruct (adds_finish_row tft
                (pixels tft data n (convert (refill tft data st1))))
      as (e4 & H4 & S4).
    apply seeks_row_events in S1, S2, S3, S4.
    exists (EvYield :: (if tft then [EvEndWrite] else [])
            ++ EvSeek bmpPos :: (if tft then [EvEndWrite] else [])
            ++ EvRead bmpPos sizeof_sdbuf :: rev (e4 ++ e3 ++ e2 ++ e1)).
    split; [|split].
    + rewrite H4, H3, H2, H1, L1.
      destruct tft; cbn [rev app]; rewrite ?rev_involutive, <- ?app_assoc;
        cbn [app]; rewrite <- ?app_assoc; reflexivity.
    + intros F. contradiction.
    + intros _.
      assert (S : seeks (rev (e4 ++ e3 ++ e2 ++ e1)) = 0%nat)
        by (rewrite seeks_rev, !seeks_app; lia).
      split; [|eexists; split; [reflexivity | exact S]].
      destruct tft; cbn [app]; unfold seeks in *; cbn [filter is_seek length];
        now rewrite S.
Qed.

Lemma seeks_cons (e : event) (l : list event) :
  seeks (e :: l) = 0%nat -> is_seek e = false /\ seeks l = 0%nat.
Proof.
  unfold seeks. cbn [filter]. destruct (is_seek e); [discriminate | auto].
Qed.

Lemma no_seek_split (new l l1 l2 : list event) (p : Z) :
  seeks new = 0%nat ->
  new ++ l = l1 ++ EvSeek p :: l2 ->
  exists l1', l1 = new ++ l1' /\ l = l1' ++ EvSeek p :: l2.
Proof.
  revert l1. induction new as [|e new IH]; intros l1 Hs H.
  - now exists l1.
  - apply seeks_cons in Hs. destruct Hs as [He Hs].
    destruct l1 as [|a l1]; cbn [app] in H.
    + injection H as -> _. discriminate.
    + injection H as -> H. destruct (IH l1 Hs H) as (l1' & -> & E).
      now exists l1'.
Qed.

Lemma reloaded_no_seek (new l : list event) :
  seeks new = 0%nat -> reloaded l -> reloaded (new ++ l).
Proof.
  intros Hs Hl l1 p l2 H.
  destruct (no_seek_split new l l1 l2 p Hs H) as (l1' & -> & E).
  destruct (Hl _ _ _ E) as (x & ->). exists (new ++ x).
  now rewrite app_assoc.
Qed.

Lemma reloaded_seek (pre l : list event) (p : Z) :
  seeks pre = 0%nat -> reloaded l ->
  reloaded (pre ++ EvRead p sizeof_sdbuf :: EvEndWrite :: EvSeek p :: l).
Proof.
  intros Hs Hl l1 q l2 H.
  change (pre ++ EvRead p sizeof_sdbuf :: EvEndWrite :: EvSeek p :: l)
    with (pre ++ [EvRead p sizeof_sdbuf; EvEndWrite] ++ EvSeek p :: l) in H.
  rewrite app_assoc in H.
  assert (Hs' : seeks (pre ++ [EvRead p sizeof_sdbuf; EvEndWrite]) = 0%nat)
    by (rewrite seeks_app, Hs; reflexivity).
  destruct (no_seek_split _ _ l1 l2 q Hs' H) as (l1' & -> & E).
  destruct l1' as [|a l1']; cbn [app] in E.
  - injection E as -> _. exists pre. now rewrite app_nil_r.
  - injection E as <- E. destruct (Hl _ _ _ E) as (x & ->).
    exists ((pre ++ [EvRead p sizeof_sdbuf; EvEndWrite]) ++ EvSeek p :: x).
    now rewrite <- !app_assoc.
Qed.

Lemma reloaded_scanline (data : list byte) (flip : bool)
    (offset bmpHeight rowSize loadWidth row : Z) (st : State) :
  0 < loadWidth ->
  reloaded (log st) ->
  reloaded (log (scanline true data flip offset bmpHeight rowSize loadWidth
                   row st)).
Proof.
  intros Hw Hl.
  destruct (scanline_events true data flip offset bmpHeight rowSize loadWidth
              row st Hw) as (evs & H1 & H2 & H3).
  rewrite H1.
  destruct (Z.eq_dec (file_position st)
              (bmpPos_of flip offset bmpHeight rowSize row)) as [E | E].
  - apply reloaded_no_seek; [|exact Hl]. rewrite seeks_rev. now apply H2.
  - destruct (H3 E) as (_ & rest & -> & Hr).
    cbn [app rev]. rewrite <- !app_assoc. cbn [app].
    apply reloaded_seek; [now rewrite seeks_rev|].
    now apply (reloaded_no_seek [EvEndWrite; EvYield]).
Qed.

Lemma reloaded_scanlines (data : list byte) (flip : bool)
    (offset bmpHeight rowSize loadWidth : Z) (n : nat) :
  0 < loadWidth ->
  forall row st,
    reloaded (log st) ->
    reloaded (log (scanlines true data flip offset bmpHeight rowSize loadWidth
                     n row st)).
Proof.
  intros Hw. induction n as [|n IH]; intros row st H; [exact H|].
  cbn [scanlines]. apply IH. now apply reloaded_scanline.
Qed.

Lemma reloaded_nil : reloaded [].
Proof. intros [|a l1] p l2 H; discriminate. Qed.

Lemma seeks_header_log (n : nat) : seeks (header_log n) = 0%nat.
Proof.
  unfold header_log. rewrite seeks_app. cbn.
  induction n as [|n IH]; [reflexivity | exact IH].
Qed.

Lemma reloaded_run (dest_arg : option (list Z)) (data : list byte)
    (t : list event) :
  run_shape stack true dest_arg data t -> exists l, t = rev l /\ reloaded l.
Proof.
  intros H.
  assert (Hh : reloaded (log (after_header stack data))).
  { cbn [log after_header cursor].
    rewrite <- (app_nil_r (header_log _)).
    apply reloaded_no_seek; [apply seeks_header_log | apply reloaded_nil]. }
  destruct H as [|flip offset bmpHeight rowSize lw lh x y d Hw Hh' _].
  - exists (EvClose :: log (after_header stack data)). split; [reflexivity|].
    now apply (reloaded_no_seek [EvClose]).
  - eexists. split; [reflexivity|].
    apply (reloaded_no_seek [EvClose]); [reflexivity|].
    apply reloaded_scanlines; [exact Hw|].
    rewrite start_region_log.
    now apply (reloaded_no_seek [EvSetAddrWindow x y lw lh; EvStartWrite]).
Qed.

(** When the file is already at [bmpPos] and the transfer buffer still
    holds unread bytes, the scanline makes no storage call before its
    first pixel: the pixel is converted from what the buffer held. *)
Lemma scanline_without_seek_uses_buffer (tft : bool) (data : list byte)
    (flip : bool) (offset bmpHeight rowSize loadWidth row : Z) (st : State) :
  0 < loadWidth ->
  file_position st = bmpPos_of flip offset bmpHeight rowSize row ->
  srcidx st < sizeof_sdbuf ->
  exists evs,
    log (scanline tft data flip offset bmpHeight rowSize loadWidth row st)
    = evs ++ log (convert (emit EvYield st)).
Proof.
  intros Hw Hp Hs. unfold scanline.
  set (st0 := emit EvYield st).
  assert (E0 : seek_to tft (bmpPos_of flip offset bmpHeight rowSize row) st0
               = st0).
  { unfold seek_to. change (file_position st0) with (file_position st).
    now rewrite (proj2 (Z.eqb_eq _ _) Hp). }
  rewrite E0.
  destruct (Z.to_nat loadWidth) as [|n] eqn:En; [lia|].
  cbn [pixels].
  assert (Epx : pixel tft data st0 = convert st0).
  { unfold pixel. change (srcidx st0) with (srcidx st).
    rewrite Z.geb_leb, (proj2 (Z.leb_gt _ _) Hs). reflexivity. }
  rewrite Epx.
  destruct (adds_pixels tft data n (convert st0)) as (e1 & H1 & _).
  destruct (adds_finish_row tft (pixels tft data n (convert st0)))
    as (e2 & H2 & _).
  exists (e2 ++ e1). now rewrite H2, H1, app_assoc.
Qed.

(** ** Which bytes of the file a scanline converts *)

Lemma stored_rev_cons (e : event) (l : list event) :
  stored (rev (e :: l)) = stored (rev l) ++ stored [e].
Proof. unfold stored. cbn [rev]. now rewrite flat_map_app. Qed.

Lemma stored_rev_refill (tft : bool) (data : list byte) (st : State) :
  stored (rev (log (refill tft data st))) = stored (rev (log st)).
Proof.
  unfold refill. destruct tft.
  - set (st1 := emit EvStartWrite _).
    assert (E : stored (rev (log st1)) = stored (rev (log st))).
    { unfold st1. cbn [log emit file_read].
      rewrite !stored_rev_cons. cbn [stored flat_map].
      now rewrite !app_nil_r. }
    destruct (destidx st1 =? 0); cbn [log set_srcidx flush set_destidx emit].
    + exact E.
    + rewrite stored_rev_cons, E. cbn [stored flat_map]. now rewrite app_nil_r.
  - cbn [log set_srcidx file_read]. rewrite stored_rev_cons.
    cbn [stored flat_map]. now rewrite app_nil_r.
Qed.

Lemma stored_rev_finish_row (tft : bool) (st : State) :
  stored (rev (log (finish_row tft st))) = stored (rev (log st)).
Proof.
  unfold finish_row. destruct tft; [|reflexivity].
  destruct (destidx st =? 0); cbn [log emit flush set_destidx];
    rewrite !stored_rev_cons; cbn [stored flat_map]; now rewrite !app_nil_r.
Qed.

Lemma stored_rev_seek_to (tft : bool) (pos : Z) (st : State) :
  stored (rev (log (seek_to tft pos st))) = stored (rev (log st)).
Proof.
  unfold seek_to. destruct (file_position st =? pos); [reflexivity|].
  destruct tft; cbn [log emit file_seek set_srcidx];
    rewrite !stored_rev_cons; cbn [stored flat_map]; now rewrite !app_nil_r.
Qed.

(** The bytes that a read delivers. *)
Lemma file_read_get (data : list byte) (n : Z) (st : State) (i : Z) :
  0 <= fpos st -> 0 <= i < n ->
  fpos st + i < Z.of_nat (length data) ->
  array_get (sdbuf (file_read data n st)) i = byte_at data (fpos st + i).
Proof.
  intros Hp Hi Hl. unfold array_get, byte_at.
  destruct (i <? 0) eqn:E; [lia|]. cbn [sdbuf file_read].
  set (got := map byte_val _).
  assert (Hn : nth_error got (Z.to_nat i)
               = option_map byte_val (nth_error data (Z.to_nat (fpos st + i)))).
  { unfold got. rewrite nth_error_map. f_equal.
    rewrite nth_error_firstn.
    destruct (Nat.ltb_spec (Z.to_nat i) (Z.to_nat n)) as [_|F]; [|lia].
    rewrite nth_error_skipn. f_equal. lia. }
  destruct (nth_error data (Z.to_nat (fpos st + i))) as [b|] eqn:Eb.
  - cbn [option_map] in Hn.
    assert (Hlt : (Z.to_nat i < length got)%nat)
      by (apply nth_error_Some; rewrite Hn; discriminate).
    rewrite app_nth1 by exact Hlt.
    now apply nth_error_nth.
  - apply nth_error_None in Eb. lia.
Qed.

Lemma length_file_read (data : list byte) (n : Z) (st : State) :
  0 <= fpos st -> 0 <= n ->
  fpos (file_read data n st)
  = Z.max (fpos st) (Z.min (Z.of_nat (length data)) (fpos st + n)).
Proof.
  intros Hp Hn. cbn [fpos file_read].
  rewrite length_map, length_firstn, length_skipn. lia.
Qed.

Lemma refill_fields (tft : bool) (data : list byte) (st : State) :
  fpos (refill tft data st) = fpos (file_read data sizeof_sdbuf st)
  /\ sdbuf (refill tft data st) = sdbuf (file_read data sizeof_sdbuf st).
Proof.
  unfold refill. destruct tft; [|now split].
  set (st1 := emit EvStartWrite _).
  destruct (destidx st1 =? 0); now split.
Qed.

Lemma synced_refill (tft : bool) (data : list byte) (p : Z) (k : nat)
    (st : State) :
  0 <= p -> srcidx st = sizeof_sdbuf ->
  synced data p k st -> synced data p k (refill tft data st).
Proof.
  intros Hp Hs (_ & Hf & _).
  destruct (refill_fields tft data st) as [Ef Eb].
  assert (D : sizeof_sdbuf = 600) by reflexivity.
  assert (Hq : 0 <= fpos st) by lia.
  unfold synced. rewrite srcidx_refill, Ef, Eb.
  rewrite length_file_read by lia.
  split; [|split].
  - exists 0. unfold DRAWPIXELS. lia.
  - lia.
  - intros i Hi Hl.
    replace (p + 3 * Z.of_nat k - 0 + i) with (fpos st + i) in * by lia.
    apply file_read_get; lia.
Qed.

Lemma synced_convert (data : list byte) (p : Z) (k : nat) (st : State) :
  0 <= p -> srcidx st < sizeof_sdbuf ->
  p + 3 * Z.of_nat k + 2 < Z.of_nat (length data) ->
  synced data p k st ->
  synced data p (S k) (convert st)
  /\ stored (rev (log (convert st)))
     = stored (rev (log st)) ++ [pixel_at data p k].
Proof.
  intros Hp Hs Hl ((j & Hj & Hj') & Hf & Hb).
  assert (D : sizeof_sdbuf = 600) by reflexivity.
  assert (D' : DRAWPIXELS = 200) by reflexivity.
  assert (W : 2 ^ 16 = 65536) by reflexivity.
  unfold convert.
  rewrite (u16_small (srcidx st + 1)) by lia.
  rewrite (u16_small (srcidx st + 1 + 1)) by lia.
  rewrite (u16_small (srcidx st + 1 + 1 + 1)) by lia.
  rewrite (Hb (srcidx st)), (Hb (srcidx st + 1)), (Hb (srcidx st + 1 + 1))
    by lia.
  split.
  - unfold synced. cbn [srcidx fpos sdbuf]. rewrite Nat2Z.inj_succ.
    split; [|split].
    + exists (j + 1). lia.
    + rewrite Hf. f_equal. lia.
    + intros i Hi Hli.
      replace (p + 3 * Z.succ (Z.of_nat k) - (srcidx st + 1 + 1 + 1) + i)
        with (p + 3 * Z.of_nat k - srcidx st + i) in * by lia.
      apply Hb; lia.
  - cbn [log]. rewrite !stored_rev_cons. cbn [stored flat_map].
    rewrite !app_nil_r. unfold pixel_at.
    replace (p + 3 * Z.of_nat k - srcidx st + srcidx st)
      with (p + 3 * Z.of_nat k) by lia.
    replace (p + 3 * Z.of_nat k - srcidx st + (srcidx st + 1))
      with (p + 3 * Z.of_nat k + 1) by lia.
    replace (p + 3 * Z.of_nat k - srcidx st + (srcidx st + 1 + 1))
      with (p + 3 * Z.of_nat k + 2) by lia.
    reflexivity.
Qed.

Lemma synced_pixels (tft : bool) (data : list byte) (p : Z) (m : nat) :
  0 <= p ->
  forall k st,
    p + 3 * Z.of_nat (k + m) <= Z.of_nat (length data) ->
    synced data p k st ->
    synced data p (k + m) (pixels tft data m st)
    /\ stored (rev (log (pixels tft data m st)))
       = stored (rev (log st)) ++ map (pixel_at data p) (seq k m).
Proof.
  intros Hp. induction m as [|m IH]; intros k st Hl Hs.
  - rewrite Nat.add_0_r. cbn [pixels seq map]. now rewrite app_nil_r.
  - cbn [pixels seq map].
    assert (Hpx : synced data p (S k) (pixel tft data st)
                  /\ stored (rev (log (pixel tft data st)))
                     = stored (rev (log st)) ++ [pixel_at data p k]).
    { unfold pixel. destruct (srcidx st >=? sizeof_sdbuf) eqn:E.
      - assert (Es : srcidx st = sizeof_sdbuf).
        { destruct Hs as ((j & Hj & Hj') & _).
          unfold sizeof_sdbuf, DRAWPIXELS in *. lia. }
        rewrite <- (stored_rev_refill tft data st).
        apply synced_convert; try lia.
        + rewrite srcidx_refill. reflexivity.
        + now apply synced_refill.
      - apply synced_convert; try lia. exact Hs. }
    destruct Hpx as [Hs1 He1].
    destruct (IH (S k) (pixel tft data st)) as [Hs2 He2]; [lia | exact Hs1 |].
    split.
    + replace (k + S m)%nat with (S k + m)%nat by lia. exact Hs2.
    + rewrite He2, He1, <- app_assoc. reflexivity.
Qed.

(** A scanline that seeks, or that starts with the transfer buffer
    used up, stores the pixels of the file from [bmpPos] on. *)
Lemma scanline_reads_source_row (tft : bool) (data : list byte) (flip : bool)
    (offset bmpHeight rowSize loadWidth row : Z) (st : State) :
  0 < loadWidth ->
  file_position st <> bmpPos_of flip offset bmpHeight rowSize row
  \/ srcidx st = sizeof_sdbuf ->
  bmpPos_of flip offset bmpHeight rowSize row + 3 * loadWidth
  <= Z.of_nat (length data) ->
  let st' := scanline tft data flip offset bmpHeight rowSize loadWidth row st in
  stored (rev (log st'))
  = stored (rev (log st))
    ++ map (pixel_at data (bmpPos_of flip offset bmpHeight rowSize row))
           (seq 0 (Z.to_nat loadWidth))
  /\ synced data (bmpPos_of flip offset bmpHeight rowSize row)
            (Z.to_nat loadWidth) st'.
Proof.
  intros Hw Hfresh Hl st'. subst st'. unfold scanline.
  set (bmpPos := bmpPos_of flip offset bmpHeight rowSize row) in *.
  assert (Hp : 0 <= bmpPos).
  { unfold bmpPos. rewrite bmpPos_of_source_row. apply u32_range. }
  set (st0 := emit EvYield st).
  set (st1 := seek_to tft bmpPos st0).
  assert (H1 : srcidx st1 = sizeof_sdbuf /\ fpos st1 = bmpPos
               /\ stored (rev (log st1)) = stored (rev (log st))).
  { split; [|split].
    - unfold st1, seek_to. change (file_position st0) with (file_position st).
      destruct (file_position st =? bmpPos) eqn:E; [|reflexivity].
      apply Z.eqb_eq in E. destruct Hfresh as [F | F]; [contradiction|exact F].
    - unfold st1, seek_to. change (file_position st0) with (file_position st).
      destruct (file_position st =? bmpPos) eqn:E; [|reflexivity].
      apply Z.eqb_eq in E. exact E.
    - unfold st1. rewrite stored_rev_seek_to. unfold st0. cbn [log emit].
      rewrite stored_rev_cons. cbn [stored flat_map]. now rewrite app_nil_r. }
  destruct H1 as (Hs1 & Hf1 & He1).
  assert (Hsync : synced data bmpPos 0 st1).
  { unfold synced. rewrite Hs1, Hf1. split; [|split].
    - exists DRAWPIXELS. unfold sizeof_sdbuf, DRAWPIXELS. lia.
    - cbn [Z.of_nat]. lia.
    - intros i Hi. lia. }
  destruct (synced_pixels tft data bmpPos (Z.to_nat loadWidth) Hp 0 st1)
    as [Hs2 He2]; [cbn [Nat.add]; lia | exact Hsync |].
  cbn [Nat.add] in Hs2. split.
  - rewrite stored_rev_finish_row, He2, He1. reflexivity.
  - unfold synced, finish_row in *. destruct tft; [|exact Hs2].
    destruct (destidx _ =? 0); exact Hs2.
Qed.

(** ** Bottom-up images *)

Lemma rowSize_of_spec (w : Z) :
  0 <= w < 2 ^ 29 -> rowSize_of w = 4 * ((3 * w + 3) / 4).
Proof.
  change (2 ^ 29) with 536870912. intros Hw. unfold rowSize_of.
  rewrite (s32_small (w * 3)) by (change (2 ^ 31) with 2147483648; lia).
  rewrite s32_small by (change (2 ^ 31) with 2147483648; lia).
  change (-4) with (Z.lnot (Z.ones 2)).
  rewrite <- Z.ldiff_land, Z.ldiff_ones_r by lia.
  rewrite Z.shiftr_div_pow2, Z.shiftl_mul_pow2 by lia.
  change (2 ^ 2) with 4.
  replace (w * 3 + 3) with (3 * w + 3) by ring.
  pose proof (Z.mul_div_le (3 * w + 3) 4 ltac:(lia)) as H.
  rewrite u32_small; [ring|]. change (2 ^ 32) with 4294967296.
  split; [|lia]. apply Z.mul_nonneg_nonneg; [|lia].
  apply Z.div_pos; lia.
Qed.

Lemma rowSize_of_bounds (w : Z) :
  0 <= w < 2 ^ 29 -> 3 * w <= rowSize_of w <= 3 * w + 3.
Proof.
  intros Hw. rewrite rowSize_of_spec by exact Hw.
  pose proof (Z.mul_div_le (3 * w + 3) 4 ltac:(lia)).
  pose proof (Z.mul_succ_div_gt (3 * w + 3) 4 ltac:(lia)). lia.
Qed.

Section BottomUp.

Variables (tft : bool) (data : list byte).
Variables (offset bmpHeight rowSize loadWidth : Z).

Hypothesis width_pos : 0 < loadWidth.
Hypothesis row_fits : 3 * loadWidth <= rowSize.
Hypothesis offset_pos : 0 <= offset.
Hypothesis image_in_file :
  offset + bmpHeight * rowSize <= Z.of_nat (length data).
Hypothesis file_small : Z.of_nat (length data) < 2 ^ 32.

Lemma bmpPos_bottom_up (row : Z) :
  0 <= row < bmpHeight ->
  bmpPos_of true offset bmpHeight rowSize row
  = offset + (bmpHeight - 1 - row) * rowSize
  /\ 0 <= offset + (bmpHeight - 1 - row) * rowSize
  /\ offset + (bmpHeight - 1 - row) * rowSize + rowSize
     <= Z.of_nat (length data).
Proof.
  intros Hr. rewrite bmpPos_of_source_row. cbn [source_row].
  assert (H1 : 0 <= (bmpHeight - 1 - row) * rowSize) by nia.
  assert (H2 : (bmpHeight - 1 - row) * rowSize + rowSize
               <= bmpHeight * rowSize) by nia.
  split; [apply u32_small; lia|]. lia.
Qed.

Lemma scanlines_bottom_up (n : nat) :
  forall row st,
    0 <= row -> row + Z.of_nat n <= bmpHeight ->
    ((0 < n)%nat ->
     srcidx st = sizeof_sdbuf
     \/ file_position st <> bmpPos_of true offset bmpHeight rowSize row) ->
    stored (rev (log (scanlines tft data true offset bmpHeight rowSize
                        loadWidth n row st)))
    = stored (rev (log st))
      ++ bottom_up_pixels data offset bmpHeight rowSize loadWidth row n.
Proof.
  unfold bottom_up_pixels.
  induction n as [|n IH]; intros row st Hr Hn Hfresh.
  - cbn [scanlines zseq flat_map]. now rewrite app_nil_r.
  - cbn [scanlines zseq flat_map].
    destruct (bmpPos_bottom_up row ltac:(lia)) as (Ep & Hp0 & Hp1).
    destruct (scanline_reads_source_row tft data true offset bmpHeight rowSize
                loadWidth row st width_pos) as [He Hs].
    + destruct (Hfresh ltac:(lia)); tauto.
    + rewrite Ep. lia.
    + rewrite IH; [| lia | lia |].
      * rewrite He, Ep, <- app_assoc. reflexivity.
      * intros Hn'. right.
        destruct (bmpPos_bottom_up (row + 1) ltac:(lia)) as (Ep' & _ & _).
        rewrite Ep'. destruct Hs as ((j & Hj & Hj') & Hf & _).
        unfold file_position. rewrite Hf, Ep.
        rewrite Z2Nat.id by lia.
        unfold sizeof_sdbuf, DRAWPIXELS in *. nia.
Qed.

End BottomUp.

Lemma le32_at_range (data : list byte) (k : Z) : 0 <= le32_at data k < 2 ^ 32.
Proof.
  unfold le32_at. repeat apply lor_below; try lia; apply u32_range.
Qed.

Lemma stored_nil_of_length (t : list event) :
  length (stored t) = 0%nat -> stored t = [].
Proof. now destruct (stored t). Qed.

(** Drawing a bottom-up image that is whole in the file: the display is
    handed, row after row, the first loadWidth pixels of the rows
    stored last, next to last, and so on. *)
Lemma drawBMP_bottom_up (SD : string -> option (list byte)) (filename : string)
    (t : Adafruit_SPITFT) (x y : Z) (data : list byte) :
  SD filename = Some data ->
  accepted data = true ->
  offscreen (Some t) x y = false ->
  - 2 ^ 15 <= x < 2 ^ 15 -> - 2 ^ 15 <= y < 2 ^ 15 ->
  0 <= tft_width t < 2 ^ 15 -> 0 <= tft_height t < 2 ^ 15 ->
  0 < s32 (le32_at data 18) < 2 ^ 29 ->
  0 < s32 (le32_at data 22) < 2 ^ 30 ->
  le32_at data 10
  + s32 (le32_at data 22) * rowSize_of (s32 (le32_at data 18))
  <= Z.of_nat (length data) ->
  Z.of_nat (length data) < 2 ^ 32 ->
  let w := s32 (le32_at data 18) in
  let h := s32 (le32_at data 22) in
  let lw := Z.min (w + Z.min x 0) (tft_width t - Z.max x 0) in
  let lh := Z.min (h + Z.min y 0) (tft_height t - Z.max y 0) in
  0 < lw -> 0 < lh ->
  written (trace (drawBMP stack SD filename t x y))
  = bottom_up_pixels data (le32_at data 10) h (rowSize_of w) lw 0 (Z.to_nat lh).
Proof.
  intros HSD Hacc Hoff Hx Hy Htw Hth Hw Hh Hfile Hlen w h lw lh Hlw Hlh.
  assert (P29 : 2 ^ 29 = 536870912) by reflexivity.
  assert (P30 : 2 ^ 30 = 1073741824) by reflexivity.
  assert (P31 : 2 ^ 31 = 2147483648) by reflexivity.
  assert (Hn : normalize_height h = (h, true)).
  { unfold h. rewrite normalize_height_abs by lia.
    rewrite Z.abs_eq by lia. f_equal. apply Z.leb_le. lia. }
  assert (Hc : crop t x y w h = (Z.max x 0, Z.max y 0, lw, lh))
    by (apply crop_formula; unfold w, h; lia).
  rewrite drawBMP_written_stored.
  rewrite (drawBMP_accepted SD filename t x y data HSD Hacc Hoff _ _ _ _ _ _
             Hn Hc).
  cbn [trace].
  rewrite (proj2 (Z.gtb_lt lw 0)), (proj2 (Z.gtb_lt lh 0)) by lia.
  cbn [andb]. rewrite stored_rev_cons. cbn [stored flat_map].
  rewrite app_nil_r. fold w.
  pose proof (rowSize_of_bounds w ltac:(unfold w; lia)) as Hrs.
  pose proof (le32_at_range data 10) as Hoffs.
  rewrite (scanlines_bottom_up true data (le32_at data 10) h (rowSize_of w) lw);
    try lia.
  - rewrite (stored_nil_of_length
               (rev (log (start_region true (Z.max x 0) (Z.max y 0) lw lh
                            (set_dest (tftbuf stack) (after_header stack data)))))).
    + reflexivity.
    + rewrite length_stored_rev. apply stores_after_header.
  - exact Hfile.
  - intros _. left. reflexivity.
Qed.

(** * The claims of the specification *)

(** C1 fails on the code.  With a negative origin the region is shrunk
    as claimed, but it is filled from the first column of each row and
    from the first row of the image.  The row of eight pixels drawn at
    x = -5 on the 320 x 240 display gives a region 3 wide that holds
    source columns 0, 1, 2 (blue, green, red), not columns 5, 6, 7
    (yellow, cyan, magenta); for every x from -7 to -1 the display gets
    the first 8 + x pixels of the row.  The image of two rows drawn at
    y = -1 gives a region 1 high that holds the top row of the image
    (blue, green), not the second (red, white).  This is so whatever
    the stack holds. *)
Theorem C1_negative_origin_draws_leading_columns :
  written (trace (drawBMP stack strip_card "strip.bmp"%string tft_320x240 0 0))
  = [0x001F; 0x07E0; 0xF800; 0xFFFF; 0x0000; 0xFFE0; 0x07FF; 0xF81F]
  /\ In (EvSetAddrWindow 0 0 3 1)
        (trace (drawBMP stack strip_card "strip.bmp"%string tft_320x240 (-5) 0))
  /\ written (trace (drawBMP stack strip_card "strip.bmp"%string tft_320x240
                             (-5) 0))
     = [0x001F; 0x07E0; 0xF800]
  /\ Forall
       (fun x =>
          written (trace (drawBMP stack strip_card "strip.bmp"%string
                                  tft_320x240 x 0))
          = firstn (Z.to_nat (8 + x))
                   [0x001F; 0x07E0; 0xF800; 0xFFFF; 0x0000; 0xFFE0; 0x07FF;
                    0xF81F])
       [-7; -6; -5; -4; -3; -2; -1]
  /\ written (trace (drawBMP stack bottom_up_card "bu.bmp"%string tft_320x240
                             0 0))
     = [0x001F; 0x07E0; 0xF800; 0xFFFF]
  /\ In (EvSetAddrWindow 0 0 2 1)
        (trace (drawBMP stack bottom_up_card "bu.bmp"%string tft_320x240
                        0 (-1)))
  /\ written (trace (drawBMP stack bottom_up_card "bu.bmp"%string tft_320x240
                             0 (-1)))
     = [0x001F; 0x07E0].
Proof.
  split; [vm_compute; reflexivity|].
  split; [vm_compute; tauto|].
  split; [vm_compute; reflexivity|].
  split; [repeat constructor; vm_compute; reflexivity|].
  split; [vm_compute; reflexivity|].
  split; [vm_compute; tauto | vm_compute; reflexivity].
Qed.

(** C2: in every decode to a display, no call to the storage device
    (opening, header bytes, seek, read of the transfer buffer, closing)
    is made while a display write transaction is open.  The event just
    before each read of the transfer buffer and before each seek is
    endWrite; the event just after each read of the transfer buffer is
    startWrite; and each seek is followed by endWrite, the read that
    reloads the transfer buffer, and startWrite. *)
Theorem C2_storage_outside_transaction
    (SD : string -> option (list byte)) (filename : string)
    (tft : Adafruit_SPITFT) (x y : Z) :
  let tr := trace (drawBMP stack SD filename tft x y) in
  (forall t1 e t2,
      tr = t1 ++ e :: t2 -> is_storage e = true -> in_transaction t1 = false)
  /\ (forall t1 p n t2,
         tr = t1 ++ EvRead p n :: t2 ->
         (exists t1', t1 = t1' ++ [EvEndWrite])
         /\ (exists t2', t2 = EvStartWrite :: t2'))
  /\ (forall t1 p t2,
         tr = t1 ++ EvSeek p :: t2 ->
         (exists t1', t1 = t1' ++ [EvEndWrite])
         /\ (exists t2',
                t2 = EvEndWrite :: EvRead p sizeof_sdbuf :: EvStartWrite
                     :: t2')).
Proof.
  intros tr.
  assert (H : exists l, tr = rev l /\ exclusive l /\ bracketed l
                        /\ head_not_read l /\ reloaded l).
  { subst tr. unfold drawBMP.
    destruct (coreBMP_trace_cases SD (fun _ _ => false) filename (Some tft)
                (Some (tftbuf stack)) x y None None None None)
      as [-> | [-> | (data & _ & H)]].
    - exists []. cbn. pose proof reloaded_nil. intuition.
    - exists [EvOpen false]. cbn.
      pose proof (reloaded_no_seek [EvOpen false] [] eq_refl reloaded_nil).
      intuition.
    - destruct (txn_run (Some (tftbuf stack)) data _ H) as (l & E & H1 & H2 & H3).
      destruct (reloaded_run (Some (tftbuf stack)) data _ H) as (l' & E' & H4).
      assert (l' = l)
        by (rewrite <- (rev_involutive l'), <- E', E; apply rev_involutive).
      subst l'. exists l. auto. }
  destruct H as (l & Hl & He & Hb & Hh & Hr). rewrite Hl. clear Hl tr.
  assert (Reads : forall t1 p n t2,
             rev l = t1 ++ EvRead p n :: t2 ->
             (exists t1', t1 = t1' ++ [EvEndWrite])
             /\ (exists t2', t2 = EvStartWrite :: t2')).
  { intros t1 p n t2 H. apply rev_split in H. subst l.
    destruct (bracketed_app_read _ _ _ _ Hb) as [[l2' H2] H1]. split.
    - exists (rev l2'). rewrite <- (rev_involutive t1), H2. reflexivity.
    - destruct H1 as [H1 | [l1' H1]].
      + rewrite H1 in Hh. contradiction.
      + exists (rev l1'). rewrite <- (rev_involutive t2), H1, rev_app_distr.
        reflexivity. }
  split; [|split; [exact Reads|]].
  - intros t1 e t2 H Hs. apply rev_split in H. subst l.
    rewrite in_transaction_rev. now apply exclusive_app in He.
  - intros t1 p t2 H. pose proof H as H'. apply rev_split in H'.
    split.
    + rewrite H' in Hb. destruct (bracketed_app_seek _ _ _ Hb) as [l2' H2].
      exists (rev l2'). rewrite <- (rev_involutive t1), H2. reflexivity.
    + destruct (Hr _ _ _ H') as (l1' & E1).
      assert (E2 : t2 = EvEndWrite :: EvRead p sizeof_sdbuf :: rev l1').
      { rewrite <- (rev_involutive t2), E1, rev_app_distr. reflexivity. }
      rewrite E2 in H.
      change (t1 ++ EvSeek p :: EvEndWrite :: EvRead p sizeof_sdbuf :: rev l1')
        with (t1 ++ [EvSeek p; EvEndWrite]
              ++ EvRead p sizeof_sdbuf :: rev l1') in H.
      rewrite app_assoc in H.
      destruct (Reads _ _ _ _ H) as [_ [t2' E3]].
      exists t2'. now rewrite E2, E3.
Qed.



(** C4 fails on the code for rows stored top-down.  The two-row image
    (row 0 blue, row 1 red, 200 pixels each) drawn on a display 128
    pixels wide: after the first scanline the file is at the start of
    row 1, so no seek is made and the transfer buffer is not reloaded;
    destination row 1 gets the rest of source row 0 (72 blue pixels)
    before 56 pixels of source row 1.  Loaded to memory with rows of
    199 pixels, row 1 of the canvas starts with a pixel made of the
    padding of row 0 and holds source row 1 shifted by one pixel. *)
Theorem C4_top_down_row_from_stale_buffer :
  fst (normalize_height (s32 (le32_at two_rows 22))) = 2
  /\ snd (normalize_height (s32 (le32_at two_rows 22))) = false
  /\ written (trace (drawBMP stack two_rows_card "rows.bmp"%string tft_128x160 0 0))
     = repeat 0x001F 128 ++ (repeat 0x001F 72 ++ repeat 0xF800 56)
  /\ seeks (trace (drawBMP stack two_rows_card "rows.bmp"%string tft_128x160 0 0))
     = 1%nat
  /\ option_map (option_map getBuffer)
       (canvas1_out (loadBMP stack two_rows_199_card (fun _ _ => true)
                             "rows199.bmp"%string (Some None) (Some None)
                             (Some None) (Some CANVAS_NONE)))
     = Some (Some (repeat 0x001F 199 ++ (0 :: repeat 0xF800 198))).
Proof.
  repeat split; vm_compute; reflexivity.
Qed.

(** C5 fails on the code for an image without area.  Loading the file
    that declares width 0 (or width -1) succeeds once the canvas is
    allocated, but the format stays CANVAS_NONE and canvas1 is not
    written: the caller's variable keeps what it held. *)
Theorem C5_zero_area_success_without_canvas :
  accepted zero_width = true
  /\ status (loadBMP stack zero_width_card (fun _ _ => true) "empty.bmp"%string
                     (Some (Some stale_canvas)) (Some None) (Some None)
                     (Some CANVAS_16)) = IMAGE_SUCCESS
  /\ fmt_out (loadBMP stack zero_width_card (fun _ _ => true) "empty.bmp"%string
                      (Some (Some stale_canvas)) (Some None) (Some None)
                      (Some CANVAS_16)) = Some CANVAS_NONE
  /\ canvas1_out (loadBMP stack zero_width_card (fun _ _ => true)
                          "empty.bmp"%string (Some (Some stale_canvas))
                          (Some None) (Some None) (Some CANVAS_16))
     = Some (Some stale_canvas)
  /\ accepted negative_width = true
  /\ status (loadBMP stack negative_width_card (fun _ _ => true) "neg.bmp"%string
                     (Some (Some stale_canvas)) (Some None) (Some None)
                     (Some CANVAS_16)) = IMAGE_SUCCESS
  /\ fmt_out (loadBMP stack negative_width_card (fun _ _ => true) "neg.bmp"%string
                      (Some (Some stale_canvas)) (Some None) (Some None)
                      (Some CANVAS_16)) = Some CANVAS_NONE
  /\ canvas1_out (loadBMP stack negative_width_card (fun _ _ => true)
                          "neg.bmp"%string (Some (Some stale_canvas))
                          (Some None) (Some None) (Some CANVAS_16))
     = Some (Some stale_canvas).
Proof.
  repeat split; vm_compute; reflexivity.
Qed.

(** C6: a scanline starts at byte position
    offset + sourceRow * rowSize (in 32-bit arithmetic); it issues a
    seek exactly when the position of the file differs from it: no seek
    at all when the position is already right (rows at contiguous
    positions), otherwise one seek, to that position, after which the
    next storage call reloads the transfer buffer from there. *)
Theorem C6_seek_only_when_needed
    (tft : bool) (data : list byte) (flip : bool)
    (offset bmpHeight rowSize loadWidth row : Z) (st : State) :
  0 < loadWidth ->
  let bmpPos := bmpPos_of flip offset bmpHeight rowSize row in
  let st' := scanline tft data flip offset bmpHeight rowSize loadWidth row st in
  bmpPos = u32 (offset + source_row flip bmpHeight row * rowSize)
  /\ exists evs,
       log st' = rev evs ++ log st
       /\ (file_position st = bmpPos -> seeks evs = 0%nat)
       /\ (file_position st <> bmpPos ->
           seeks evs = 1%nat
           /\ exists rest,
               evs = EvYield :: (if tft then [EvEndWrite] else [])
                     ++ EvSeek bmpPos :: (if tft then [EvEndWrite] else [])
                     ++ EvRead bmpPos sizeof_sdbuf :: rest).
Proof.
  intros Hw bmpPos st'. split; [apply bmpPos_of_source_row|].
  destruct (scanline_events tft data flip offset bmpHeight rowSize loadWidth
              row st Hw) as (evs & H1 & H2 & H3).
  exists evs. split; [exact H1|]. split; [exact H2|].
  intros F. destruct (H3 F) as (S & rest & E & _).
  split; [exact S|]. now exists rest.
Qed.

(** C8, as amended: a decode that opened the storage stream (the paths
    to success, UnsupportedFormat and OutOfMemory) releases it exactly
    once, as its last action, and never opens it a second time; the
    off-screen clip and the FileNotFound path end before any stream is
    held and issue no close.  On every path the number of closes equals
    the number of successful opens, at most one, and no stream is left
    open. *)
Theorem C8_stream_released
    (SD : string -> option (list byte)) (can_alloc : Z -> Z -> bool)
    (filename : string) (tft : option Adafruit_SPITFT)
    (dest_arg : option (list Z)) (x y : Z)
    (canvas1 : outptr (option GFXcanvas16))
    (canvas2 palette : outptr (option unit)) (fmt : outptr CanvasFormat) :
  let r := coreBMP stack SD can_alloc filename tft dest_arg x y
                   canvas1 canvas2 palette fmt in
  (offscreen tft x y = true -> status r = IMAGE_SUCCESS /\ trace r = [])
  /\ (offscreen tft x y = false -> SD filename = None ->
      status r = IMAGE_ERR_FILE_NOT_FOUND /\ trace r = [EvOpen false])
  /\ (offscreen tft x y = false -> SD filename <> None ->
      exists mid,
        trace r = EvOpen true :: mid ++ [EvClose]
        /\ Forall transfer_event mid
        /\ closes (trace r) = 1%nat)
  /\ closes (trace r) = opens (trace r)
  /\ (closes (trace r) <= 1)%nat
  /\ stream_open (trace r) = false.
Proof.
  intros r. subst r.
  destruct (offscreen tft x y) eqn:Hoff.
  - rewrite coreBMP_offscreen by assumption. cbn [status trace].
    repeat split; try discriminate; auto.
  - destruct (SD filename) as [data|] eqn:HSD.
    + pose proof (coreBMP_shape SD can_alloc filename tft dest_arg x y
                    canvas1 canvas2 palette fmt data Hoff HSD) as H.
      apply run_events in H. destruct H as (mid & Ht & Hmid).
      destruct (opened_once mid Hmid) as (H1 & H2 & H3).
      rewrite Ht. split; [discriminate|]. split; [discriminate|].
      split; [intros _ _; exists mid; auto|].
      rewrite H1, H2, H3. auto.
    + rewrite coreBMP_not_found by assumption. cbn [status trace].
      split; [discriminate|]. split; [auto|].
      split; [intros _ F; now elim F|].
      unfold closes, opens, stream_open. cbn. repeat split; auto.
Qed.

(** C8, as stated, fails: the off-screen clip returns success and the
    FileNotFound path returns its error without a single close. *)
Lemma C8_counterexample :
  status (drawBMP leftover strip_card "strip.bmp"%string tft_320x240 320 0)
  = IMAGE_SUCCESS
  /\ closes (trace (drawBMP leftover strip_card "strip.bmp"%string tft_320x240 320 0))
     = 0%nat
  /\ status (drawBMP leftover strip_card "none.bmp"%string tft_320x240 0 0)
     = IMAGE_ERR_FILE_NOT_FOUND
  /\ closes (trace (drawBMP leftover strip_card "none.bmp"%string tft_320x240 0 0))
     = 0%nat.
Proof.
  repeat split; vm_compute; reflexivity.
Qed.

(** C9 fails on the code when only the height is asked for.  With a
    NULL width pointer the width field is not read, and the height is
    taken from offset 18: for the 3 x 7 image the height returned
    is 3. *)
Theorem C9_height_without_width_reads_offset_18 :
  le32_at three_by_seven 18 = 3
  /\ le32_at three_by_seven 22 = 7
  /\ dim_status (bmpDimensions three_by_seven_card "3x7.bmp"%string
                               None (Some 0)) = IMAGE_SUCCESS
  /\ height_out (bmpDimensions three_by_seven_card "3x7.bmp"%string
                               None (Some 0)) = Some 3
  /\ height_out (bmpDimensions three_by_seven_card "3x7.bmp"%string
                               (Some 0) (Some 0)) = Some 7.
Proof.
  repeat split; vm_compute; reflexivity.
Qed.

(** C10: throughout every decode each index into the transfer buffer
    sdbuf lies in [0, 3*DRAWPIXELS); when drawing to a display each
    index into the working pixel buffer lies in [0, DRAWPIXELS) and no
    batch handed to writePixels is longer than DRAWPIXELS. *)
Theorem C10_buffer_indices_in_bounds
    (SD : string -> option (list byte)) (can_alloc : Z -> Z -> bool)
    (filename : string) (tft : Adafruit_SPITFT) (x y : Z)
    (canvas1 : outptr (option GFXcanvas16))
    (canvas2 palette : outptr (option unit)) (fmt : outptr CanvasFormat) :
  let draw := trace (drawBMP stack SD filename tft x y) in
  let load := trace (loadBMP stack SD can_alloc filename canvas1 canvas2 palette fmt) in
  (forall i v, In (EvSdbuf i v) draw \/ In (EvSdbuf i v) load ->
               0 <= i < 3 * DRAWPIXELS)
  /\ (forall j v, In (EvDest j v) draw ->
                  0 <= j < DRAWPIXELS /\ j < Z.of_nat (length (tftbuf stack)))
  /\ (forall px, In (EvWritePixels px) draw ->
                 Z.of_nat (length px) <= DRAWPIXELS).
Proof.
  intros draw load.
  pose proof (coreBMP_in_bounds SD (fun _ _ => false) filename (Some tft)
                (Some (tftbuf stack)) x y None None None None) as Hd.
  pose proof (coreBMP_in_bounds SD can_alloc filename None None 0 0
                canvas1 canvas2 palette fmt) as Hl.
  fold (drawBMP stack SD filename tft x y) in Hd. fold draw in Hd.
  fold (loadBMP stack SD can_alloc filename canvas1 canvas2 palette fmt) in Hl.
  fold load in Hl.
  rewrite Forall_forall in Hd, Hl.
  split; [|split].
  - intros i v [H | H]; [apply (Hd _ H) | apply (Hl _ H)].
  - intros j v H. specialize (Hd _ H). cbn in Hd. specialize (Hd eq_refl).
    split; [exact Hd|]. rewrite length_tftbuf. lia.
  - intros px H. apply (Hd _ H).
Qed.

(** * Further properties of the code *)

(** ** readLE16 and readLE32 *)

Lemma byte_val_b8 (z : Z) : byte_val (b8 z) = z mod 256.
Proof.
  unfold byte_val, b8.
  pose proof (Z.mod_pos_bound z 256 ltac:(lia)) as H.
  destruct (Byte.of_N (Z.to_N (z mod 256))) as [b|] eqn:E.
  - apply Byte.to_of_N in E. rewrite E. lia.
  - pose proof (Byte.to_of_N_option_map (Z.to_N (z mod 256))) as M.
    rewrite E in M. cbn [option_map] in M.
    destruct (N.leb_spec (Z.to_N (z mod 256)) 255) as [_|F]; [discriminate|lia].
Qed.

(** One byte read at a position inside the file. *)
Lemma file_read1_inside (data : list byte) (st : State) (b : byte) :
  nth_error data (Z.to_nat (fpos st)) = Some b ->
  file_read1 data st
  = (byte_val b,
     mkState (fpos st + 1) (sdbuf st) (srcidx st) (dest st) (destidx st)
             (EvReadByte :: log st)).
Proof. intros H. unfold file_read1. now rewrite H. Qed.

Lemma nth_error_middle (pre post : list byte) (mid : list byte) (i : nat) (p : Z) :
  p = Z.of_nat (length pre) ->
  (i < length mid)%nat ->
  nth_error (pre ++ mid ++ post) (Z.to_nat (p + Z.of_nat i)) = nth_error mid i.
Proof.
  intros -> Hi.
  replace (Z.to_nat (Z.of_nat (length pre) + Z.of_nat i))
    with (length pre + i)%nat by lia.
  rewrite nth_error_app2 by lia.
  replace (length pre + i - length pre)%nat with i by lia.
  now rewrite nth_error_app1.
Qed.

Lemma le16_value (v : Z) :
  u16 (Z.lor (v mod 256) (Z.shiftl (u16 ((v / 2 ^ 8) mod 256)) 8)) = u16 v.
Proof.
  unfold u16. change (2 ^ 8) with 256. change (2 ^ 16) with 65536.
  pose proof (Z.mod_pos_bound v 256 ltac:(lia)) as H0.
  pose proof (Z.mod_pos_bound (v / 256) 256 ltac:(lia)) as H1.
  rewrite (Z.mod_small ((v / 256) mod 256)) by lia.
  rewrite (lor_shiftl_add 8) by (change (2 ^ 8) with 256; lia).
  change (2 ^ 8) with 256.
  rewrite (Z.mod_small (v mod 256 + _)) by lia.
  change 65536 with (256 * 256). rewrite Z.rem_mul_r by lia. ring.
Qed.

Lemma le32_value (v : Z) :
  Z.lor (Z.lor (Z.lor (u32 (v mod 256))
                      (u32 (Z.shiftl (u32 ((v / 2 ^ 8) mod 256)) 8)))
               (u32 (Z.shiftl (u32 ((v / 2 ^ 16) mod 256)) 16)))
        (u32 (Z.shiftl (u32 ((v / 2 ^ 24) mod 256)) 24))
  = u32 v.
Proof.
  unfold u32.
  change (2 ^ 8) with 256. change (2 ^ 16) with 65536.
  change (2 ^ 24) with 16777216. change (2 ^ 32) with 4294967296.
  pose proof (Z.mod_pos_bound v 256 ltac:(lia)) as H0.
  pose proof (Z.mod_pos_bound (v / 256) 256 ltac:(lia)) as H1.
  pose proof (Z.mod_pos_bound (v / 65536) 256 ltac:(lia)) as H2.
  pose proof (Z.mod_pos_bound (v / 16777216) 256 ltac:(lia)) as H3.
  rewrite !Z.shiftl_mul_pow2 by lia.
  change (2 ^ 8) with 256. change (2 ^ 16) with 65536.
  change (2 ^ 24) with 16777216.
  rewrite (Z.mod_small (v mod 256)) by lia.
  rewrite (Z.mod_small ((v / 256) mod 256)) by lia.
  rewrite (Z.mod_small ((v / 65536) mod 256)) by lia.
  rewrite (Z.mod_small ((v / 16777216) mod 256)) by lia.
  rewrite (Z.mod_small (_ * 256)) by lia.
  rewrite (Z.mod_small (_ * 65536)) by lia.
  rewrite (Z.mod_small (_ * 16777216)) by lia.
  replace ((v / 256) mod 256 * 256)
    with (Z.shiftl ((v / 256) mod 256) 8)
    by (rewrite Z.shiftl_mul_pow2 by lia; reflexivity).
  rewrite (lor_shiftl_add 8) by (change (2 ^ 8) with 256; lia).
  replace ((v / 65536) mod 256 * 65536)
    with (Z.shiftl ((v / 65536) mod 256) 16)
    by (rewrite Z.shiftl_mul_pow2 by lia; reflexivity).
  rewrite (lor_shiftl_add 16) by (change (2 ^ 8) with 256;
                                  change (2 ^ 16) with 65536; lia).
  replace ((v / 16777216) mod 256 * 16777216)
    with (Z.shiftl ((v / 16777216) mod 256) 24)
    by (rewrite Z.shiftl_mul_pow2 by lia; reflexivity).
  rewrite (lor_shiftl_add 24) by (change (2 ^ 8) with 256;
                                  change (2 ^ 16) with 65536;
                                  change (2 ^ 24) with 16777216; lia).
  change (2 ^ 8) with 256. change (2 ^ 16) with 65536.
  change (2 ^ 24) with 16777216.
  assert (E1 : v = 256 * (v / 256) + v mod 256) by (apply Z.div_mod; lia).
  assert (E2 : v / 256 = 256 * (v / 256 / 256) + (v / 256) mod 256)
    by (apply Z.div_mod; lia).
  rewrite Z.div_div in E2 by lia. change (256 * 256) with 65536 in E2.
  assert (E3 : v / 65536 = 256 * (v / 65536 / 256) + (v / 65536) mod 256)
    by (apply Z.div_mod; lia).
  rewrite Z.div_div in E3 by lia. change (65536 * 256) with 16777216 in E3.
  assert (E4 : v / 16777216
               = 256 * (v / 16777216 / 256) + (v / 16777216) mod 256)
    by (apply Z.div_mod; lia).
  rewrite Z.div_div in E4 by lia.
  change (16777216 * 256) with 4294967296 in E4.
  apply Z.mod_unique with (q := v / 4294967296); lia.
Qed.

Lemma s32_u32 (z : Z) : s32 (u32 z) = s32 z.
Proof. unfold s32, u32. now rewrite Zplus_mod_idemp_l. Qed.

(** X1: readLE16 and readLE32 read back what the little-endian encoding
    wrote: with the file positioned at the two (four) bytes of [le16 v]
    ([le32 v]), the reader gives [v] as an unsigned 16-bit (32-bit)
    number, which taken as an int32 is [v] again, and leaves the file
    two (four) bytes further. *)
Theorem X1_readLE_round_trip (pre post : list byte) (v : Z) (st : State) :
  fpos st = Z.of_nat (length pre) ->
  fst (readLE16 (pre ++ le16 v ++ post) st) = u16 v
  /\ fpos (snd (readLE16 (pre ++ le16 v ++ post) st)) = fpos st + 2
  /\ fst (readLE32 (pre ++ le32 v ++ post) st) = u32 v
  /\ s32 (fst (readLE32 (pre ++ le32 v ++ post) st)) = s32 v
  /\ fpos (snd (readLE32 (pre ++ le32 v ++ post) st)) = fpos st + 4.
Proof.
  intros Hp.
  assert (R16 : readLE16 (pre ++ le16 v ++ post) st
                = (u16 v,
                   mkState (fpos st + 2) (sdbuf st) (srcidx st) (dest st)
                           (destidx st)
                           (EvReadByte :: EvReadByte :: log st))).
  { unfold readLE16.
    rewrite (file_read1_inside _ st (b8 v)).
    2:{ replace (fpos st) with (fpos st + Z.of_nat 0) by (cbn; lia).
        now rewrite nth_error_middle by (cbn; lia). }
    rewrite (file_read1_inside _ _ (b8 (v / 2 ^ 8))).
    2:{ cbn [fpos]. change 1 with (Z.of_nat 1).
        now rewrite nth_error_middle by (cbn; lia). }
    cbn [fpos sdbuf srcidx dest destidx log].
    rewrite !byte_val_b8, le16_value. f_equal. f_equal. lia. }
  assert (R32 : readLE32 (pre ++ le32 v ++ post) st
                = (u32 v,
                   mkState (fpos st + 4) (sdbuf st) (srcidx st) (dest st)
                           (destidx st)
                           (EvReadByte :: EvReadByte :: EvReadByte
                            :: EvReadByte :: log st))).
  { unfold readLE32.
    rewrite (file_read1_inside _ st (b8 v)).
    2:{ replace (fpos st) with (fpos st + Z.of_nat 0) by (cbn; lia).
        now rewrite nth_error_middle by (cbn; lia). }
    rewrite (file_read1_inside _ _ (b8 (v / 2 ^ 8))).
    2:{ cbn [fpos]. change 1 with (Z.of_nat 1).
        now rewrite nth_error_middle by (cbn; lia). }
    rewrite (file_read1_inside _ _ (b8 (v / 2 ^ 16))).
    2:{ cbn [fpos]. replace (fpos st + 1 + 1) with (fpos st + Z.of_nat 2)
          by (cbn; lia).
        now rewrite nth_error_middle by (cbn; lia). }
    rewrite (file_read1_inside _ _ (b8 (v / 2 ^ 24))).
    2:{ cbn [fpos]. replace (fpos st + 1 + 1 + 1) with (fpos st + Z.of_nat 3)
          by (cbn; lia).
        now rewrite nth_error_middle by (cbn; lia). }
    cbn [fpos sdbuf srcidx dest destidx log].
    rewrite !byte_val_b8, le32_value. f_equal. f_equal. lia. }
  rewrite R16, R32. cbn [fst snd fpos].
  rewrite s32_u32. repeat split.
Qed.

(** ** The two branches of the readers *)

Lemma skipn_cons_nth (k : nat) :
  forall (data : list byte) (b : byte) (l : list byte),
    skipn k data = b :: l ->
    nth_error data k = Some b /\ skipn (S k) data = l.
Proof.
  induction k as [|k IH]; intros [|a data] b l H; try discriminate.
  - cbn [skipn] in H. injection H as -> ->. now split.
  - cbn [skipn nth_error] in *. now apply IH.
Qed.

(** The value of two and of four bytes read one by one. *)
Lemma le16_of_bytes (b0 b1 : byte) :
  u16 (Z.lor (byte_val b0) (Z.shiftl (u16 (byte_val b1)) 8))
  = little_endian [b0; b1].
Proof.
  pose proof (le16_at_bytes [b0; b1] 0 ltac:(lia) ltac:(cbn; lia)) as V.
  unfold le16_at, byte_at in V.
  change (Z.to_nat (0 + 1)) with 1%nat in V. change (Z.to_nat 0) with 0%nat in V.
  cbn [nth_error] in V. rewrite V. cbn [little_endian]. lia.
Qed.

Lemma le32_of_bytes (b0 b1 b2 b3 : byte) :
  Z.lor (Z.lor (Z.lor (u32 (byte_val b0))
                      (u32 (Z.shiftl (u32 (byte_val b1)) 8)))
               (u32 (Z.shiftl (u32 (byte_val b2)) 16)))
        (u32 (Z.shiftl (u32 (byte_val b3)) 24))
  = little_endian [b0; b1; b2; b3].
Proof.
  pose proof (le32_at_bytes [b0; b1; b2; b3] 0 ltac:(lia) ltac:(cbn; lia))
    as V.
  unfold le32_at, byte_at in V.
  change (Z.to_nat (0 + 1)) with 1%nat in V.
  change (Z.to_nat (0 + 2)) with 2%nat in V.
  change (Z.to_nat (0 + 3)) with 3%nat in V.
  change (Z.to_nat 0) with 0%nat in V.
  cbn [nth_error] in V. rewrite V. cbn [little_endian].
  change (2 ^ 8) with 256. change (2 ^ 16) with 65536.
  change (2 ^ 24) with 16777216. lia.
Qed.

(** X2: the two branches of readLE16 and of readLE32 agree as long as
    the bytes asked for are in the file: the branch that reads into the
    result (little-endian machines other than the ESP32) returns the
    same number as the branch that reads byte by byte, and leaves the
    file at the same position, whatever the result variable held
    before. *)
Theorem X2_reader_branches_agree (data : list byte) (st : State)
    (r0 r1 r2 r3 : byte) :
  0 <= fpos st ->
  (fpos st + 2 <= Z.of_nat (length data) ->
   fst (readLE16_direct r0 r1 data st) = fst (readLE16 data st)
   /\ fpos (snd (readLE16_direct r0 r1 data st))
      = fpos (snd (readLE16 data st)))
  /\ (fpos st + 4 <= Z.of_nat (length data) ->
      fst (readLE32_direct r0 r1 r2 r3 data st) = fst (readLE32 data st)
      /\ fpos (snd (readLE32_direct r0 r1 r2 r3 data st))
         = fpos (snd (readLE32 data st))).
Proof.
  intros Hp. set (k := Z.to_nat (fpos st)).
  assert (Hl : length (skipn k data) = (length data - k)%nat)
    by apply length_skipn.
  split.
  - intros H.
    destruct (skipn k data) as [|b0 [|b1 rest]] eqn:E;
      cbn [length] in Hl; try lia.
    destruct (skipn_cons_nth k data b0 _ E) as [N0 E1].
    destruct (skipn_cons_nth (S k) data b1 _ E1) as [N1 _].
    unfold readLE16_direct, file_read_var. fold k. rewrite E.
    unfold readLE16.
    rewrite (file_read1_inside data st b0 N0).
    rewrite (file_read1_inside data _ b1).
    2:{ cbn [fpos]. replace (Z.to_nat (fpos st + 1)) with (S k) by lia.
        exact N1. }
    cbn [fst snd fpos firstn length app skipn].
    rewrite le16_of_bytes. split; [reflexivity | lia].
  - intros H.
    destruct (skipn k data) as [|b0 [|b1 [|b2 [|b3 rest]]]] eqn:E;
      cbn [length] in Hl; try lia.
    destruct (skipn_cons_nth k data b0 _ E) as [N0 E1].
    destruct (skipn_cons_nth (S k) data b1 _ E1) as [N1 E2].
    destruct (skipn_cons_nth (S (S k)) data b2 _ E2) as [N2 E3].
    destruct (skipn_cons_nth (S (S (S k))) data b3 _ E3) as [N3 _].
    unfold readLE32_direct, file_read_var. fold k. rewrite E.
    unfold readLE32.
    rewrite (file_read1_inside data st b0 N0).
    rewrite (file_read1_inside data _ b1).
    2:{ cbn [fpos]. replace (Z.to_nat (fpos st + 1)) with (S k) by lia.
        exact N1. }
    rewrite (file_read1_inside data _ b2).
    2:{ cbn [fpos].
        replace (Z.to_nat (fpos st + 1 + 1)) with (S (S k)) by lia.
        exact N2. }
    rewrite (file_read1_inside data _ b3).
    2:{ cbn [fpos].
        replace (Z.to_nat (fpos st + 1 + 1 + 1)) with (S (S (S k))) by lia.
        exact N3. }
    cbn [fst snd fpos firstn length app skipn].
    rewrite le32_of_bytes. split; [reflexivity | lia].
Qed.

(** ** bmpDimensions *)

Lemma byte_at_past_end (data : list byte) (k : Z) :
  Z.of_nat (length data) <= k -> byte_at data k = -1.
Proof.
  intros H. unfold byte_at.
  assert (E : nth_error data (Z.to_nat k) = None)
    by (apply nth_error_None; lia).
  now rewrite E.
Qed.

Lemma le16_at_signature (data : list byte) :
  (le16_at data 0 =? 0x4D42) = starts_with_BM data.
Proof.
  destruct data as [|b0 [|b1 rest]].
  - reflexivity.
  - unfold le16_at.
    rewrite (byte_at_past_end [b0] (0 + 1)) by (cbn; lia).
    assert (Hb : is_byte (byte_at [b0] 0))
      by (apply byte_at_is_byte; cbn; lia).
    unfold is_byte in Hb.
    replace (starts_with_BM [b0]) with false by (now destruct b0).
    change (Z.shiftl (u16 (-1)) 8) with (Z.shiftl 65535 8).
    rewrite (lor_shiftl_add 8) by (change (2 ^ 8) with 256; lia).
    change (2 ^ 8) with 256.
    apply Z.eqb_neq. unfold u16. change (2 ^ 16) with 65536.
    intros E.
    assert (M : (byte_at [b0] 0 + 65535 * 256) mod 65536
                = byte_at [b0] 0 + 65280).
    { symmetry. apply Z.mod_unique with (q := 255); lia. }
    lia.
  - rewrite le16_at_bytes.
    2: lia. 2: { change (Datatypes.length (b0 :: b1 :: rest)) with (S (S (Datatypes.length rest))). lia. }
    change (byte_at (b0 :: b1 :: rest) 0) with (byte_val b0).
    change (byte_at (b0 :: b1 :: rest) (0 + 1)) with (byte_val b1).
    pose proof (byte_val_is_byte b0) as H0.
    pose proof (byte_val_is_byte b1) as H1. unfold is_byte in *.
    change (2 ^ 8) with 256.
    destruct (starts_with_BM (b0 :: b1 :: rest)) eqn:E.
    + apply Z.eqb_eq.
      assert (E0 : b0 = x42 /\ b1 = x4d).
      { cbn [starts_with_BM] in E.
        destruct b0; try discriminate E; destruct b1; try discriminate E.
        now split. }
      destruct E0 as [-> ->]. reflexivity.
    + apply Z.eqb_neq. intros F.
      assert (F0 : byte_val b0 = 0x42 /\ byte_val b1 = 0x4D) by lia.
      destruct F0 as [F0 F1].
      assert (G0 : b0 = x42).
      { apply (f_equal Z.to_N) in F0. unfold byte_val in F0.
        rewrite N2Z.id in F0.
        pose proof (Byte.of_to_N b0) as P. rewrite F0 in P.
        cbn in P. now inversion P. }
      assert (G1 : b1 = x4d).
      { apply (f_equal Z.to_N) in F1. unfold byte_val in F1.
        rewrite N2Z.id in F1.
        pose proof (Byte.of_to_N b1) as P. rewrite F1 in P.
        cbn in P. now inversion P. }
      subst b0 b1. discriminate E.
Qed.

(** What bmpDimensions does, in full. *)
Lemma bmpDimensions_cases (SD : string -> option (list byte))
    (filename : string) (width height : outptr Z) :
  bmpDimensions SD filename width height
  = match SD filename with
    | None =>
        mkDimensions IMAGE_ERR_FILE_NOT_FOUND width height
                     [EvOpen false; EvClose]
    | Some data =>
        if starts_with_BM data then
          mkDimensions IMAGE_SUCCESS
            (poke width (s32 (le32_at data 18)))
            (poke height
               (let h := s32 (le32_at data (18 + 4 * Z.of_nat (asked width))) in
                if h <? 0 then s32 (- h) else h))
            (EvOpen true
             :: repeat EvReadByte (18 + 4 * asked width + 4 * asked height)
             ++ [EvClose])
        else
          mkDimensions IMAGE_ERR_FORMAT width height
            (EvOpen true :: repeat EvReadByte 2 ++ [EvClose])
    end.
Proof.
  unfold bmpDimensions. destruct (SD filename) as [data|]; [|reflexivity].
  rewrite (opened_cursor [] data), readLE16_cursor, le16_at_signature by lia.
  destruct (starts_with_BM data); [|reflexivity].
  repeat (rewrite readLE32_cursor by lia; cbn [Z.add Pos.add Pos.succ]).
  destruct width as [w0|], height as [h0|];
    repeat (rewrite readLE32_cursor by lia; cbn [Z.add Pos.add Pos.succ]);
    reflexivity.
Qed.

(** X4: the result code of bmpDimensions.  It is
    IMAGE_ERR_FILE_NOT_FOUND when the file cannot be opened,
    IMAGE_SUCCESS when the file starts with the bytes 'B' 'M' (nothing
    else of the header is checked), and IMAGE_ERR_FORMAT otherwise;
    unless it is IMAGE_SUCCESS the variables behind the two pointers
    are left as they were. *)
Theorem X4_bmpDimensions_status (SD : string -> option (list byte))
    (filename : string) (width height : outptr Z) :
  let r := bmpDimensions SD filename width height in
  dim_status r
  = match SD filename with
    | None => IMAGE_ERR_FILE_NOT_FOUND
    | Some data =>
        if starts_with_BM data then IMAGE_SUCCESS else IMAGE_ERR_FORMAT
    end
  /\ (dim_status r <> IMAGE_SUCCESS ->
      width_out r = width /\ height_out r = height).
Proof.
  intros r. subst r. rewrite bmpDimensions_cases.
  destruct (SD filename) as [data|].
  - destruct (starts_with_BM data); cbn [dim_status width_out height_out].
    + split; [reflexivity|]. intros F. now contradiction F.
    + now repeat split.
  - now repeat split.
Qed.

(** X5: the calls bmpDimensions makes to the SD card.  It closes the
    file as its last action on every path, also when the file could not
    be opened; a file that does not start with 'B' 'M' is given up
    after two bytes; otherwise 18 header bytes are read, and 4 more for
    each result that is asked for.  It never seeks. *)
Theorem X5_bmpDimensions_trace (SD : string -> option (list byte))
    (filename : string) (width height : outptr Z) :
  dim_trace (bmpDimensions SD filename width height)
  = match SD filename with
    | None => [EvOpen false; EvClose]
    | Some data =>
        EvOpen true
        :: repeat EvReadByte
             (if starts_with_BM data
              then 18 + 4 * asked width + 4 * asked height
              else 2)
        ++ [EvClose]
    end.
Proof.
  rewrite bmpDimensions_cases.
  destruct (SD filename) as [data|]; [|reflexivity].
  now destruct (starts_with_BM data).
Qed.

(** ** The result codes of drawBMP and loadBMP *)

Lemma accepted_starts_with_BM (data : list byte) :
  accepted data = true -> starts_with_BM data = true.
Proof.
  unfold accepted. intros H.
  apply andb_prop in H. destruct H as [H _].
  apply andb_prop in H. destruct H as [H _].
  apply andb_prop in H. destruct H as [H _].
  now rewrite <- le16_at_signature.
Qed.

Lemma header_trace_quiet (n : nat) :
  Forall (fun e => is_display e = false)
         (EvOpen true :: repeat EvReadByte n ++ [EvClose]).
Proof.
  constructor; [reflexivity|]. apply Forall_app. split.
  - now apply Forall_repeat_ReadByte.
  - now repeat constructor.
Qed.

(** X6: the result code of drawBMP.  It is IMAGE_SUCCESS when the
    origin is right of or below the display (the file is not looked
    at, so it need not exist), else IMAGE_ERR_FILE_NOT_FOUND when the
    file cannot be opened, else IMAGE_ERR_FORMAT when the header check
    fails, else IMAGE_SUCCESS; never IMAGE_ERR_MALLOC.  A call that
    does not give IMAGE_SUCCESS makes no call to the display. *)
Theorem X6_drawBMP_status (SD : string -> option (list byte))
    (filename : string) (t : Adafruit_SPITFT) (x y : Z) :
  let r := drawBMP stack SD filename t x y in
  status r
  = (if offscreen (Some t) x y then IMAGE_SUCCESS
     else match SD filename with
          | None => IMAGE_ERR_FILE_NOT_FOUND
          | Some data =>
              if accepted data then IMAGE_SUCCESS else IMAGE_ERR_FORMAT
          end)
  /\ status r <> IMAGE_ERR_MALLOC
  /\ (status r <> IMAGE_SUCCESS ->
      Forall (fun e => is_display e = false) (trace r)).
Proof.
  intros r. subst r. unfold drawBMP.
  destruct (offscreen (Some t) x y) eqn:Hoff.
  - rewrite coreBMP_offscreen by exact Hoff. cbn [status trace].
    split; [reflexivity|]. split; [discriminate|]. intros F. now contradiction F.
  - destruct (SD filename) as [data|] eqn:HSD.
    + destruct (accepted data) eqn:Hacc.
      * assert (E : status (coreBMP stack SD (fun _ _ => false) filename (Some t)
                              (Some (tftbuf stack)) x y None None None None)
                    = IMAGE_SUCCESS).
        { unfold coreBMP. rewrite Hoff, HSD, parse_header_spec, Hacc.
          destruct (normalize_height _) as [bmpHeight flip].
          destruct (crop t x y _ bmpHeight) as [[[x' y'] lw] lh].
          now destruct ((lw >? 0) && (lh >? 0)). }
        rewrite E. split; [reflexivity|]. split; [discriminate|].
        intros F. now contradiction F.
      * rewrite (coreBMP_rejected SD _ filename (Some t) (Some (tftbuf stack)) x y
                   None None None None data Hoff HSD Hacc).
        cbn [status trace]. split; [reflexivity|]. split; [discriminate|].
        intros _. apply header_trace_quiet.
    + rewrite coreBMP_not_found by assumption. cbn [status trace].
      split; [reflexivity|]. split; [discriminate|].
      intros _. now repeat constructor.
Qed.

(** X7: the result code of loadBMP.  It is IMAGE_ERR_FILE_NOT_FOUND
    when the file cannot be opened, else IMAGE_ERR_FORMAT when the
    header check fails, else IMAGE_ERR_MALLOC when the canvas of the
    size of the image cannot be allocated, else IMAGE_SUCCESS.  canvas2
    and palette are set to NULL on every path.  A call that does not
    give IMAGE_SUCCESS leaves canvas1 as it was, reports CANVAS_NONE,
    and has only opened the file, read at most 34 header bytes one by
    one, and closed it. *)
Theorem X7_loadBMP_status (SD : string -> option (list byte))
    (can_alloc : Z -> Z -> bool) (filename : string)
    (canvas1 : outptr (option GFXcanvas16))
    (canvas2 palette : outptr (option unit)) (fmt : outptr CanvasFormat) :
  let r := loadBMP stack SD can_alloc filename canvas1 canvas2 palette fmt in
  status r
  = match SD filename with
    | None => IMAGE_ERR_FILE_NOT_FOUND
    | Some data =>
        if accepted data then
          if can_alloc (s32 (le32_at data 18))
                       (fst (normalize_height (s32 (le32_at data 22))))
          then IMAGE_SUCCESS
          else IMAGE_ERR_MALLOC
        else IMAGE_ERR_FORMAT
    end
  /\ canvas2_out r = poke canvas2 None
  /\ palette_out r = poke palette None
  /\ (status r <> IMAGE_SUCCESS ->
      canvas1_out r = canvas1
      /\ fmt_out r = poke fmt CANVAS_NONE
      /\ (trace r = [EvOpen false]
          \/ exists n,
               (n <= 34)%nat
               /\ trace r = EvOpen true :: repeat EvReadByte n ++ [EvClose])).
Proof.
  intros r. subst r. unfold loadBMP.
  assert (Hoff : offscreen None 0 0 = false) by reflexivity.
  destruct (SD filename) as [data|] eqn:HSD.
  - destruct (accepted data) eqn:Hacc.
    + unfold coreBMP. rewrite Hoff, HSD, parse_header_spec, Hacc.
      destruct (normalize_height _) as [bmpHeight flip]. cbn [fst].
      destruct (can_alloc _ bmpHeight).
      * cbn [is_tft].
        destruct ((s32 (le32_at data 18) >? 0) && (bmpHeight >? 0));
          cbn [status canvas2_out palette_out];
          (split; [reflexivity|]); (split; [reflexivity|]);
          (split; [reflexivity|]); intros F; now contradiction F.
      * cbn [status canvas2_out palette_out canvas1_out fmt_out trace].
        split; [reflexivity|]. split; [reflexivity|]. split; [reflexivity|].
        intros _. split; [reflexivity|]. split; [reflexivity|].
        right. exists 34%nat. split; [lia|].
        rewrite (header_reads_accepted data Hacc).
        cbn [rev log cursor]. now rewrite rev_header_log.
    + rewrite (coreBMP_rejected SD can_alloc filename None None 0 0
                 canvas1 canvas2 palette fmt data Hoff HSD Hacc).
      cbn [status canvas2_out palette_out canvas1_out fmt_out trace].
      split; [reflexivity|]. split; [reflexivity|]. split; [reflexivity|].
      intros _. split; [reflexivity|]. split; [reflexivity|].
      right. exists (Z.to_nat (header_reads data)). split; [|reflexivity].
      unfold header_reads.
      destruct (le16_at data 0 =? 19778); [|lia].
      destruct (le16_at data 26 =? 1); [|lia].
      destruct (u8 (le16_at data 28) =? 24); lia.
  - rewrite coreBMP_not_found by assumption.
    cbn [status canvas2_out palette_out canvas1_out fmt_out trace].
    split; [reflexivity|]. split; [reflexivity|]. split; [reflexivity|].
    intros _. split; [reflexivity|]. split; [reflexivity|]. now left.
Qed.

(** X8: what loadBMP hands back agrees with bmpDimensions.  When
    loadBMP reports the format CANVAS_16, it has returned IMAGE_SUCCESS
    and written to canvas1 a canvas of positive width and height whose
    buffer has width * height pixels; and bmpDimensions, asked for both
    numbers, succeeds on the same file and gives that width and that
    height. *)
Theorem X8_canvas_matches_dimensions (SD : string -> option (list byte))
    (can_alloc : Z -> Z -> bool) (filename : string)
    (c0 : option GFXcanvas16) (canvas2 palette : outptr (option unit))
    (f0 : CanvasFormat) (w0 h0 : Z) :
  let r := loadBMP stack SD can_alloc filename (Some c0) canvas2 palette (Some f0) in
  let d := bmpDimensions SD filename (Some w0) (Some h0) in
  fmt_out r = Some CANVAS_16 ->
  exists c,
    canvas1_out r = Some (Some c)
    /\ status r = IMAGE_SUCCESS
    /\ 0 < canvas_width c /\ 0 < canvas_height c
    /\ Z.of_nat (length (getBuffer c)) = canvas_width c * canvas_height c
    /\ dim_status d = IMAGE_SUCCESS
    /\ width_out d = Some (canvas_width c)
    /\ height_out d = Some (canvas_height c).
Proof.
  intros r d. subst r d. rewrite bmpDimensions_cases. unfold loadBMP, coreBMP.
  cbn [offscreen poke].
  destruct (SD filename) as [data|]; [|discriminate].
  rewrite parse_header_spec.
  destruct (accepted data) eqn:Hacc; [|discriminate].
  rewrite (accepted_starts_with_BM data Hacc).
  cbn [asked Z.of_nat Z.mul Z.add Pos.of_succ_nat Pos.succ Pos.mul Pos.add
       dim_status width_out height_out poke].
  unfold normalize_height.
  set (w := s32 (le32_at data 18)). set (h := s32 (le32_at data 22)).
  set (h' := if h <? 0 then s32 (- h) else h).
  assert (E : (if h <? 0 then (s32 (- h), false) else (h, true))
              = (h', negb (h <? 0))) by (unfold h'; now destruct (h <? 0)).
  rewrite E. clear E.
  destruct (can_alloc w h'); [|discriminate].
  cbn [is_tft getBuffer new_GFXcanvas16 canvas_width canvas_height].
  destruct (w >? 0) eqn:Ew; [|discriminate].
  destruct (h' >? 0) eqn:Eh; [|discriminate].
  cbn [andb fmt_out canvas1_out status poke]. intros _.
  eexists. split; [reflexivity|].
  cbn [canvas_width canvas_height getBuffer].
  split; [reflexivity|]. split; [lia|]. split; [lia|].
  split; [|now repeat split].
  unfold start_region. rewrite length_dest_scanlines.
  cbn [dest set_dest]. rewrite repeat_length. nia.
Qed.

(** ** What a decode to memory never does *)

Lemma quiet_scanlines (data : list byte) (flip : bool)
    (offset bmpHeight rowSize loadWidth : Z) (n : nat) (row : Z) (st : State) :
  quiet st ->
  quiet (scanlines false data flip offset bmpHeight rowSize loadWidth n row st).
Proof.
  apply (scanlines_inv false data quiet).
  - intros st1 H. now constructor.
  - intros pos st1 H. unfold seek_to.
    destruct (file_position st1 =? pos); [exact H|]. now constructor.
  - intros st1 H. now constructor.
  - intros st1 H _. unfold quiet, convert. cbn [log]. now repeat constructor.
  - intros st1 H. exact H.
Qed.

Lemma quiet_after_header (data : list byte) (d : list Z) :
  quiet (set_dest d (after_header stack data)).
Proof.
  unfold quiet. cbn [log set_dest after_header cursor]. unfold header_log.
  apply Forall_app. split.
  - now apply Forall_repeat_ReadByte.
  - now repeat constructor.
Qed.

(** X9: loading to memory makes no call to a display: whatever the
    file and the arguments, the calls of loadBMP are calls to the SD
    card, to yield, and accesses to its two buffers. *)
Theorem X9_loadBMP_leaves_display_alone (SD : string -> option (list byte))
    (can_alloc : Z -> Z -> bool) (filename : string)
    (canvas1 : outptr (option GFXcanvas16))
    (canvas2 palette : outptr (option unit)) (fmt : outptr CanvasFormat) :
  Forall (fun e => is_display e = false)
         (trace (loadBMP stack SD can_alloc filename canvas1 canvas2 palette fmt)).
Proof.
  unfold loadBMP.
  destruct (coreBMP_trace_cases SD can_alloc filename None None 0 0
              canvas1 canvas2 palette fmt) as [-> | [-> | (data & _ & H)]].
  - constructor.
  - now repeat constructor.
  - cbn [is_tft] in H.
    destruct H as [|flip offset bmpHeight rowSize lw lh x y d Hw Hh Hd].
    + apply Forall_rev. constructor; [reflexivity|].
      apply (quiet_after_header data []).
    + apply Forall_rev. constructor; [reflexivity|].
      apply quiet_scanlines. apply quiet_after_header.
Qed.

(** ** Scanlines, yields and seeks *)

Lemma yields_app (t1 t2 : list event) :
  yields (t1 ++ t2) = (yields t1 + yields t2)%nat.
Proof. unfold yields. now rewrite filter_app, length_app. Qed.

Lemma yields_rev (t : list event) : yields (rev t) = yields t.
Proof.
  induction t as [|e t IH]; [reflexivity|].
  cbn [rev]. rewrite yields_app, IH.
  change (e :: t) with ([e] ++ t). rewrite yields_app. lia.
Qed.

Lemma yields_step (e : event) (l : list event) :
  yields (e :: l) = ((if is_yield e then 1 else 0) + yields l)%nat.
Proof. unfold yields. cbn [filter]. now destruct (is_yield e). Qed.

Lemma seeks_step (e : event) (l : list event) :
  seeks (e :: l) = ((if is_seek e then 1 else 0) + seeks l)%nat.
Proof. unfold seeks. cbn [filter]. now destruct (is_seek e). Qed.

Lemma yields_row_events (evs : list event) :
  Forall row_event evs -> yields evs = 0%nat.
Proof.
  induction 1 as [|e evs He _ IH]; [reflexivity|].
  change (e :: evs) with ([e] ++ evs). rewrite yields_app, IH.
  destruct e; try contradiction; reflexivity.
Qed.

Lemma yields_scanline (tft : bool) (data : list byte) (flip : bool)
    (offset bmpHeight rowSize loadWidth row : Z) (st : State) :
  yields (log (scanline tft data flip offset bmpHeight rowSize loadWidth row st))
  = S (yields (log st)).
Proof.
  unfold scanline.
  set (st0 := emit EvYield st).
  set (st1 := seek_to tft _ st0).
  assert (E1 : yields (log st1) = S (yields (log st))).
  { unfold st1, seek_to. destruct (file_position st0 =? _).
    - unfold st0. cbn [log emit]. now rewrite yields_step.
    - destruct tft; unfold st0; cbn [log emit file_seek set_srcidx];
        now rewrite !yields_step. }
  destruct (adds_pixels tft data (Z.to_nat loadWidth) st1) as (e2 & H2 & F2).
  destruct (adds_finish_row tft (pixels tft data (Z.to_nat loadWidth) st1))
    as (e3 & H3 & F3).
  rewrite H3, H2, !yields_app, E1.
  rewrite (yields_row_events e2 F2), (yields_row_events e3 F3). reflexivity.
Qed.

Lemma seeks_scanline (tft : bool) (data : list byte) (flip : bool)
    (offset bmpHeight rowSize loadWidth row : Z) (st : State) :
  (seeks (log (scanline tft data flip offset bmpHeight rowSize loadWidth row st))
   <= S (seeks (log st)))%nat.
Proof.
  unfold scanline.
  set (st0 := emit EvYield st).
  set (st1 := seek_to tft _ st0).
  assert (E1 : (seeks (log st1) <= S (seeks (log st)))%nat).
  { unfold st1, seek_to. destruct (file_position st0 =? _).
    - unfold st0. cbn [log emit]. rewrite seeks_step. cbn [is_seek]. lia.
    - destruct tft; unfold st0; cbn [log emit file_seek set_srcidx];
        rewrite !seeks_step; cbn [is_seek]; lia. }
  destruct (adds_pixels tft data (Z.to_nat loadWidth) st1) as (e2 & H2 & F2).
  destruct (adds_finish_row tft (pixels tft data (Z.to_nat loadWidth) st1))
    as (e3 & H3 & F3).
  rewrite H3, H2, !seeks_app.
  rewrite (seeks_row_events e2 F2), (seeks_row_events e3 F3). lia.
Qed.

Lemma counts_scanlines (tft : bool) (data : list byte) (flip : bool)
    (offset bmpHeight rowSize loadWidth : Z) (n : nat) :
  forall row st,
    let st' := scanlines tft data flip offset bmpHeight rowSize loadWidth
                 n row st in
    yields (log st') = (n + yields (log st))%nat
    /\ (seeks (log st') <= n + seeks (log st))%nat.
Proof.
  induction n as [|n IH]; intros row st; cbn [scanlines]; [now split|].
  destruct (IH (row + 1)
              (scanline tft data flip offset bmpHeight rowSize loadWidth row st))
    as [Hy Hs].
  cbn zeta in *. rewrite Hy, yields_scanline. split; [lia|].
  pose proof (seeks_scanline tft data flip offset bmpHeight rowSize loadWidth
                row st). lia.
Qed.

Lemma counts_after_header (tft : bool) (data : list byte) (d : list Z)
    (x y w h : Z) :
  yields (log (start_region tft x y w h (set_dest d (after_header stack data))))
  = 0%nat
  /\ seeks (log (start_region tft x y w h (set_dest d (after_header stack data))))
     = 0%nat.
Proof.
  rewrite start_region_log. cbn [log set_dest after_header cursor].
  rewrite yields_app, seeks_app, seeks_header_log.
  assert (Y : yields (header_log (Z.to_nat (header_reads data))) = 0%nat).
  { unfold header_log. rewrite yields_app. unfold yields.
    induction (Z.to_nat (header_reads data)) as [|k IH]; [reflexivity|].
    exact IH. }
  rewrite Y. now destruct tft.
Qed.

(** X10: a decode yields to the scheduler exactly once for each
    scanline it loads, and seeks at most once for each: drawing a file
    that passes the header check yields loadHeight times (the height
    of the cropped region), loading it to memory yields once for each
    row of the image. *)
Theorem X10_yield_once_per_scanline
    (SD : string -> option (list byte)) (can_alloc : Z -> Z -> bool)
    (filename : string) (t : Adafruit_SPITFT) (x y : Z)
    (canvas1 : outptr (option GFXcanvas16))
    (canvas2 palette : outptr (option unit)) (fmt : outptr CanvasFormat)
    (data : list byte) (bmpHeight : Z) (flip : bool) (x' y' lw lh : Z) :
  SD filename = Some data ->
  accepted data = true ->
  normalize_height (s32 (le32_at data 22)) = (bmpHeight, flip) ->
  crop t x y (s32 (le32_at data 18)) bmpHeight = (x', y', lw, lh) ->
  let draw := trace (drawBMP stack SD filename t x y) in
  let load :=
    trace (loadBMP stack SD can_alloc filename canvas1 canvas2 palette fmt) in
  (offscreen (Some t) x y = false -> 0 < lw ->
   yields draw = Z.to_nat lh /\ (seeks draw <= yields draw)%nat)
  /\ (can_alloc (s32 (le32_at data 18)) bmpHeight = true ->
      0 < s32 (le32_at data 18) ->
      yields load = Z.to_nat bmpHeight /\ (seeks load <= yields load)%nat).
Proof.
  intros HSD Hacc Hn Hc draw load. subst draw load. split.
  - intros Hoff Hlw.
    rewrite (drawBMP_accepted SD filename t x y data HSD Hacc Hoff _ _ _ _ _ _
               Hn Hc).
    cbn [trace]. rewrite yields_rev, seeks_rev, yields_step, seeks_step.
    cbn [is_yield is_seek Nat.add].
    rewrite (proj2 (Z.gtb_lt lw 0) Hlw). cbn [andb].
    destruct (lh >? 0) eqn:Eh.
    + destruct (counts_scanlines true data flip (le32_at data 10) bmpHeight
                  (rowSize_of (s32 (le32_at data 18))) lw (Z.to_nat lh) 0
                  (start_region true x' y' lw lh
                     (set_dest (tftbuf stack) (after_header stack data)))) as [Hy Hs].
      destruct (counts_after_header true data (tftbuf stack) x' y' lw lh) as [Y0 S0].
      cbn zeta in Hy, Hs. rewrite Y0 in Hy. rewrite S0 in Hs. lia.
    + destruct (counts_after_header false data [] 0 0 0 0) as [Y0 S0].
      rewrite start_region_log in Y0, S0. cbn [app log set_dest] in Y0, S0.
      rewrite Y0, S0. lia.
  - intros Hcan Hw. unfold loadBMP, coreBMP. cbn [offscreen].
    rewrite HSD, parse_header_spec, Hacc, Hn, Hcan.
    cbn [is_tft getBuffer new_GFXcanvas16].
    rewrite (proj2 (Z.gtb_lt (s32 (le32_at data 18)) 0) Hw). cbn [andb].
    fold (after_header stack data).
    destruct (bmpHeight >? 0) eqn:Eh; cbn [trace];
      rewrite yields_rev, seeks_rev, yields_step, seeks_step;
      cbn [is_yield is_seek Nat.add].
    + set (st0 := start_region false 0 0 _ _ _).
      destruct (counts_scanlines false data flip (le32_at data 10) bmpHeight
                  (rowSize_of (s32 (le32_at data 18))) (s32 (le32_at data 18))
                  (Z.to_nat bmpHeight) 0 st0) as [Hy Hs].
      destruct (counts_after_header false data
                  (repeat 0 (Z.to_nat (s32 (le32_at data 18) * bmpHeight)))
                  0 0 (s32 (le32_at data 18)) bmpHeight) as [Y0 S0].
      fold st0 in Y0, S0. cbn zeta in Hy, Hs. rewrite Y0 in Hy. rewrite S0 in Hs.
      lia.
    + destruct (counts_after_header false data [] 0 0 0 0) as [Y0 S0].
      rewrite start_region_log in Y0, S0. cbn [app log set_dest] in Y0, S0.
      rewrite Y0, S0. lia.
Qed.

(** ** The address window *)

Lemma windows_app (t1 t2 : list event) :
  windows (t1 ++ t2) = (windows t1 + windows t2)%nat.
Proof. unfold windows. now rewrite filter_app, length_app. Qed.

Lemma windows_rev (t : list event) : windows (rev t) = windows t.
Proof.
  induction t as [|e t IH]; [reflexivity|].
  cbn [rev]. rewrite windows_app, IH.
  change (e :: t) with ([e] ++ t). rewrite windows_app. lia.
Qed.

Lemma no_window_in (P : event -> Prop) (evs : list event) :
  (forall x y w h, ~ P (EvSetAddrWindow x y w h)) ->
  Forall P evs ->
  windows evs = 0%nat
  /\ forall x y w h, ~ In (EvSetAddrWindow x y w h) evs.
Proof.
  intros HP. induction 1 as [|e evs He _ [IH1 IH2]].
  - split; [reflexivity|]. intros x y w h [].
  - split.
    + change (e :: evs) with ([e] ++ evs). rewrite windows_app, IH1.
      destruct e; try reflexivity. now apply HP in He.
    + intros x y w h [-> | F]; [now apply HP in He | now apply IH2 in F].
Qed.

Lemma header_log_no_window (n : nat) :
  windows (header_log n) = 0%nat
  /\ forall x y w h, ~ In (EvSetAddrWindow x y w h) (header_log n).
Proof.
  apply (no_window_in (fun e => is_storage e = true)).
  - intros x y w h. discriminate.
  - unfold header_log. apply Forall_app. split.
    + now apply Forall_repeat_ReadByte.
    + now repeat constructor.
Qed.

(** X11: the address window that drawBMP declares lies on the display.
    With the arguments in the range of their C types and a file whose
    width and height are below 2^30, every setAddrWindow(x, y, w, h) of
    a call has 0 <= x, 0 <= y, 0 < w, 0 < h, x + w <= width of the
    display and y + h <= its height; and a call declares at most one
    window. *)
Theorem X11_window_on_display
    (SD : string -> option (list byte)) (filename : string)
    (t : Adafruit_SPITFT) (x y : Z) (data : list byte) :
  SD filename = Some data ->
  - 2 ^ 15 <= x < 2 ^ 15 -> - 2 ^ 15 <= y < 2 ^ 15 ->
  0 <= tft_width t < 2 ^ 15 -> 0 <= tft_height t < 2 ^ 15 ->
  0 <= s32 (le32_at data 18) < 2 ^ 30 ->
  Z.abs (s32 (le32_at data 22)) < 2 ^ 30 ->
  (windows (trace (drawBMP stack SD filename t x y)) <= 1)%nat
  /\ forall wx wy ww wh,
       In (EvSetAddrWindow wx wy ww wh) (trace (drawBMP stack SD filename t x y)) ->
       0 <= wx /\ 0 <= wy /\ 0 < ww /\ 0 < wh
       /\ wx + ww <= tft_width t /\ wy + wh <= tft_height t.
Proof.
  intros HSD Hx Hy Htw Hth Hw Hh.
  assert (P30 : 2 ^ 30 = 1073741824) by reflexivity.
  assert (P31 : 2 ^ 31 = 2147483648) by reflexivity.
  destruct (offscreen (Some t) x y) eqn:Hoff.
  { unfold drawBMP. rewrite coreBMP_offscreen by exact Hoff. cbn [trace].
    split; [cbn; lia|]. intros wx wy ww wh []. }
  destruct (accepted data) eqn:Hacc.
  2:{ unfold drawBMP.
      rewrite (coreBMP_rejected SD _ filename (Some t) (Some (tftbuf stack)) x y
                 None None None None data Hoff HSD Hacc).
      cbn [trace].
      destruct (no_window_in (fun e => is_storage e = true)
                  (EvOpen true
                   :: repeat EvReadByte (Z.to_nat (header_reads data))
                   ++ [EvClose])) as [V0 V1].
      - intros ? ? ? ?. discriminate.
      - constructor; [reflexivity|]. apply Forall_app. split.
        + now apply Forall_repeat_ReadByte.
        + now repeat constructor.
      - rewrite V0. split; [lia|]. intros wx wy ww wh F. now apply V1 in F. }
  set (w := s32 (le32_at data 18)) in *.
  set (h := Z.abs (s32 (le32_at data 22))) in *.
  set (lw := Z.min (w + Z.min x 0) (tft_width t - Z.max x 0)).
  set (lh := Z.min (h + Z.min y 0) (tft_height t - Z.max y 0)).
  pose proof (s32_range (le32_at data 22)) as Hr.
  assert (Hn : normalize_height (s32 (le32_at data 22))
               = (h, 0 <=? s32 (le32_at data 22))).
  { apply normalize_height_abs. unfold h in Hh. lia. }
  assert (Hc : crop t x y w h = (Z.max x 0, Z.max y 0, lw, lh)).
  { apply crop_formula; try assumption. unfold h. lia. }
  rewrite (drawBMP_accepted SD filename t x y data HSD Hacc Hoff _ _ _ _ _ _
             Hn Hc).
  cbn [trace]. fold w.
  destruct (header_log_no_window (Z.to_nat (header_reads data))) as [W0 W1].
  destruct ((lw >? 0) && (lh >? 0)) eqn:E.
  - apply andb_prop in E. destruct E as [E1 E2].
    apply Z.gtb_lt in E1. apply Z.gtb_lt in E2.
    destruct (adds_scanlines true data (0 <=? s32 (le32_at data 22))
                (le32_at data 10) h (rowSize_of w) lw (Z.to_nat lh) 0
                (start_region true (Z.max x 0) (Z.max y 0) lw lh
                   (set_dest (tftbuf stack) (after_header stack data))))
      as (evs & He & Hf).
    rewrite start_region_log in He.
    cbn [log set_dest after_header cursor] in He.
    destruct (no_window_in loop_event evs) as [V0 V1];
      [intros ? ? ? ? F; exact F | exact Hf |].
    rewrite He. split.
    + rewrite windows_rev.
      change (EvClose :: ?l) with ([EvClose] ++ l).
      rewrite !windows_app, V0, W0. cbn. lia.
    + intros wx wy ww wh Hin. apply in_rev in Hin.
      destruct Hin as [F | Hin]; [discriminate F|].
      apply in_app_or in Hin. destruct Hin as [F | Hin]; [now apply V1 in F|].
      apply in_app_or in Hin. destruct Hin as [Hin | F]; [|now apply W1 in F].
      destruct Hin as [Hin | [F | []]]; [|discriminate F].
      inversion Hin; subst wx wy ww wh. unfold lw, lh in *. lia.
  - split.
    + rewrite windows_rev.
      change (EvClose :: ?l) with ([EvClose] ++ l).
      rewrite windows_app. cbn [log after_header cursor]. rewrite W0. cbn. lia.
    + intros wx wy ww wh Hin. apply in_rev in Hin.
      destruct Hin as [F | F]; [discriminate F | now apply W1 in F].
Qed.

(** ** The canvas that loadBMP fills *)

Lemma stores_at_rev_cons (e : event) (l : list event) :
  stores_at (rev (e :: l)) = stores_at (rev l) ++ stores_at [e].
Proof. unfold stores_at. cbn [rev]. now rewrite flat_map_app. Qed.

Lemma stored_stores_at (t : list event) : stored t = map snd (stores_at t).
Proof.
  unfold stored, stores_at. induction t as [|e t IH]; [reflexivity|].
  cbn [flat_map]. rewrite map_app, <- IH. now destruct e.
Qed.

Lemma length_zseq (n : nat) : forall s, length (zseq s n) = n.
Proof. induction n as [|n IH]; intros s; cbn [zseq length]; [|rewrite IH]; reflexivity. Qed.

Lemma zseq_snoc (n : nat) :
  forall s, zseq s (S n) = zseq s n ++ [s + Z.of_nat n].
Proof.
  induction n as [|n IH]; intros s.
  - cbn [zseq app Z.of_nat]. now rewrite Z.add_0_r.
  - change (zseq s (S (S n))) with (s :: zseq (s + 1) (S n)).
    rewrite IH. cbn [zseq app]. do 3 f_equal. lia.
Qed.

Lemma combine_snoc (A B : Type) (a : list A) (b : list B) (x : A) (y : B) :
  length a = length b ->
  combine (a ++ [x]) (b ++ [y]) = combine a b ++ [(x, y)].
Proof.
  revert b. induction a as [|a0 a IH]; intros [|b0 b] H;
    cbn [length] in H; try discriminate; [reflexivity|].
  cbn [app combine]. now rewrite IH by lia.
Qed.

Lemma map_snd_combine_zseq (n : nat) (l : list Z) :
  length l = n -> forall s, map snd (combine (zseq s n) l) = l.
Proof.
  revert l. induction n as [|n IH]; intros [|v l] H s;
    cbn [length] in H; try discriminate; [reflexivity|].
  cbn [zseq combine map snd]. now rewrite IH by lia.
Qed.

Lemma filled_log (e : event) (st st' : State) :
  log st' = e :: log st -> dest st' = dest st -> destidx st' = destidx st ->
  stores_at [e] = [] ->
  filled st -> filled st'.
Proof.
  intros Hl Hd Hi He H. unfold filled, stores in *.
  assert (Es : stored (log st') = stored (log st)).
  { rewrite Hl. rewrite !stored_stores_at.
    change (e :: log st) with ([e] ++ log st).
    unfold stores_at in *. rewrite flat_map_app. fold (stores_at [e]).
    unfold stores_at. now rewrite He. }
  rewrite Es, Hd, Hi, Hl, stores_at_rev_cons, He, app_nil_r. exact H.
Qed.

Lemma filled_convert (st : State) :
  Z.of_nat (length (dest st)) < 2 ^ 32 ->
  filled st -> filled (convert st).
Proof.
  intros HN H. unfold filled in *. rewrite stores_convert.
  intros Hk.
  assert (Hlen : length (dest (convert st)) = length (dest st)).
  { unfold convert. cbn [dest]. unfold array_set.
    destruct (destidx st <? 0); [reflexivity | apply length_list_set]. }
  rewrite Hlen in Hk.
  destruct H as [Hi Hs]; [lia|].
  set (k := stores st) in *.
  unfold convert. cbn [destidx dest log]. rewrite Hi.
  split.
  - rewrite u32_small by lia. lia.
  - unfold array_set. destruct (Z.of_nat k <? 0) eqn:E; [lia|].
    rewrite Nat2Z.id, firstn_list_set by lia.
    rewrite !stores_at_rev_cons, Hs. cbn [stores_at flat_map app].
    rewrite !app_nil_r, zseq_snoc, combine_snoc.
    + reflexivity.
    + rewrite length_zseq, length_firstn. lia.
Qed.

Lemma filled_scanlines (data : list byte) (flip : bool)
    (offset bmpHeight rowSize loadWidth : Z) (n : nat) (row : Z) (st : State) :
  Z.of_nat (length (dest st)) < 2 ^ 32 ->
  filled st ->
  filled (scanlines false data flip offset bmpHeight rowSize loadWidth n row st).
Proof.
  intros HN H.
  apply (scanlines_inv false data
           (fun st' => length (dest st') = length (dest st) /\ filled st')).
  - intros st1 [H1 H2]. split; [exact H1|].
    now apply (filled_log EvYield st1).
  - intros pos st1 [H1 H2]. unfold seek_to.
    destruct (file_position st1 =? pos); [now split|].
    split; [exact H1|]. now apply (filled_log (EvSeek pos) st1).
  - intros st1 [H1 H2]. split; [exact H1|].
    now apply (filled_log (EvRead (fpos st1) sizeof_sdbuf) st1).
  - intros st1 [H1 H2] _. split.
    + unfold convert. cbn [dest]. unfold array_set.
      destruct (destidx st1 <? 0); [exact H1|]. now rewrite length_list_set.
    + apply filled_convert; [rewrite H1; exact HN | exact H2].
  - intros st1 H1. exact H1.
  - now split.
Qed.

(** What loadBMP does with a file that passes the header check and an
    image with an area, when the canvas can be allocated. *)
Lemma loadBMP_accepted_run (SD : string -> option (list byte))
    (can_alloc : Z -> Z -> bool) (filename : string)
    (canvas1 : outptr (option GFXcanvas16))
    (canvas2 palette : outptr (option unit)) (fmt : outptr CanvasFormat)
    (data : list byte) (bmpHeight : Z) (flip : bool) :
  SD filename = Some data ->
  accepted data = true ->
  normalize_height (s32 (le32_at data 22)) = (bmpHeight, flip) ->
  can_alloc (s32 (le32_at data 18)) bmpHeight = true ->
  0 < s32 (le32_at data 18) -> 0 < bmpHeight ->
  let w := s32 (le32_at data 18) in
  let st :=
    scanlines false data flip (le32_at data 10) bmpHeight (rowSize_of w) w
      (Z.to_nat bmpHeight) 0
      (start_region false 0 0 w bmpHeight
         (set_dest (repeat 0 (Z.to_nat (w * bmpHeight)))
                   (after_header stack data))) in
  loadBMP stack SD can_alloc filename canvas1 canvas2 palette fmt
  = mkResult IMAGE_SUCCESS
      (poke canvas1 (Some (mkCanvas w bmpHeight (dest st))))
      (poke canvas2 None) (poke palette None)
      (poke (poke fmt CANVAS_NONE) CANVAS_16)
      (rev (EvClose :: log st)).
Proof.
  intros HSD Hacc Hn Hcan Hw Hh w st. subst st. unfold loadBMP, coreBMP.
  cbn [offscreen]. rewrite HSD, parse_header_spec, Hacc, Hn, Hcan. fold w.
  cbn [is_tft getBuffer new_GFXcanvas16 canvas_width canvas_height].
  rewrite (proj2 (Z.gtb_lt w 0) Hw), (proj2 (Z.gtb_lt bmpHeight 0) Hh).
  reflexivity.
Qed.

(** The scanline loop of a decode to memory fills the canvas. *)
Lemma memory_run (data : list byte) (flip : bool)
    (offset bmpHeight rowSize w : Z) :
  0 < w -> 0 < bmpHeight -> w * bmpHeight < 2 ^ 32 ->
  let st0 := start_region false 0 0 w bmpHeight
               (set_dest (repeat 0 (Z.to_nat (w * bmpHeight)))
                         (after_header stack data)) in
  let st := scanlines false data flip offset bmpHeight rowSize w
              (Z.to_nat bmpHeight) 0 st0 in
  Z.of_nat (length (dest st)) = w * bmpHeight
  /\ stored (rev (log st0)) = []
  /\ stores_at (rev (log st)) = combine (zseq 0 (length (dest st))) (dest st)
  /\ stored (rev (log st)) = dest st.
Proof.
  intros Hw Hh Hsize st0 st1.
  assert (L0 : length (dest st0) = Z.to_nat (w * bmpHeight))
    by (unfold st0; cbn [start_region dest set_dest]; apply repeat_length).
  assert (L1 : length (dest st1) = Z.to_nat (w * bmpHeight))
    by (unfold st1; now rewrite length_dest_scanlines).
  assert (S0 : stores st0 = 0%nat).
  { pose proof (stores_after_header data [] 0 0 0 0) as S.
    unfold stores in *. unfold st0. rewrite start_region_log in *.
    cbn [app log set_dest stored flat_map length] in *. exact S. }
  assert (S1 : stores st1 = Z.to_nat (w * bmpHeight)).
  { unfold st1. rewrite stores_scanlines, S0.
    rewrite Nat.add_0_r. rewrite Z2Nat.inj_mul by lia. lia. }
  assert (E0 : stored (rev (log st0)) = []).
  { apply stored_nil_of_length. rewrite length_stored_rev. exact S0. }
  assert (F0 : filled st0).
  { unfold filled. rewrite S0. intros _. split; [reflexivity|].
    cbn [zseq combine]. rewrite stored_stores_at in E0.
    now destruct (stores_at (rev (log st0))). }
  assert (F1 : filled st1).
  { unfold st1. apply filled_scanlines; [rewrite L0; lia | exact F0]. }
  destruct F1 as [_ F1]; [rewrite S1, L1; lia|].
  rewrite S1, <- L1, firstn_all in F1.
  split; [rewrite L1; lia|]. split; [exact E0|]. split; [exact F1|].
  rewrite stored_stores_at, F1. now apply map_snd_combine_zseq.
Qed.

(** X12: loadBMP writes each cell of the canvas exactly once, in the
    order of the cells, and nowhere else.  For a file that passes the
    header check, with an image of positive width and height and fewer
    than 2^32 pixels and the allocation succeeding, the stores to the
    pixel buffer go to the indices 0, 1, ..., width * height - 1 in
    this order, and the canvas handed back through canvas1 holds the
    values stored. *)
Theorem X12_loadBMP_fills_canvas_in_order
    (SD : string -> option (list byte)) (can_alloc : Z -> Z -> bool)
    (filename : string) (c0 : option GFXcanvas16)
    (canvas2 palette : outptr (option unit)) (fmt : outptr CanvasFormat)
    (data : list byte) (bmpHeight : Z) (flip : bool) :
  SD filename = Some data ->
  accepted data = true ->
  normalize_height (s32 (le32_at data 22)) = (bmpHeight, flip) ->
  can_alloc (s32 (le32_at data 18)) bmpHeight = true ->
  0 < s32 (le32_at data 18) -> 0 < bmpHeight ->
  s32 (le32_at data 18) * bmpHeight < 2 ^ 32 ->
  let w := s32 (le32_at data 18) in
  let r := loadBMP stack SD can_alloc filename (Some c0) canvas2 palette fmt in
  exists buf,
    canvas1_out r = Some (Some (mkCanvas w bmpHeight buf))
    /\ Z.of_nat (length buf) = w * bmpHeight
    /\ stores_at (trace r) = combine (zseq 0 (length buf)) buf
    /\ stored (trace r) = buf.
Proof.
  intros HSD Hacc Hn Hcan Hw Hh Hsize w r. subst r.
  rewrite (loadBMP_accepted_run SD can_alloc filename (Some c0) canvas2
             palette fmt data bmpHeight flip HSD Hacc Hn Hcan Hw Hh).
  fold w. cbn [canvas1_out trace poke].
  destruct (memory_run data flip (le32_at data 10) bmpHeight (rowSize_of w) w
              Hw Hh Hsize) as (L & _ & A & B).
  eexists. split; [reflexivity|]. split; [exact L|].
  rewrite stores_at_rev_cons, stored_rev_cons, A, B.
  cbn [stores_at stored flat_map]. now rewrite !app_nil_r.
Qed.

(** ** Which rows of the file a decode converts *)

Lemma srcidx_convert (st : State) :
  0 <= srcidx st < sizeof_sdbuf -> srcidx (convert st) = srcidx st + 3.
Proof.
  intros H. unfold sizeof_sdbuf, DRAWPIXELS in H.
  assert (W : 2 ^ 16 = 65536) by reflexivity.
  unfold convert. cbn [srcidx].
  rewrite (u16_small (srcidx st + 1)) by lia.
  rewrite (u16_small (srcidx st + 1 + 1)) by lia.
  rewrite u16_small by lia. lia.
Qed.

(** Where [srcidx] stands after [m] pixels. *)
Lemma srcidx_pixels (tft : bool) (data : list byte) (m : nat) :
  forall st j,
    srcidx st = 3 * j -> 0 < j <= DRAWPIXELS ->
    srcidx (pixels tft data m st)
    = 3 * ((j + Z.of_nat m - 1) mod DRAWPIXELS + 1).
Proof.
  unfold DRAWPIXELS.
  induction m as [|m IH]; intros st j Hs Hj.
  - cbn [pixels Z.of_nat]. rewrite Z.add_0_r, Z.mod_small by lia. lia.
  - cbn [pixels]. unfold pixel.
    destruct (srcidx st >=? sizeof_sdbuf) eqn:E.
    + assert (Ej : j = 200).
      { rewrite Z.geb_leb in E. apply Z.leb_le in E.
        unfold sizeof_sdbuf, DRAWPIXELS in E. lia. }
      rewrite (IH _ 1).
      * subst j. f_equal. f_equal.
        replace (200 + Z.of_nat (S m) - 1) with (Z.of_nat m + 1 * 200) by lia.
        rewrite Z_mod_plus by lia. f_equal. lia.
      * rewrite srcidx_convert; rewrite srcidx_refill;
          unfold sizeof_sdbuf, DRAWPIXELS; lia.
      * lia.
    + rewrite Z.geb_leb in E. apply Z.leb_gt in E.
      unfold sizeof_sdbuf, DRAWPIXELS in E.
      rewrite (IH _ (j + 1)).
      * f_equal. f_equal. f_equal. lia.
      * rewrite srcidx_convert; unfold sizeof_sdbuf, DRAWPIXELS; lia.
      * lia.
Qed.

(** Where [srcidx] stands after a scanline that started with a reload
    of the transfer buffer. *)
Lemma srcidx_scanline (tft : bool) (data : list byte) (flip : bool)
    (offset bmpHeight rowSize loadWidth row : Z) (st : State) :
  0 < loadWidth ->
  file_position st <> bmpPos_of flip offset bmpHeight rowSize row
  \/ srcidx st = sizeof_sdbuf ->
  srcidx (scanline tft data flip offset bmpHeight rowSize loadWidth row st)
  = 3 * ((loadWidth - 1) mod DRAWPIXELS + 1).
Proof.
  intros Hw Hfresh. unfold scanline.
  set (bmpPos := bmpPos_of flip offset bmpHeight rowSize row) in *.
  set (st0 := emit EvYield st).
  set (st1 := seek_to tft bmpPos st0).
  assert (H1 : srcidx st1 = 3 * DRAWPIXELS).
  { unfold st1, seek_to. change (file_position st0) with (file_position st).
    destruct (file_position st =? bmpPos) eqn:E; [|reflexivity].
    apply Z.eqb_eq in E. destruct Hfresh as [F | F]; [contradiction|exact F]. }
  assert (H2 : srcidx (pixels tft data (Z.to_nat loadWidth) st1)
               = 3 * ((loadWidth - 1) mod DRAWPIXELS + 1)).
  { rewrite (srcidx_pixels tft data _ st1 DRAWPIXELS H1)
      by (unfold DRAWPIXELS; lia).
    rewrite Z2Nat.id by lia. unfold DRAWPIXELS. f_equal. f_equal.
    replace (200 + loadWidth - 1) with (loadWidth - 1 + 1 * 200) by lia.
    now rewrite Z_mod_plus by lia. }
  unfold finish_row. destruct tft; [|exact H2].
  destruct (destidx _ =? 0); exact H2.
Qed.

Section WholeImage.

Variables (tft : bool) (data : list byte) (flip : bool).
Variables (offset bmpHeight rowSize loadWidth : Z).

Hypothesis width_pos : 0 < loadWidth.
Hypothesis row_fits : 3 * loadWidth <= rowSize.
Hypothesis offset_pos : 0 <= offset.
Hypothesis image_in_file :
  offset + bmpHeight * rowSize <= Z.of_nat (length data).
Hypothesis file_small : Z.of_nat (length data) < 2 ^ 32.

(** Rows stored top-down are read in file order; the transfer buffer
    is reloaded at the start of each row unless a row takes exactly as
    many bytes as the buffer loads made for it and ends inside the
    buffer. *)
Hypothesis reloads :
  flip = true \/ loadWidth mod DRAWPIXELS = 0
  \/ rowSize <> sizeof_sdbuf * ((loadWidth + DRAWPIXELS - 1) / DRAWPIXELS).

Lemma bmpPos_whole (row : Z) :
  0 <= row < bmpHeight ->
  bmpPos_of flip offset bmpHeight rowSize row
  = offset + source_row flip bmpHeight row * rowSize
  /\ 0 <= source_row flip bmpHeight row < bmpHeight.
Proof.
  intros Hr. rewrite bmpPos_of_source_row.
  assert (Hs : 0 <= source_row flip bmpHeight row < bmpHeight)
    by (unfold source_row; destruct flip; lia).
  split; [|exact Hs].
  apply u32_small. nia.
Qed.

(** After a scanline that started with a reload, the next one starts
    with a reload as well: by a seek, or because the buffer is used
    up. *)
Lemma next_row_fresh (row : Z) (st : State) :
  0 <= row -> row + 1 < bmpHeight ->
  file_position st <> bmpPos_of flip offset bmpHeight rowSize row
  \/ srcidx st = sizeof_sdbuf ->
  let st' := scanline tft data flip offset bmpHeight rowSize loadWidth row st in
  file_position st' <> bmpPos_of flip offset bmpHeight rowSize (row + 1)
  \/ srcidx st' = sizeof_sdbuf.
Proof.
  intros Hr Hn Hfr st'. subst st'.
  destruct (bmpPos_whole row ltac:(lia)) as (Ep & Hp0).
  destruct (bmpPos_whole (row + 1) ltac:(lia)) as (Ep' & Hp1).
  destruct (scanline_reads_source_row tft data flip offset bmpHeight rowSize
              loadWidth row st width_pos Hfr) as [_ Hs];
    [rewrite Ep; nia|].
  pose proof (srcidx_scanline tft data flip offset bmpHeight rowSize
                loadWidth row st width_pos Hfr) as Hx.
  rewrite Ep'. destruct Hs as (_ & Hf & _).
  unfold file_position. rewrite Hf, Ep, Hx.
  rewrite Z2Nat.id by lia.
  unfold sizeof_sdbuf, DRAWPIXELS in *.
  unfold source_row in *.
  pose proof (Z.mod_pos_bound (loadWidth - 1) 200 ltac:(lia)) as B.
  destruct flip.
  - left. nia.
  - destruct reloads as [F | [R | R]]; [discriminate F | |].
    + right.
      assert (M : (loadWidth - 1) mod 200 = 199).
      { pose proof (Z.div_mod loadWidth 200 ltac:(lia)) as D.
        rewrite R in D.
        symmetry.
        apply Z.mod_unique with (q := loadWidth / 200 - 1); lia. }
      rewrite M. lia.
    + left. intros F. apply R.
      pose proof (Z.div_mod (loadWidth - 1) 200 ltac:(lia)) as D.
      assert (Q : (loadWidth + 200 - 1) / 200
                  = (loadWidth - 1) / 200 + 1).
      { symmetry.
        apply Z.div_unique with (r := (loadWidth - 1) mod 200); lia. }
      rewrite Q. nia.
Qed.

(** Rows stored bottom-up: the next scanline has to seek. *)
Lemma next_row_seeks (row : Z) (st : State) :
  flip = true ->
  0 <= row -> row + 1 < bmpHeight ->
  file_position st <> bmpPos_of flip offset bmpHeight rowSize row
  \/ srcidx st = sizeof_sdbuf ->
  file_position
    (scanline tft data flip offset bmpHeight rowSize loadWidth row st)
  <> bmpPos_of flip offset bmpHeight rowSize (row + 1).
Proof.
  intros Hflip Hr Hn Hfr.
  destruct (bmpPos_whole row ltac:(lia)) as (Ep & Hp0).
  destruct (bmpPos_whole (row + 1) ltac:(lia)) as (Ep' & Hp1).
  destruct (scanline_reads_source_row tft data flip offset bmpHeight rowSize
              loadWidth row st width_pos Hfr) as [_ Hs];
    [rewrite Ep; nia|].
  pose proof (srcidx_scanline tft data flip offset bmpHeight rowSize
                loadWidth row st width_pos Hfr) as Hx.
  rewrite Ep'. destruct Hs as (_ & Hf & _).
  unfold file_position. rewrite Hf, Ep, Hx.
  rewrite Z2Nat.id by lia.
  unfold sizeof_sdbuf, DRAWPIXELS in *.
  unfold source_row in *.
  pose proof (Z.mod_pos_bound (loadWidth - 1) 200 ltac:(lia)) as B.
  rewrite Hflip. nia.
Qed.

(** What every scanline that starts with a reload hands on to the
    next, the whole loop hands on. *)
Lemma scanlines_fresh_ind (P : Z -> State -> Prop) :
  (forall row st,
      0 <= row < bmpHeight ->
      file_position st <> bmpPos_of flip offset bmpHeight rowSize row
      \/ srcidx st = sizeof_sdbuf ->
      P row st ->
      P (row + 1)
        (scanline tft data flip offset bmpHeight rowSize loadWidth row st)) ->
  forall n row st,
    0 <= row -> row + Z.of_nat n <= bmpHeight ->
    file_position st <> bmpPos_of flip offset bmpHeight rowSize row
    \/ srcidx st = sizeof_sdbuf ->
    P row st ->
    P (row + Z.of_nat n)
      (scanlines tft data flip offset bmpHeight rowSize loadWidth n row st).
Proof.
  intros Hstep. induction n as [|n IH]; intros row st Hr Hn Hfr HP.
  - cbn [scanlines Z.of_nat]. now rewrite Z.add_0_r.
  - cbn [scanlines].
    replace (row + Z.of_nat (S n)) with (row + 1 + Z.of_nat n) by lia.
    destruct n as [|n].
    + cbn [scanlines Z.of_nat]. rewrite Z.add_0_r.
      apply Hstep; [lia | exact Hfr | exact HP].
    + apply IH; [lia | lia | |].
      * apply next_row_fresh; [lia | lia | exact Hfr].
      * apply Hstep; [lia | exact Hfr | exact HP].
Qed.

Lemma scanlines_whole (n : nat) :
  forall row st,
    0 <= row -> row + Z.of_nat n <= bmpHeight ->
    ((0 < n)%nat ->
     srcidx st = sizeof_sdbuf
     \/ file_position st <> bmpPos_of flip offset bmpHeight rowSize row) ->
    stored (rev (log (scanlines tft data flip offset bmpHeight rowSize
                        loadWidth n row st)))
    = stored (rev (log st))
      ++ image_rows data flip offset bmpHeight rowSize loadWidth row n.
Proof.
  unfold image_rows.
  induction n as [|n IH]; intros row st Hr Hn Hfresh.
  - cbn [scanlines zseq flat_map]. now rewrite app_nil_r.
  - cbn [scanlines zseq flat_map].
    destruct (bmpPos_whole row ltac:(lia)) as (Ep & Hp0).
    assert (Hfr : file_position st
                  <> bmpPos_of flip offset bmpHeight rowSize row
                  \/ srcidx st = sizeof_sdbuf)
      by (destruct (Hfresh ltac:(lia)) as [F | F]; [now right | now left]).
    destruct (scanline_reads_source_row tft data flip offset bmpHeight rowSize
                loadWidth row st width_pos Hfr) as [He Hs].
    + rewrite Ep. nia.
    + rewrite IH; [| lia | lia |].
      * rewrite He, Ep, <- app_assoc. reflexivity.
      * intros Hn'.
        destruct (next_row_fresh row st Hr ltac:(lia) Hfr) as [F | F];
          [now right | now left].
Qed.

End WholeImage.

Lemma whole_rows_reload (w : Z) :
  0 < w < 2 ^ 29 -> w mod DRAWPIXELS <> DRAWPIXELS - 1 ->
  w mod DRAWPIXELS = 0
  \/ rowSize_of w <> sizeof_sdbuf * ((w + DRAWPIXELS - 1) / DRAWPIXELS).
Proof.
  intros Hw Hm. pose proof (rowSize_of_bounds w ltac:(lia)) as Hr.
  unfold sizeof_sdbuf, DRAWPIXELS in *.
  destruct (Z.eq_dec (w mod 200) 0) as [E | E]; [now left | right].
  pose proof (Z.div_mod w 200 ltac:(lia)) as D.
  pose proof (Z.mod_pos_bound w 200 ltac:(lia)) as B.
  assert (Q : (w + 200 - 1) / 200 = w / 200 + 1).
  { symmetry. apply Z.div_unique with (r := w mod 200 - 1); lia. }
  rewrite Q. lia.
Qed.

(** The canvas of a decode to memory of a file that holds the whole
    image. *)
Lemma loadBMP_whole_image
    (SD : string -> option (list byte)) (can_alloc : Z -> Z -> bool)
    (filename : string) (c0 : option GFXcanvas16)
    (canvas2 palette : outptr (option unit)) (fmt : outptr CanvasFormat)
    (data : list byte) :
  SD filename = Some data ->
  accepted data = true ->
  0 < s32 (le32_at data 18) < 2 ^ 29 ->
  0 < Z.abs (s32 (le32_at data 22)) < 2 ^ 30 ->
  can_alloc (s32 (le32_at data 18)) (Z.abs (s32 (le32_at data 22))) = true ->
  le32_at data 10
  + Z.abs (s32 (le32_at data 22)) * rowSize_of (s32 (le32_at data 18))
  <= Z.of_nat (length data) ->
  Z.of_nat (length data) < 2 ^ 32 ->
  0 < s32 (le32_at data 22)
  \/ s32 (le32_at data 18) mod DRAWPIXELS <> DRAWPIXELS - 1 ->
  let w := s32 (le32_at data 18) in
  let h := Z.abs (s32 (le32_at data 22)) in
  let flip := 0 <=? s32 (le32_at data 22) in
  canvas1_out (loadBMP stack SD can_alloc filename (Some c0) canvas2 palette fmt)
  = Some (Some (mkCanvas w h
                  (image_rows data flip (le32_at data 10) h (rowSize_of w) w
                              0 (Z.to_nat h)))).
Proof.
  intros HSD Hacc Hw Hh Hcan Hfile Hlen Hre w h flip.
  assert (P29 : 2 ^ 29 = 536870912) by reflexivity.
  assert (P30 : 2 ^ 30 = 1073741824) by reflexivity.
  assert (P31 : 2 ^ 31 = 2147483648) by reflexivity.
  assert (P32 : 2 ^ 32 = 4294967296) by reflexivity.
  assert (Hn : normalize_height (s32 (le32_at data 22)) = (h, flip))
    by (apply normalize_height_abs; lia).
  fold w h in Hcan, Hfile, Hw, Hh.
  pose proof (rowSize_of_bounds w ltac:(lia)) as Hrs.
  pose proof (le32_at_range data 10) as Hoffs.
  assert (Hsize : w * h < 2 ^ 32) by nia.
  rewrite (loadBMP_accepted_run SD can_alloc filename (Some c0) canvas2
             palette fmt data h flip HSD Hacc Hn Hcan ltac:(lia) ltac:(lia)).
  fold w. cbn [canvas1_out poke].
  destruct (memory_run data flip (le32_at data 10) h (rowSize_of w) w
              ltac:(lia) ltac:(lia) Hsize) as (_ & E0 & _ & B).
  rewrite <- B.
  rewrite (scanlines_whole false data flip (le32_at data 10) h (rowSize_of w) w);
    try lia.
  - now rewrite E0.
  - destruct Hre as [Hpos | Hm].
    + left. apply Z.leb_le. lia.
    + right. apply whole_rows_reload; [lia | exact Hm].
  - intros _. left. reflexivity.
Qed.

(** X13: the canvas that loadBMP hands back holds the image.  For a
    file that passes the header check and holds the whole image (width
    below 2^29, file shorter than 2^32 bytes), the canvas is the image
    row by row from the top, each pixel converted from its three bytes:
    destination row r comes from the row stored at
    offset + (height - 1 - r) * rowSize when the height field is
    positive and at offset + r * rowSize when it is negative.  For a
    negative height field this needs a width that does not leave 199
    when divided by 200. *)
Theorem X13_loadBMP_pixels
    (SD : string -> option (list byte)) (can_alloc : Z -> Z -> bool)
    (filename : string) (c0 : option GFXcanvas16)
    (canvas2 palette : outptr (option unit)) (fmt : outptr CanvasFormat)
    (data : list byte) :
  SD filename = Some data ->
  accepted data = true ->
  0 < s32 (le32_at data 18) < 2 ^ 29 ->
  0 < Z.abs (s32 (le32_at data 22)) < 2 ^ 30 ->
  can_alloc (s32 (le32_at data 18)) (Z.abs (s32 (le32_at data 22))) = true ->
  le32_at data 10
  + Z.abs (s32 (le32_at data 22)) * rowSize_of (s32 (le32_at data 18))
  <= Z.of_nat (length data) ->
  Z.of_nat (length data) < 2 ^ 32 ->
  0 < s32 (le32_at data 22)
  \/ s32 (le32_at data 18) mod DRAWPIXELS <> DRAWPIXELS - 1 ->
  let w := s32 (le32_at data 18) in
  let h := Z.abs (s32 (le32_at data 22)) in
  let flip := 0 <=? s32 (le32_at data 22) in
  canvas1_out (loadBMP stack SD can_alloc filename (Some c0) canvas2 palette fmt)
  = Some (Some (mkCanvas w h
                  (image_rows data flip (le32_at data 10) h (rowSize_of w) w
                              0 (Z.to_nat h)))).
Proof. exact (loadBMP_whole_image SD can_alloc filename c0 canvas2 palette fmt data). Qed.

(** What the display is handed of a file that holds the whole
    image. *)
Lemma drawBMP_whole_image
    (SD : string -> option (list byte)) (filename : string)
    (t : Adafruit_SPITFT) (x y : Z) (data : list byte) :
  SD filename = Some data ->
  accepted data = true ->
  offscreen (Some t) x y = false ->
  - 2 ^ 15 <= x < 2 ^ 15 -> - 2 ^ 15 <= y < 2 ^ 15 ->
  0 <= tft_width t < 2 ^ 15 -> 0 <= tft_height t < 2 ^ 15 ->
  0 < s32 (le32_at data 18) < 2 ^ 29 ->
  0 < Z.abs (s32 (le32_at data 22)) < 2 ^ 30 ->
  le32_at data 10
  + Z.abs (s32 (le32_at data 22)) * rowSize_of (s32 (le32_at data 18))
  <= Z.of_nat (length data) ->
  Z.of_nat (length data) < 2 ^ 32 ->
  let w := s32 (le32_at data 18) in
  let h := Z.abs (s32 (le32_at data 22)) in
  let flip := 0 <=? s32 (le32_at data 22) in
  let lw := Z.min (w + Z.min x 0) (tft_width t - Z.max x 0) in
  let lh := Z.min (h + Z.min y 0) (tft_height t - Z.max y 0) in
  0 < lw -> 0 < lh ->
  flip = true \/ lw mod DRAWPIXELS = 0
  \/ rowSize_of w <> sizeof_sdbuf * ((lw + DRAWPIXELS - 1) / DRAWPIXELS) ->
  written (trace (drawBMP stack SD filename t x y))
  = image_rows data flip (le32_at data 10) h (rowSize_of w) lw 0 (Z.to_nat lh).
Proof.
  intros HSD Hacc Hoff Hx Hy Htw Hth Hw Hh Hfile Hlen w h flip lw lh Hlw Hlh
         Hre.
  assert (P29 : 2 ^ 29 = 536870912) by reflexivity.
  assert (P30 : 2 ^ 30 = 1073741824) by reflexivity.
  assert (P31 : 2 ^ 31 = 2147483648) by reflexivity.
  assert (Hn : normalize_height (s32 (le32_at data 22)) = (h, flip))
    by (apply normalize_height_abs; lia).
  assert (Hc : crop t x y w h = (Z.max x 0, Z.max y 0, lw, lh))
    by (apply crop_formula; unfold w, h; lia).
  rewrite drawBMP_written_stored.
  rewrite (drawBMP_accepted SD filename t x y data HSD Hacc Hoff _ _ _ _ _ _
             Hn Hc).
  cbn [trace].
  rewrite (proj2 (Z.gtb_lt lw 0)), (proj2 (Z.gtb_lt lh 0)) by lia.
  cbn [andb]. rewrite stored_rev_cons. cbn [stored flat_map].
  rewrite app_nil_r. fold w.
  pose proof (rowSize_of_bounds w ltac:(unfold w; lia)) as Hrs.
  pose proof (le32_at_range data 10) as Hoffs.
  rewrite (scanlines_whole true data flip (le32_at data 10) h (rowSize_of w) lw);
    try lia.
  - rewrite (stored_nil_of_length
               (rev (log (start_region true (Z.max x 0) (Z.max y 0) lw lh
                            (set_dest (tftbuf stack) (after_header stack data)))))).
    + reflexivity.
    + rewrite length_stored_rev. apply stores_after_header.
  - exact Hfile.
  - exact Hre.
  - intros _. left. reflexivity.
Qed.

(** X14: drawBMP hands the display the image, cropped.  For a file
    that passes the header check and holds the whole image, drawn with
    a region that is not empty, the pixels given to writePixels are, row
    after row from the top of the image, the first loadWidth pixels of
    each of the first loadHeight rows, each converted from its three
    bytes.  For rows stored top-down (negative height field) this needs
    loadWidth to be a multiple of 200, or the row size to differ from
    600 * ceil(loadWidth / 200). *)
Theorem X14_drawBMP_pixels
    (SD : string -> option (list byte)) (filename : string)
    (t : Adafruit_SPITFT) (x y : Z) (data : list byte) :
  SD filename = Some data ->
  accepted data = true ->
  offscreen (Some t) x y = false ->
  - 2 ^ 15 <= x < 2 ^ 15 -> - 2 ^ 15 <= y < 2 ^ 15 ->
  0 <= tft_width t < 2 ^ 15 -> 0 <= tft_height t < 2 ^ 15 ->
  0 < s32 (le32_at data 18) < 2 ^ 29 ->
  0 < Z.abs (s32 (le32_at data 22)) < 2 ^ 30 ->
  le32_at data 10
  + Z.abs (s32 (le32_at data 22)) * rowSize_of (s32 (le32_at data 18))
  <= Z.of_nat (length data) ->
  Z.of_nat (length data) < 2 ^ 32 ->
  let w := s32 (le32_at data 18) in
  let h := Z.abs (s32 (le32_at data 22)) in
  let flip := 0 <=? s32 (le32_at data 22) in
  let lw := Z.min (w + Z.min x 0) (tft_width t - Z.max x 0) in
  let lh := Z.min (h + Z.min y 0) (tft_height t - Z.max y 0) in
  0 < lw -> 0 < lh ->
  flip = true \/ lw mod DRAWPIXELS = 0
  \/ rowSize_of w <> sizeof_sdbuf * ((lw + DRAWPIXELS - 1) / DRAWPIXELS) ->
  written (trace (drawBMP stack SD filename t x y))
  = image_rows data flip (le32_at data 10) h (rowSize_of w) lw 0 (Z.to_nat lh).
Proof. exact (drawBMP_whole_image SD filename t x y data). Qed.

(** ** The colour channels *)

(** Masking a byte with the top [8 - n] bits set clears its low [n]
    bits. *)
Lemma land_mask (z n mask : Z) :
  mask = Z.land 255 (Z.lnot (Z.ones n)) ->
  0 <= n -> 0 <= z < 256 ->
  Z.land z mask = 2 ^ n * (z / 2 ^ n).
Proof.
  intros -> Hn Hz. rewrite Z.land_assoc.
  change 255 with (Z.ones 8). rewrite (Z.land_ones z 8) by lia.
  rewrite (Z.mod_small z) by (change (2 ^ 8) with 256; lia).
  rewrite <- Z.ldiff_land, Z.ldiff_ones_r by lia.
  rewrite Z.shiftr_div_pow2, Z.shiftl_mul_pow2 by lia. ring.
Qed.

(** The value of the conversion as a number: five bits of red, six of
    green, five of blue. *)
Lemma color565_value (b g r : Z) :
  is_byte b -> is_byte g -> is_byte r ->
  color565 b g r = 2048 * (r / 8) + 32 * (g / 4) + b / 8.
Proof.
  intros Hb Hg Hr. rewrite color565_bytes by assumption.
  unfold is_byte in *. unfold formula_565.
  rewrite (land_mask r 3 248), (land_mask g 2 252), (land_mask b 3 248)
    by (reflexivity || lia).
  change (2 ^ 3) with 8. change (2 ^ 2) with 4.
  assert (Br : 0 <= r / 8 < 32)
    by (split; [apply Z.div_pos | apply Z.div_lt_upper_bound]; lia).
  assert (Bg : 0 <= g / 4 < 64)
    by (split; [apply Z.div_pos | apply Z.div_lt_upper_bound]; lia).
  assert (Bb : 0 <= b / 8 < 32)
    by (split; [apply Z.div_pos | apply Z.div_lt_upper_bound]; lia).
  rewrite Z.shiftr_div_pow2 by lia. change (2 ^ 3) with 8.
  rewrite (Z.mul_comm 8 (b / 8)), Z.div_mul by lia.
  replace (Z.shiftl (8 * (r / 8)) 8) with (Z.shiftl (r / 8) 11)
    by (rewrite !Z.shiftl_mul_pow2 by lia;
        change (2 ^ 11) with 2048; change (2 ^ 8) with 256; ring).
  replace (Z.shiftl (4 * (g / 4)) 3) with (Z.shiftl (g / 4) 5)
    by (rewrite !Z.shiftl_mul_pow2 by lia;
        change (2 ^ 5) with 32; change (2 ^ 3) with 8; ring).
  replace (Z.shiftl (r / 8) 11) with (Z.shiftl (Z.shiftl (r / 8) 6) 5)
    by (rewrite Z.shiftl_shiftl by lia; reflexivity).
  rewrite <- Z.shiftl_lor.
  rewrite (Z.lor_comm (Z.shiftl (r / 8) 6)).
  rewrite (lor_shiftl_add 6) by (change (2 ^ 6) with 64; lia).
  rewrite Z.lor_comm.
  rewrite (lor_shiftl_add 5) by (change (2 ^ 5) with 32; lia).
  change (2 ^ 6) with 64. change (2 ^ 5) with 32. ring.
Qed.

(** X15: the three colours do not run into each other.  For bytes B,
    G, R the stored 16-bit value has the top five bits of R in its bits
    15-11, the top six bits of G in its bits 10-5 and the top five bits
    of B in its bits 4-0: each channel is read back from the value as
    the byte shifted right by 3, 2 and 3; the low bits of the bytes are
    dropped. *)
Theorem X15_color565_channels (b g r : Z) :
  is_byte b -> is_byte g -> is_byte r ->
  let v := color565 b g r in
  0 <= v < 2 ^ 16
  /\ Z.shiftr v 11 = Z.shiftr r 3
  /\ Z.land (Z.shiftr v 5) 0x3F = Z.shiftr g 2
  /\ Z.land v 0x1F = Z.shiftr b 3.
Proof.
  intros Hb Hg Hr v. subst v. rewrite color565_value by assumption.
  unfold is_byte in *.
  assert (Br : 0 <= r / 8 < 32)
    by (split; [apply Z.div_pos | apply Z.div_lt_upper_bound]; lia).
  assert (Bg : 0 <= g / 4 < 64)
    by (split; [apply Z.div_pos | apply Z.div_lt_upper_bound]; lia).
  assert (Bb : 0 <= b / 8 < 32)
    by (split; [apply Z.div_pos | apply Z.div_lt_upper_bound]; lia).
  rewrite !Z.shiftr_div_pow2 by lia.
  change 0x3F with (Z.ones 6). change 0x1F with (Z.ones 5).
  rewrite !Z.land_ones by lia.
  change (2 ^ 16) with 65536. change (2 ^ 11) with 2048.
  change (2 ^ 5) with 32. change (2 ^ 6) with 64.
  change (2 ^ 3) with 8. change (2 ^ 2) with 4.
  split; [lia|]. split; [|split].
  - symmetry. apply Z.div_unique with (r := 32 * (g / 4) + b / 8); lia.
  - assert (E : (2048 * (r / 8) + 32 * (g / 4) + b / 8) / 32
                = 64 * (r / 8) + g / 4)
      by (symmetry; apply Z.div_unique with (r := b / 8); lia).
    rewrite E. symmetry. apply Z.mod_unique with (q := r / 8); lia.
  - symmetry. apply Z.mod_unique with (q := 64 * (r / 8) + g / 4); lia.
Qed.

(** ** The size of a row *)

(** X16: the row size computed at line 214 is the width times three
    bytes, rounded up to the next multiple of four: for a width from 0
    to below 2^29 it is a multiple of 4, at least 3 * width and less
    than 3 * width + 4. *)
Theorem X16_rowSize_padded (w : Z) :
  0 <= w < 2 ^ 29 ->
  rowSize_of w mod 4 = 0
  /\ 3 * w <= rowSize_of w < 3 * w + 4
  /\ (rowSize_of w = 3 * w <-> w mod 4 = 0).
Proof.
  intros Hw. rewrite rowSize_of_spec by exact Hw.
  pose proof (Z.div_mod (3 * w + 3) 4 ltac:(lia)) as D.
  pose proof (Z.mod_pos_bound (3 * w + 3) 4 ltac:(lia)) as B.
  pose proof (Z.div_mod w 4 ltac:(lia)) as D'.
  pose proof (Z.mod_pos_bound w 4 ltac:(lia)) as B'.
  split; [|split; [lia|]].
  - rewrite Z.mul_comm. apply Z.mod_mul. lia.
  - assert (C : w mod 4 = 0 \/ w mod 4 = 1 \/ w mod 4 = 2 \/ w mod 4 = 3)
      by lia.
    destruct C as [C | [C | [C | C]]]; rewrite C in *.
    + assert (Q : (3 * w + 3) / 4 = 3 * (w / 4))
        by (symmetry; apply Z.div_unique with (r := 3); lia).
      rewrite Q. lia.
    + assert (Q : (3 * w + 3) / 4 = 3 * (w / 4) + 1)
        by (symmetry; apply Z.div_unique with (r := 2); lia).
      rewrite Q. lia.
    + assert (Q : (3 * w + 3) / 4 = 3 * (w / 4) + 2)
        by (symmetry; apply Z.div_unique with (r := 1); lia).
      rewrite Q. lia.
    + assert (Q : (3 * w + 3) / 4 = 3 * (w / 4) + 3)
        by (symmetry; apply Z.div_unique with (r := 0); lia).
      rewrite Q. lia.
Qed.

(** ** A decode leaves the file closed *)

Lemma fold_stream_closed (mid : list event) (b : bool) :
  fold_left stream_step (mid ++ [EvClose]) b = false.
Proof. now rewrite fold_left_app. Qed.

Lemma coreBMP_leaves_file_closed (SD : string -> option (list byte))
    (can_alloc : Z -> Z -> bool) (filename : string)
    (tft : option Adafruit_SPITFT) (dest_arg : option (list Z)) (x y : Z)
    (canvas1 : outptr (option GFXcanvas16))
    (canvas2 palette : outptr (option unit)) (fmt : outptr CanvasFormat) :
  fold_left stream_step
    (trace (coreBMP stack SD can_alloc filename tft dest_arg x y
                    canvas1 canvas2 palette fmt)) false
  = false.
Proof.
  destruct (coreBMP_trace_cases SD can_alloc filename tft dest_arg x y
              canvas1 canvas2 palette fmt) as [-> | [-> | (data & _ & H)]];
    try reflexivity.
  apply run_events in H. destruct H as (mid & -> & _).
  change (EvOpen true :: mid ++ [EvClose])
    with ((EvOpen true :: mid) ++ [EvClose]).
  apply fold_stream_closed.
Qed.

(** ** What a decode costs on the SD card *)

Lemma reads_app (t1 t2 : list event) :
  reads (t1 ++ t2) = (reads t1 + reads t2)%nat.
Proof. unfold reads. now rewrite filter_app, length_app. Qed.

Lemma reads_rev (t : list event) : reads (rev t) = reads t.
Proof.
  induction t as [|e t IH]; [reflexivity|].
  cbn [rev]. rewrite reads_app, IH.
  change (e :: t) with ([e] ++ t). rewrite reads_app. lia.
Qed.

Lemma reads_step (e : event) (l : list event) :
  reads (e :: l) = ((if is_read e then 1 else 0) + reads l)%nat.
Proof. unfold reads. cbn [filter]. now destruct (is_read e). Qed.

Lemma reads_refill (tft : bool) (data : list byte) (st : State) :
  reads (log (refill tft data st)) = S (reads (log st)).
Proof.
  unfold refill. destruct tft.
  - set (st1 := emit EvStartWrite _).
    assert (E : reads (log st1) = S (reads (log st))).
    { unfold st1. cbn [log emit file_read]. now rewrite !reads_step. }
    destruct (destidx st1 =? 0); cbn [log set_srcidx flush set_destidx emit];
      [exact E|]. now rewrite reads_step.
  - cbn [log set_srcidx file_read]. now rewrite reads_step.
Qed.

Lemma reads_convert (st : State) : reads (log (convert st)) = reads (log st).
Proof. unfold convert. cbn [log]. now rewrite !reads_step. Qed.

(** How many times the pixel loop reloads the transfer buffer. *)
Lemma reads_pixels (tft : bool) (data : list byte) (m : nat) :
  forall st j,
    srcidx st = 3 * j -> 0 < j <= DRAWPIXELS ->
    Z.of_nat (reads (log (pixels tft data m st)))
    = Z.of_nat (reads (log st)) + (j + Z.of_nat m - 1) / DRAWPIXELS.
Proof.
  unfold DRAWPIXELS.
  induction m as [|m IH]; intros st j Hs Hj.
  - cbn [pixels Z.of_nat]. rewrite Z.add_0_r, Z.div_small by lia. lia.
  - cbn [pixels]. unfold pixel.
    destruct (srcidx st >=? sizeof_sdbuf) eqn:E.
    + assert (Ej : j = 200).
      { rewrite Z.geb_leb in E. apply Z.leb_le in E.
        unfold sizeof_sdbuf, DRAWPIXELS in E. lia. }
      rewrite (IH _ 1).
      * rewrite reads_convert, reads_refill. subst j.
        replace (200 + Z.of_nat (S m) - 1) with (Z.of_nat m + 1 * 200) by lia.
        rewrite Z.div_add by lia.
        replace (1 + Z.of_nat m - 1) with (Z.of_nat m) by lia. lia.
      * rewrite srcidx_convert; rewrite srcidx_refill;
          unfold sizeof_sdbuf, DRAWPIXELS; lia.
      * lia.
    + rewrite Z.geb_leb in E. apply Z.leb_gt in E.
      unfold sizeof_sdbuf, DRAWPIXELS in E.
      rewrite (IH _ (j + 1)).
      * rewrite reads_convert. do 2 f_equal. lia.
      * rewrite srcidx_convert; unfold sizeof_sdbuf, DRAWPIXELS; lia.
      * lia.
Qed.

(** The reads and the seek of a scanline that starts with a reload. *)
Lemma io_scanline (tft : bool) (data : list byte) (flip : bool)
    (offset bmpHeight rowSize loadWidth row : Z) (st : State) :
  0 < loadWidth ->
  file_position st <> bmpPos_of flip offset bmpHeight rowSize row
  \/ srcidx st = sizeof_sdbuf ->
  let st' := scanline tft data flip offset bmpHeight rowSize loadWidth row st in
  Z.of_nat (reads (log st'))
  = Z.of_nat (reads (log st)) + (loadWidth + DRAWPIXELS - 1) / DRAWPIXELS
  /\ (file_position st <> bmpPos_of flip offset bmpHeight rowSize row ->
      seeks (log st') = S (seeks (log st))).
Proof.
  intros Hw Hfresh st'. subst st'. unfold scanline.
  set (bmpPos := bmpPos_of flip offset bmpHeight rowSize row) in *.
  set (st0 := emit EvYield st).
  set (st1 := seek_to tft bmpPos st0).
  assert (H1 : srcidx st1 = 3 * DRAWPIXELS).
  { unfold st1, seek_to. change (file_position st0) with (file_position st).
    destruct (file_position st =? bmpPos) eqn:E; [|reflexivity].
    apply Z.eqb_eq in E. destruct Hfresh as [F | F]; [contradiction|exact F]. }
  assert (R1 : reads (log st1) = reads (log st)).
  { unfold st1, seek_to. change (file_position st0) with (file_position st).
    destruct (file_position st =? bmpPos).
    - unfold st0. cbn [log emit]. now rewrite reads_step.
    - destruct tft; unfold st0; cbn [log emit file_seek set_srcidx];
        now rewrite !reads_step. }
  assert (S1 : file_position st <> bmpPos ->
               seeks (log st1) = S (seeks (log st))).
  { intros Hne. unfold st1, seek_to.
    change (file_position st0) with (file_position st).
    rewrite (proj2 (Z.eqb_neq _ _) Hne).
    destruct tft; unfold st0; cbn [log emit file_seek set_srcidx];
      now rewrite !seeks_step. }
  set (st2 := pixels tft data (Z.to_nat loadWidth) st1).
  assert (R2 : Z.of_nat (reads (log st2))
               = Z.of_nat (reads (log st))
                 + (loadWidth + DRAWPIXELS - 1) / DRAWPIXELS).
  { unfold st2.
    rewrite (reads_pixels tft data _ st1 DRAWPIXELS H1)
      by (unfold DRAWPIXELS; lia).
    rewrite Z2Nat.id, R1 by lia. do 2 f_equal. lia. }
  assert (S2 : seeks (log st2) = seeks (log st1)).
  { unfold st2.
    destruct (adds_pixels tft data (Z.to_nat loadWidth) st1) as (e2 & H2 & F2).
    now rewrite H2, seeks_app, (seeks_row_events e2 F2). }
  assert (F : reads (log (finish_row tft st2)) = reads (log st2)
              /\ seeks (log (finish_row tft st2)) = seeks (log st2)).
  { unfold finish_row. destruct tft; [|now split].
    destruct (destidx st2 =? 0); cbn [log emit flush set_destidx];
      rewrite ?reads_step, ?seeks_step; now split. }
  destruct F as [F1 F2]. rewrite F1, F2, S2. split; [exact R2 | exact S1].
Qed.

Lemma reads_after_header (tft : bool) (data : list byte) (d : list Z)
    (x y w h : Z) :
  reads (log (start_region tft x y w h (set_dest d (after_header stack data))))
  = 0%nat.
Proof.
  rewrite start_region_log. cbn [log set_dest after_header cursor].
  rewrite reads_app.
  assert (R : reads (header_log (Z.to_nat (header_reads data))) = 0%nat).
  { unfold header_log. rewrite reads_app. unfold reads.
    induction (Z.to_nat (header_reads data)) as [|k IH]; [reflexivity|].
    exact IH. }
  rewrite R. now destruct tft.
Qed.

(** X19: what drawing costs on the SD card.  For a file that passes
    the header check and holds the whole image (and, for rows stored
    top-down, loadWidth a multiple of 200 or a row size other than
    600 * ceil(loadWidth / 200)), each scanline loads the transfer
    buffer ceil(loadWidth / 200) times, so a call makes
    loadHeight * ceil(loadWidth / 200) reads of the buffer; and for
    rows stored bottom-up with the image data starting after byte 34
    every scanline seeks: loadHeight seeks in all. *)
Theorem X19_drawBMP_reads_and_seeks
    (SD : string -> option (list byte)) (filename : string)
    (t : Adafruit_SPITFT) (x y : Z) (data : list byte) :
  SD filename = Some data ->
  accepted data = true ->
  offscreen (Some t) x y = false ->
  - 2 ^ 15 <= x < 2 ^ 15 -> - 2 ^ 15 <= y < 2 ^ 15 ->
  0 <= tft_width t < 2 ^ 15 -> 0 <= tft_height t < 2 ^ 15 ->
  0 < s32 (le32_at data 18) < 2 ^ 29 ->
  0 < Z.abs (s32 (le32_at data 22)) < 2 ^ 30 ->
  le32_at data 10
  + Z.abs (s32 (le32_at data 22)) * rowSize_of (s32 (le32_at data 18))
  <= Z.of_nat (length data) ->
  Z.of_nat (length data) < 2 ^ 32 ->
  let w := s32 (le32_at data 18) in
  let h := Z.abs (s32 (le32_at data 22)) in
  let flip := 0 <=? s32 (le32_at data 22) in
  let lw := Z.min (w + Z.min x 0) (tft_width t - Z.max x 0) in
  let lh := Z.min (h + Z.min y 0) (tft_height t - Z.max y 0) in
  0 < lw -> 0 < lh ->
  flip = true \/ lw mod DRAWPIXELS = 0
  \/ rowSize_of w <> sizeof_sdbuf * ((lw + DRAWPIXELS - 1) / DRAWPIXELS) ->
  Z.of_nat (reads (trace (drawBMP stack SD filename t x y)))
  = lh * ((lw + DRAWPIXELS - 1) / DRAWPIXELS)
  /\ (flip = true -> 34 < le32_at data 10 ->
      Z.of_nat (seeks (trace (drawBMP stack SD filename t x y))) = lh).
Proof.
  intros HSD Hacc Hoff Hx Hy Htw Hth Hw Hh Hfile Hlen w h flip lw lh Hlw Hlh
         Hre.
  assert (P29 : 2 ^ 29 = 536870912) by reflexivity.
  assert (P30 : 2 ^ 30 = 1073741824) by reflexivity.
  assert (P31 : 2 ^ 31 = 2147483648) by reflexivity.
  assert (Hn : normalize_height (s32 (le32_at data 22)) = (h, flip))
    by (apply normalize_height_abs; lia).
  assert (Hc : crop t x y w h = (Z.max x 0, Z.max y 0, lw, lh))
    by (apply crop_formula; unfold w, h; lia).
  rewrite (drawBMP_accepted SD filename t x y data HSD Hacc Hoff _ _ _ _ _ _
             Hn Hc).
  cbn [trace].
  rewrite (proj2 (Z.gtb_lt lw 0)), (proj2 (Z.gtb_lt lh 0)) by lia.
  cbn [andb]. fold w.
  rewrite reads_rev, seeks_rev, reads_step, seeks_step.
  cbn [is_read is_seek Nat.add].
  pose proof (rowSize_of_bounds w ltac:(unfold w; lia)) as Hrs.
  pose proof (le32_at_range data 10) as Hoffs.
  set (st0 := start_region true (Z.max x 0) (Z.max y 0) lw lh
                (set_dest (tftbuf stack) (after_header stack data))).
  assert (Hfr : file_position st0
                <> bmpPos_of flip (le32_at data 10) h (rowSize_of w) 0
                \/ srcidx st0 = sizeof_sdbuf) by (right; reflexivity).
  assert (Hwf : 3 * lw <= rowSize_of w) by lia.
  assert (Hlh' : 0 + Z.of_nat (Z.to_nat lh) <= h) by lia.
  remember ((lw + DRAWPIXELS - 1) / DRAWPIXELS) as c eqn:Ec.
  assert (Hre0 : flip = true \/ lw mod DRAWPIXELS = 0
                 \/ rowSize_of w
                    <> sizeof_sdbuf * ((lw + DRAWPIXELS - 1) / DRAWPIXELS))
    by (rewrite <- Ec; exact Hre).
  split.
  - assert (R : Z.of_nat
                  (reads (log (scanlines true data flip (le32_at data 10) h
                                 (rowSize_of w) lw (Z.to_nat lh) 0 st0)))
                = (0 + Z.of_nat (Z.to_nat lh)) * c).
    { apply (scanlines_fresh_ind true data flip (le32_at data 10) h
               (rowSize_of w) lw Hlw Hwf ltac:(lia) Hfile Hlen Hre0
               (fun row st => Z.of_nat (reads (log st)) = row * c)).
      - intros row st Hr Hf HP.
        destruct (io_scanline true data flip (le32_at data 10) h
                    (rowSize_of w) lw row st Hlw Hf) as [R _].
        rewrite R, HP, <- Ec. ring.
      - lia.
      - exact Hlh'.
      - exact Hfr.
      - unfold st0. now rewrite reads_after_header. }
    rewrite R, Z2Nat.id by lia. ring.
  - intros Hflip Ho.
    assert (Hpos : forall row,
               0 <= row < h ->
               bmpPos_of flip (le32_at data 10) h (rowSize_of w) row
               = le32_at data 10 + (h - 1 - row) * rowSize_of w).
    { intros row Hr.
      destruct (bmpPos_whole data flip (le32_at data 10) h (rowSize_of w) lw
                  Hlw Hwf ltac:(lia) Hfile Hlen Hre0 row Hr) as [E _].
      rewrite E, Hflip. reflexivity. }
    pose proof (scanlines_fresh_ind true data flip (le32_at data 10) h
                  (rowSize_of w) lw Hlw Hwf ltac:(lia) Hfile Hlen Hre0
                  (fun row st =>
                     Z.of_nat (seeks (log st)) = row
                     /\ (row < h ->
                         file_position st
                         <> bmpPos_of flip (le32_at data 10) h (rowSize_of w)
                                      row))) as Hind.
    cbn beta in Hind.
    destruct (Hind ltac:(
                intros row st Hr Hf [HP Hne];
                destruct (io_scanline true data flip (le32_at data 10) h
                            (rowSize_of w) lw row st Hlw Hf) as [_ S];
                rewrite (S (Hne ltac:(lia)));
                split; [lia|];
                intros Hr1;
                apply (next_row_seeks true data flip (le32_at data 10) h
                         (rowSize_of w) lw Hlw Hwf ltac:(lia) Hfile Hlen
                         Hre0 row st Hflip ltac:(lia) Hr1 Hf))
              (Z.to_nat lh) 0 st0 ltac:(lia) Hlh' Hfr) as [S _].
    + split.
      * unfold st0.
        destruct (counts_after_header true data (tftbuf stack) (Z.max x 0)
                    (Z.max y 0) lw lh) as [_ S0].
        rewrite S0. reflexivity.
      * intros _. rewrite (Hpos 0) by lia.
        unfold st0, start_region, file_position.
        cbn [fpos emit set_dest after_header cursor].
        rewrite (header_reads_accepted data Hacc).
        assert (Hrows : 0 <= (h - 1) * rowSize_of w)
          by (apply Z.mul_nonneg_nonneg; lia).
        lia.
    + rewrite S. lia.
Qed.

(** ** Pixels are written inside a transaction *)

Lemma inside_app (l1 l2 : list event) (px : list Z) :
  inside (l1 ++ EvWritePixels px :: l2) -> txn_open l2 = true.
Proof.
  induction l1 as [|e l1 IH]; cbn [app inside].
  - now intros [H _].
  - destruct e; try exact IH. intros [_ H]. now apply IH.
Qed.

(** The state between two scanlines of a draw. *)
Lemma inside_scanline (data : list byte) (flip : bool)
    (offset bmpHeight rowSize loadWidth row : Z) (st : State) :
  file_position st <> bmpPos_of flip offset bmpHeight rowSize row
  \/ srcidx st = sizeof_sdbuf ->
  inside (log st) /\ destidx st = 0 ->
  let st' := scanline true data flip offset bmpHeight rowSize loadWidth row st in
  inside (log st') /\ destidx st' = 0.
Proof.
  intros Hfresh [Hin Hd] st'. subst st'. unfold scanline.
  set (bmpPos := bmpPos_of flip offset bmpHeight rowSize row) in *.
  set (st0 := emit EvYield st).
  set (st1 := seek_to true bmpPos st0).
  set (K := fun s : State =>
              inside (log s)
              /\ (txn_open (log s) = true
                  \/ (srcidx s = sizeof_sdbuf /\ destidx s = 0))).
  assert (K1 : K st1).
  { unfold K, st1, seek_to. change (file_position st0) with (file_position st).
    destruct (file_position st =? bmpPos) eqn:E.
    - apply Z.eqb_eq in E. destruct Hfresh as [F | F]; [contradiction|].
      split; [exact Hin|]. right. now split.
    - split; [exact Hin|]. right. now split. }
  assert (K2 : K (pixels true data (Z.to_nat loadWidth) st1)).
  { apply (pixels_inv true data K); [| |exact K1].
    - intros s [Ki _]. unfold K, refill.
      set (s1 := emit EvStartWrite _).
      assert (I1 : inside (log s1)) by exact Ki.
      assert (O1 : txn_open (log s1) = true) by reflexivity.
      destruct (destidx s1 =? 0); cbn [log set_srcidx flush set_destidx emit].
      + split; [exact I1 | now left].
      + split; [now split | now left].
    - intros s [Ki Ko] Hs. unfold K, convert. cbn [log inside txn_open].
      split; [exact Ki|]. left.
      destruct Ko as [Ko | [Ko _]]; [exact Ko | lia]. }
  set (st2 := pixels true data (Z.to_nat loadWidth) st1) in *.
  destruct K2 as [I2 O2]. unfold finish_row.
  destruct (destidx st2 =? 0) eqn:E.
  - apply Z.eqb_eq in E. cbn [log emit destidx]. now split.
  - apply Z.eqb_neq in E. cbn [log emit flush set_destidx destidx inside].
    destruct O2 as [O2 | [_ O2]]; [|contradiction].
    now repeat split.
Qed.

Lemma inside_header_log (n : nat) : inside (header_log n).
Proof.
  unfold header_log. induction n as [|n IH]; [exact Logic.I | exact IH].
Qed.

(** X20: for a file that passes the header check and holds the whole
    image (and, for rows stored top-down, loadWidth a multiple of 200
    or a row size other than 600 * ceil(loadWidth / 200)), drawBMP
    hands pixels to the display only inside a write transaction:
    whenever writePixels is called, the last of startWrite and endWrite
    before it was startWrite. *)
Theorem X20_drawBMP_writes_inside_transaction
    (SD : string -> option (list byte)) (filename : string)
    (t : Adafruit_SPITFT) (x y : Z) (data : list byte) :
  SD filename = Some data ->
  accepted data = true ->
  offscreen (Some t) x y = false ->
  - 2 ^ 15 <= x < 2 ^ 15 -> - 2 ^ 15 <= y < 2 ^ 15 ->
  0 <= tft_width t < 2 ^ 15 -> 0 <= tft_height t < 2 ^ 15 ->
  0 < s32 (le32_at data 18) < 2 ^ 29 ->
  0 < Z.abs (s32 (le32_at data 22)) < 2 ^ 30 ->
  le32_at data 10
  + Z.abs (s32 (le32_at data 22)) * rowSize_of (s32 (le32_at data 18))
  <= Z.of_nat (length data) ->
  Z.of_nat (length data) < 2 ^ 32 ->
  let w := s32 (le32_at data 18) in
  let h := Z.abs (s32 (le32_at data 22)) in
  let flip := 0 <=? s32 (le32_at data 22) in
  let lw := Z.min (w + Z.min x 0) (tft_width t - Z.max x 0) in
  let lh := Z.min (h + Z.min y 0) (tft_height t - Z.max y 0) in
  0 < lw -> 0 < lh ->
  flip = true \/ lw mod DRAWPIXELS = 0
  \/ rowSize_of w <> sizeof_sdbuf * ((lw + DRAWPIXELS - 1) / DRAWPIXELS) ->
  forall t1 px t2,
    trace (drawBMP stack SD filename t x y) = t1 ++ EvWritePixels px :: t2 ->
    in_transaction t1 = true.
Proof.
  intros HSD Hacc Hoff Hx Hy Htw Hth Hw Hh Hfile Hlen w h flip lw lh Hlw Hlh
         Hre t1 px t2.
  assert (P29 : 2 ^ 29 = 536870912) by reflexivity.
  assert (P30 : 2 ^ 30 = 1073741824) by reflexivity.
  assert (P31 : 2 ^ 31 = 2147483648) by reflexivity.
  assert (Hn : normalize_height (s32 (le32_at data 22)) = (h, flip))
    by (apply normalize_height_abs; lia).
  assert (Hc : crop t x y w h = (Z.max x 0, Z.max y 0, lw, lh))
    by (apply crop_formula; unfold w, h; lia).
  rewrite (drawBMP_accepted SD filename t x y data HSD Hacc Hoff _ _ _ _ _ _
             Hn Hc).
  cbn [trace].
  rewrite (proj2 (Z.gtb_lt lw 0)), (proj2 (Z.gtb_lt lh 0)) by lia.
  cbn [andb]. fold w.
  pose proof (rowSize_of_bounds w ltac:(unfold w; lia)) as Hrs.
  pose proof (le32_at_range data 10) as Hoffs.
  set (st0 := start_region true (Z.max x 0) (Z.max y 0) lw lh
                (set_dest (tftbuf stack) (after_header stack data))).
  assert (Hfr : file_position st0
                <> bmpPos_of flip (le32_at data 10) h (rowSize_of w) 0
                \/ srcidx st0 = sizeof_sdbuf) by (right; reflexivity).
  assert (Hwf : 3 * lw <= rowSize_of w) by lia.
  assert (Hlh' : 0 + Z.of_nat (Z.to_nat lh) <= h) by lia.
  pose proof (scanlines_fresh_ind true data flip (le32_at data 10) h
                (rowSize_of w) lw Hlw Hwf ltac:(lia) Hfile Hlen Hre
                (fun _ st => inside (log st) /\ destidx st = 0)) as Hind.
  cbn beta in Hind.
  destruct (Hind ltac:(
              intros row st Hr Hf HP;
              apply (inside_scanline data flip (le32_at data 10) h
                       (rowSize_of w) lw row st Hf HP))
            (Z.to_nat lh) 0 st0 ltac:(lia) Hlh' Hfr) as [Hin _].
  - split; [|reflexivity]. unfold st0. rewrite start_region_log.
    cbn [app inside log set_dest after_header cursor].
    apply inside_header_log.
  - intros E. apply rev_split in E.
    assert (Hin' : inside (rev t2 ++ EvWritePixels px :: rev t1))
      by (rewrite <- E; exact Hin).
    apply inside_app in Hin'. now rewrite in_transaction_rev.
Qed.

(** ** Where seeks land and reads start *)

Lemma io_within_refill (tft : bool) (data : list byte) (lo hi : Z)
    (st : State) :
  lo <= fpos st < hi ->
  Forall (io_within lo hi) (log st) ->
  Forall (io_within lo hi) (log (refill tft data st)).
Proof.
  intros Hp H. unfold refill. destruct tft.
  - set (st1 := emit EvStartWrite _).
    assert (H1 : Forall (io_within lo hi) (log st1)).
    { unfold st1. cbn [log emit file_read].
      constructor; [exact Logic.I|]. constructor; [now split|].
      constructor; [exact Logic.I | exact H]. }
    destruct (destidx st1 =? 0); cbn [log set_srcidx flush set_destidx emit];
      [exact H1|]. constructor; [exact Logic.I | exact H1].
  - cbn [log set_srcidx file_read]. constructor; [now split | exact H].
Qed.

Lemma io_within_convert (lo hi : Z) (st : State) :
  Forall (io_within lo hi) (log st) ->
  Forall (io_within lo hi) (log (convert st)).
Proof. intros H. unfold convert. cbn [log]. now repeat constructor. Qed.

Lemma io_within_pixels (tft : bool) (data : list byte) (lo hi p : Z)
    (m : nat) :
  0 <= p -> lo <= p -> hi <= Z.of_nat (length data) ->
  forall k st,
    p + 3 * Z.of_nat (k + m) <= hi ->
    synced data p k st ->
    Forall (io_within lo hi) (log st) ->
    Forall (io_within lo hi) (log (pixels tft data m st)).
Proof.
  intros Hp Hlo Hhi. induction m as [|m IH]; intros k st Hl Hs H.
  - exact H.
  - cbn [pixels].
    assert (Hpx : synced data p (S k) (pixel tft data st)
                  /\ Forall (io_within lo hi) (log (pixel tft data st))).
    { unfold pixel. destruct (srcidx st >=? sizeof_sdbuf) eqn:E.
      - assert (Es : srcidx st = sizeof_sdbuf).
        { destruct Hs as ((j & Hj & Hj') & _).
          rewrite Z.geb_leb in E. apply Z.leb_le in E.
          unfold sizeof_sdbuf, DRAWPIXELS in *. lia. }
        assert (Ef : fpos st = p + 3 * Z.of_nat k).
        { destruct Hs as (_ & Hf & _). rewrite Hf, Es. lia. }
        split.
        + apply synced_convert; try lia.
          * rewrite srcidx_refill. reflexivity.
          * now apply synced_refill.
        + apply io_within_convert, io_within_refill; [lia | exact H].
      - rewrite Z.geb_leb in E. apply Z.leb_gt in E. split.
        + apply synced_convert; try lia. exact Hs.
        + now apply io_within_convert. }
    destruct Hpx as [Hs1 H1].
    apply (IH (S k)); [lia | exact Hs1 | exact H1].
Qed.

Lemma io_within_scanline (tft : bool) (data : list byte) (flip : bool)
    (offset bmpHeight rowSize loadWidth row lo hi : Z) (st : State) :
  0 < loadWidth ->
  file_position st <> bmpPos_of flip offset bmpHeight rowSize row
  \/ srcidx st = sizeof_sdbuf ->
  lo <= bmpPos_of flip offset bmpHeight rowSize row ->
  bmpPos_of flip offset bmpHeight rowSize row + 3 * loadWidth <= hi ->
  hi <= Z.of_nat (length data) ->
  Forall (io_within lo hi) (log st) ->
  Forall (io_within lo hi)
         (log (scanline tft data flip offset bmpHeight rowSize loadWidth
                 row st)).
Proof.
  intros Hw Hfresh Hlo Hrow Hhi H. unfold scanline.
  set (bmpPos := bmpPos_of flip offset bmpHeight rowSize row) in *.
  assert (Hp : 0 <= bmpPos).
  { unfold bmpPos. rewrite bmpPos_of_source_row. apply u32_range. }
  set (st0 := emit EvYield st).
  set (st1 := seek_to tft bmpPos st0).
  assert (H1 : srcidx st1 = sizeof_sdbuf /\ fpos st1 = bmpPos
               /\ Forall (io_within lo hi) (log st1)).
  { unfold st1, seek_to. change (file_position st0) with (file_position st).
    destruct (file_position st =? bmpPos) eqn:E.
    - apply Z.eqb_eq in E. destruct Hfresh as [F | F]; [contradiction|].
      split; [exact F|]. split; [exact E|]. now constructor.
    - split; [reflexivity|]. split; [reflexivity|].
      destruct tft; cbn [log emit file_seek set_srcidx st0].
      + constructor; [cbn; lia|]. now repeat constructor.
      + constructor; [cbn; lia|]. now constructor. }
  destruct H1 as (Hs1 & Hf1 & Hl1).
  assert (Hsync : synced data bmpPos 0 st1).
  { unfold synced. rewrite Hs1, Hf1. split; [|split].
    - exists DRAWPIXELS. unfold sizeof_sdbuf, DRAWPIXELS. lia.
    - cbn [Z.of_nat]. lia.
    - intros i Hi. lia. }
  pose proof (io_within_pixels tft data lo hi bmpPos (Z.to_nat loadWidth)
                Hp Hlo Hhi 0 st1 ltac:(cbn [Nat.add]; lia) Hsync Hl1) as H2.
  unfold finish_row. destruct tft; [|exact H2].
  destruct (destidx _ =? 0); cbn [log emit flush set_destidx];
    now repeat constructor.
Qed.

(** X21: drawing a file that holds the whole image, every seek lands
    inside the image data and every read of the transfer buffer starts
    there.  For a file that passes the header check (and, for rows
    stored top-down, loadWidth a multiple of 200 or a row size other
    than 600 * ceil(loadWidth / 200)), every seek of a call goes to a
    position from the start of the image data (the offset field) to
    before its end (offset + height * rowSize), and every read of the
    transfer buffer starts in that range.  A read asks for 600 bytes
    wherever it starts: where it ends is not bounded, and the read of
    the last bytes of the image data runs past their end. *)
Theorem X21_drawBMP_seeks_and_reads_start_in_image
    (SD : string -> option (list byte)) (filename : string)
    (t : Adafruit_SPITFT) (x y : Z) (data : list byte) :
  SD filename = Some data ->
  accepted data = true ->
  offscreen (Some t) x y = false ->
  - 2 ^ 15 <= x < 2 ^ 15 -> - 2 ^ 15 <= y < 2 ^ 15 ->
  0 <= tft_width t < 2 ^ 15 -> 0 <= tft_height t < 2 ^ 15 ->
  0 < s32 (le32_at data 18) < 2 ^ 29 ->
  0 < Z.abs (s32 (le32_at data 22)) < 2 ^ 30 ->
  le32_at data 10
  + Z.abs (s32 (le32_at data 22)) * rowSize_of (s32 (le32_at data 18))
  <= Z.of_nat (length data) ->
  Z.of_nat (length data) < 2 ^ 32 ->
  let w := s32 (le32_at data 18) in
  let h := Z.abs (s32 (le32_at data 22)) in
  let flip := 0 <=? s32 (le32_at data 22) in
  let lw := Z.min (w + Z.min x 0) (tft_width t - Z.max x 0) in
  let lh := Z.min (h + Z.min y 0) (tft_height t - Z.max y 0) in
  0 < lw -> 0 < lh ->
  flip = true \/ lw mod DRAWPIXELS = 0
  \/ rowSize_of w <> sizeof_sdbuf * ((lw + DRAWPIXELS - 1) / DRAWPIXELS) ->
  Forall (io_within (le32_at data 10) (le32_at data 10 + h * rowSize_of w))
         (trace (drawBMP stack SD filename t x y)).
Proof.
  intros HSD Hacc Hoff Hx Hy Htw Hth Hw Hh Hfile Hlen w h flip lw lh Hlw Hlh
         Hre.
  assert (P29 : 2 ^ 29 = 536870912) by reflexivity.
  assert (P30 : 2 ^ 30 = 1073741824) by reflexivity.
  assert (P31 : 2 ^ 31 = 2147483648) by reflexivity.
  assert (Hn : normalize_height (s32 (le32_at data 22)) = (h, flip))
    by (apply normalize_height_abs; lia).
  assert (Hc : crop t x y w h = (Z.max x 0, Z.max y 0, lw, lh))
    by (apply crop_formula; unfold w, h; lia).
  rewrite (drawBMP_accepted SD filename t x y data HSD Hacc Hoff _ _ _ _ _ _
             Hn Hc).
  cbn [trace].
  rewrite (proj2 (Z.gtb_lt lw 0)), (proj2 (Z.gtb_lt lh 0)) by lia.
  cbn [andb]. fold w.
  pose proof (rowSize_of_bounds w ltac:(unfold w; lia)) as Hrs.
  pose proof (le32_at_range data 10) as Hoffs.
  set (st0 := start_region true (Z.max x 0) (Z.max y 0) lw lh
                (set_dest (tftbuf stack) (after_header stack data))).
  assert (Hfr : file_position st0
                <> bmpPos_of flip (le32_at data 10) h (rowSize_of w) 0
                \/ srcidx st0 = sizeof_sdbuf) by (right; reflexivity).
  assert (Hwf : 3 * lw <= rowSize_of w) by lia.
  assert (Hlh' : 0 + Z.of_nat (Z.to_nat lh) <= h) by lia.
  apply Forall_rev. constructor; [exact Logic.I|].
  apply (scanlines_fresh_ind true data flip (le32_at data 10) h (rowSize_of w)
           lw Hlw Hwf ltac:(lia) Hfile Hlen Hre
           (fun _ st =>
              Forall (io_within (le32_at data 10)
                                (le32_at data 10 + h * rowSize_of w))
                     (log st)));
    [ | lia | exact Hlh' | exact Hfr | ].
  - intros row st Hr Hf HP.
    destruct (bmpPos_whole data flip (le32_at data 10) h (rowSize_of w) lw
                Hlw Hwf ltac:(lia) Hfile Hlen Hre row Hr) as [E Hsr].
    apply io_within_scanline; try assumption; rewrite E; nia.
  - unfold st0. rewrite start_region_log.
    cbn [app log set_dest after_header cursor].
    constructor; [exact Logic.I|]. constructor; [exact Logic.I|].
    unfold header_log. apply Forall_app. split.
    + now apply Forall_repeat_ReadByte.
    + now repeat constructor.
Qed.

(** ** Batches *)

Lemma flush_not_empty (st : State) :
  batch_inv st -> destidx st <> 0 ->
  Forall batch_not_empty (log st) -> Forall batch_not_empty (log (flush st)).
Proof.
  intros ((_ & Hx & _) & Hn & _) Hd H.
  destruct (Hx eq_refl) as [H0 _].
  cbn [log flush set_destidx emit]. constructor; [|exact H].
  cbn [batch_not_empty]. intros E.
  apply (f_equal (@length Z)) in E. rewrite length_firstn in E.
  cbn [length] in E. unfold DRAWPIXELS in Hn. lia.
Qed.

Lemma batches_scanlines (data : list byte) (flip : bool)
    (offset bmpHeight rowSize loadWidth : Z) (n : nat) (row : Z) (st : State) :
  batch_inv st /\ Forall batch_not_empty (log st) ->
  Forall batch_not_empty
         (log (scanlines true data flip offset bmpHeight rowSize loadWidth
                 n row st)).
Proof.
  intros H.
  apply (scanlines_inv true data
           (fun s => batch_inv s /\ Forall batch_not_empty (log s)));
    [ | | | | | exact H].
  - intros s [B F]. split; [now apply batch_inv_emit|]. now constructor.
  - intros pos s [B F]. split; [now apply batch_inv_seek_to|].
    unfold seek_to. destruct (file_position s =? pos); [exact F|].
    cbn [log emit file_seek set_srcidx]. now repeat constructor.
  - intros s [B F]. split; [now apply batch_inv_refill|].
    unfold refill.
    set (s1 := emit EvStartWrite _).
    assert (B1 : batch_inv s1).
    { unfold s1. apply batch_inv_emit; [exact Logic.I|].
      apply (batch_inv_emit EvEndWrite) in B; [|exact Logic.I].
      destruct B as ((Hs & Hx & Hl) & Hn & Hp & Hd).
      unfold batch_inv, buffers_ok.
      cbn [srcidx dest destidx log file_read] in *.
      split; [split; [exact Hs | split; [exact Hx|]]|].
      - constructor; [exact Logic.I | exact Hl].
      - auto. }
    assert (F1 : Forall batch_not_empty (log s1))
      by (unfold s1; cbn [log emit file_read]; now repeat constructor).
    destruct (destidx s1 =? 0) eqn:E; [exact F1|].
    apply Z.eqb_neq in E. now apply flush_not_empty.
  - intros s [B F] Hs. split; [now apply batch_inv_convert|].
    unfold convert. cbn [log]. now repeat constructor.
  - intros s [B F]. split; [now apply batch_inv_finish_row|].
    unfold finish_row. destruct (destidx s =? 0) eqn:E.
    + cbn [log emit]. now constructor.
    + apply Z.eqb_neq in E. cbn [log emit]. constructor; [exact Logic.I|].
      now apply flush_not_empty.
Qed.

(** X22: drawBMP never hands the display an empty batch: whatever the
    file and the origin, every writePixels of a call passes a list of
    pixels that is not empty. *)
Theorem X22_drawBMP_batches_not_empty
    (SD : string -> option (list byte)) (filename : string)
    (t : Adafruit_SPITFT) (x y : Z) :
  Forall batch_not_empty (trace (drawBMP stack SD filename t x y)).
Proof.
  unfold drawBMP.
  destruct (coreBMP_trace_cases SD (fun _ _ => false) filename (Some t)
              (Some (tftbuf stack)) x y None None None None)
    as [-> | [-> | (data & _ & H)]].
  - constructor.
  - now repeat constructor.
  - cbn [is_tft] in H.
    destruct H as [|flip offset bmpHeight rowSize lw lh x' y' d Hw Hh Hd].
    + apply Forall_rev. constructor; [exact Logic.I|].
      cbn [log after_header cursor]. unfold header_log.
      apply Forall_app. split.
      * now apply Forall_repeat_ReadByte.
      * now repeat constructor.
    + specialize (Hd eq_refl). injection Hd as <-.
      apply Forall_rev. constructor; [exact Logic.I|].
      apply batches_scanlines. split.
      * unfold start_region.
        apply batch_inv_emit; [exact Logic.I|].
        apply batch_inv_emit; [exact Logic.I|].
        apply batch_inv_start. exact length_tftbuf.
      * rewrite start_region_log.
        cbn [app log set_dest after_header cursor].
        constructor; [exact Logic.I|]. constructor; [exact Logic.I|].
        unfold header_log. apply Forall_app. split.
        -- now apply Forall_repeat_ReadByte.
        -- now repeat constructor.
Qed.

(** ** bmpDimensions on a file that ends early *)


(** * The colour conversion, from the bytes of the file to the pixel *)

Lemma image_rows_formula (data : list byte) (flip : bool)
    (offset bmpHeight rowSize loadWidth row : Z) (n : nat) :
  image_rows data flip offset bmpHeight rowSize loadWidth row n
  = formula_rows data flip offset bmpHeight rowSize loadWidth row n.
Proof.
  unfold image_rows, formula_rows.
  apply flat_map_ext. intros r. apply map_ext. intros c.
  unfold pixel_at, formula_pixel. apply color565_any.
Qed.

(** C7: the value stored for source bytes B, G, R is
    ((R & 0xF8) << 8) | ((G & 0xFC) << 3) | ((B & 0xF8) >> 3): pure blue
    gives 0x001F, pure green 0x07E0, pure red 0xF800.  In every decode
    each store to the destination comes right after the reads of three
    cells of the transfer buffer that follow one another, which hold
    bytes B, G, R in this order, and stores that value; a display is
    handed exactly the stored values, in order.  A decode stores one
    pixel for each pixel of the region it loads: loadWidth * loadHeight
    to a display, width * height (when below 2^32) to memory.  And for
    a file that holds the whole image the pixels stored are, row by
    row, the formula's values for the bytes B, G, R that the file holds
    at offset + sourceRow * rowSize + 3 * column (for rows stored
    top-down, when the transfer buffer is reloaded at the start of each
    row).  All of this whatever the stack holds. *)
Theorem C7_color_conversion
    (SD : string -> option (list byte)) (can_alloc : Z -> Z -> bool)
    (filename : string) (tft : option Adafruit_SPITFT)
    (dest_arg : option (list Z)) (x y : Z)
    (canvas1 : outptr (option GFXcanvas16))
    (canvas2 palette : outptr (option unit)) (fmt : outptr CanvasFormat)
    (display : Adafruit_SPITFT) (c0 : option GFXcanvas16)
    (data : list byte) :
  let tr := trace (coreBMP stack SD can_alloc filename tft dest_arg x y
                           canvas1 canvas2 palette fmt) in
  let draw := trace (drawBMP stack SD filename display x y) in
  let load :=
    loadBMP stack SD can_alloc filename (Some c0) canvas2 palette fmt in
  let offset := le32_at data 10 in
  let w := s32 (le32_at data 18) in
  let h := Z.abs (s32 (le32_at data 22)) in
  let flip := 0 <=? s32 (le32_at data 22) in
  let lw := Z.min (w + Z.min x 0) (tft_width display - Z.max x 0) in
  let lh := Z.min (h + Z.min y 0) (tft_height display - Z.max y 0) in
  (forall b g r : byte,
      color565 (byte_val b) (byte_val g) (byte_val r)
      = formula_565 (byte_val b) (byte_val g) (byte_val r))
  /\ color565 0xFF 0x00 0x00 = 0x001F
  /\ color565 0x00 0xFF 0x00 = 0x07E0
  /\ color565 0x00 0x00 0xFF = 0xF800
  /\ (forall t1 j v t2,
         tr = t1 ++ EvDest j v :: t2 ->
         exists t0 i b g r,
           t1 = t0 ++ [EvSdbuf i b; EvSdbuf (i + 1) g; EvSdbuf (i + 2) r]
           /\ is_byte b /\ is_byte g /\ is_byte r
           /\ v = formula_565 b g r)
  /\ written draw = stored draw
  /\ (SD filename = Some data ->
      accepted data = true ->
      offscreen (Some display) x y = false ->
      - 2 ^ 15 <= x < 2 ^ 15 -> - 2 ^ 15 <= y < 2 ^ 15 ->
      0 <= tft_width display < 2 ^ 15 -> 0 <= tft_height display < 2 ^ 15 ->
      0 < w < 2 ^ 29 -> 0 < h < 2 ^ 30 ->
      0 < lw -> 0 < lh ->
      Z.of_nat (length (stored draw)) = lw * lh
      /\ (offset + h * rowSize_of w <= Z.of_nat (length data) ->
          Z.of_nat (length data) < 2 ^ 32 ->
          flip = true \/ lw mod DRAWPIXELS = 0
          \/ rowSize_of w
             <> sizeof_sdbuf * ((lw + DRAWPIXELS - 1) / DRAWPIXELS) ->
          stored draw
          = formula_rows data flip offset h (rowSize_of w) lw
                         0 (Z.to_nat lh)))
  /\ (SD filename = Some data ->
      accepted data = true ->
      0 < w < 2 ^ 29 -> 0 < h < 2 ^ 30 -> w * h < 2 ^ 32 ->
      can_alloc w h = true ->
      Z.of_nat (length (stored (trace load))) = w * h
      /\ (offset + h * rowSize_of w <= Z.of_nat (length data) ->
          Z.of_nat (length data) < 2 ^ 32 ->
          0 < s32 (le32_at data 22) \/ w mod DRAWPIXELS <> DRAWPIXELS - 1 ->
          stored (trace load)
          = formula_rows data flip offset h (rowSize_of w) w 0 (Z.to_nat h)
          /\ canvas1_out load
             = Some (Some (mkCanvas w h
                             (formula_rows data flip offset h (rowSize_of w)
                                           w 0 (Z.to_nat h)))))).
Proof.
  intros tr draw load offset w h flip lw lh.
  assert (P29 : 2 ^ 29 = 536870912) by reflexivity.
  assert (P30 : 2 ^ 30 = 1073741824) by reflexivity.
  assert (P31 : 2 ^ 31 = 2147483648) by reflexivity.
  assert (P32 : 2 ^ 32 = 4294967296) by reflexivity.
  assert (Hws : written draw = stored draw)
    by apply drawBMP_written_stored.
  split; [intros b g r; apply color565_any|].
  split; [reflexivity|]. split; [reflexivity|]. split; [reflexivity|].
  split; [|split; [exact Hws|split]].
  - assert (H : exists l, tr = rev l /\ converted l).
    { subst tr.
      destruct (coreBMP_trace_cases SD can_alloc filename tft dest_arg x y
                  canvas1 canvas2 palette fmt) as [-> | [-> | (d & _ & H)]].
      - now exists [].
      - now exists [EvOpen false].
      - exact (conv_run _ dest_arg d _ H). }
    destruct H as (l & -> & Hl). intros t1 j v t2 H.
    apply rev_split in H. subst l.
    apply converted_app in Hl.
    destruct Hl as (i & b & g & r & l2' & H2 & Hb & Hg & Hr & Hv).
    exists (rev l2'), i, b, g, r.
    split; [|auto].
    rewrite <- (rev_involutive t1), H2. cbn [rev].
    rewrite <- !app_assoc. reflexivity.
  - intros HSD Hacc Hoff Hx Hy Htw Hth Hw Hh Hlw Hlh.
    assert (Hc : crop display x y w h = (Z.max x 0, Z.max y 0, lw, lh))
      by (apply crop_formula; unfold w, h; lia).
    split.
    + rewrite <- Hws.
      destruct (drawBMP_region SD filename display x y data lw lh HSD Hacc
                  Hoff) as (_ & Hn & _); [lia | exact Hc |].
      destruct (Hn Hlw Hlh) as [_ Hlen]. exact Hlen.
    + intros Hfile Hlen Hre. rewrite <- Hws, <- image_rows_formula.
      apply (drawBMP_whole_image SD filename display x y data); assumption.
  - intros HSD Hacc Hw Hh Hsize Hcan.
    assert (Hn : normalize_height (s32 (le32_at data 22)) = (h, flip))
      by (apply normalize_height_abs; lia).
    assert (Hrun := loadBMP_accepted_run SD can_alloc filename (Some c0)
                      canvas2 palette fmt data h flip HSD Hacc Hn Hcan
                      ltac:(lia) ltac:(lia)).
    cbn zeta in Hrun. fold w in Hrun. fold load in Hrun.
    destruct (memory_run data flip (le32_at data 10) h (rowSize_of w) w
                ltac:(lia) ltac:(lia) Hsize) as (L & _ & _ & B).
    cbn zeta in L, B.
    assert (Hst : stored (trace load)
                  = dest (scanlines false data flip (le32_at data 10) h
                            (rowSize_of w) w (Z.to_nat h) 0
                            (start_region false 0 0 w h
                               (set_dest (repeat 0 (Z.to_nat (w * h)))
                                         (after_header stack data))))).
    { rewrite Hrun. cbn [trace]. rewrite stored_rev_cons, B.
      cbn [stored flat_map]. now rewrite app_nil_r. }
    split.
    + rewrite Hst. exact L.
    + intros Hfile Hlen Hre.
      pose proof (loadBMP_whole_image SD can_alloc filename c0 canvas2 palette
                    fmt data HSD Hacc Hw Hh Hcan Hfile Hlen Hre) as Hwhole.
      cbn zeta in Hwhole. fold w h flip offset load in Hwhole.
      rewrite <- image_rows_formula.
      split; [|exact Hwhole].
      rewrite Hst. rewrite Hrun in Hwhole. cbn [canvas1_out poke] in Hwhole.
      now injection Hwhole.
Qed.

(** * Drawing and loading convert the same bytes *)

Lemma synced_same (data : list byte) (p : Z) (k : nat) (st st' : State) :
  fpos st' = fpos st -> srcidx st' = srcidx st -> sdbuf st' = sdbuf st ->
  synced data p k st -> synced data p k st'.
Proof.
  intros Hf Hs Hb H. unfold synced in *. now rewrite Hf, Hs, Hb.
Qed.

Lemma synced_finish_row (tft : bool) (data : list byte) (p : Z) (k : nat)
    (st : State) :
  synced data p k st -> synced data p k (finish_row tft st).
Proof.
  intros H. unfold finish_row. destruct tft; [|exact H].
  destruct (destidx st =? 0); exact H.
Qed.

Lemma srcidx_finish_row (tft : bool) (st : State) :
  srcidx (finish_row tft st) = srcidx st.
Proof.
  unfold finish_row. destruct tft; [|reflexivity].
  destruct (destidx st =? 0); reflexivity.
Qed.

(** Taking [k] pixels of the row that starts at [p] is standing at the
    start of the row that starts [3 * k] bytes later. *)
Lemma synced_shift (data : list byte) (p : Z) (k : nat) (st : State) :
  synced data p k st -> synced data (p + 3 * Z.of_nat k) 0 st.
Proof.
  intros H. unfold synced in *.
  replace (p + 3 * Z.of_nat k + 3 * Z.of_nat 0) with (p + 3 * Z.of_nat k)
    by (cbn [Z.of_nat]; lia).
  replace (p + 3 * Z.of_nat 0) with p in H by (cbn [Z.of_nat]; lia).
  exact H.
Qed.

Section SameBytes.

Variables (data : list byte) (flip : bool).
Variables (offset bmpHeight rowSize loadWidth : Z).

Hypothesis width_pos : 0 < loadWidth.
Hypothesis row_fits : 3 * loadWidth <= rowSize.
Hypothesis offset_pos : 0 <= offset.
Hypothesis image_in_file :
  offset + bmpHeight * rowSize <= Z.of_nat (length data).
Hypothesis file_small : Z.of_nat (length data) < 2 ^ 32.

Lemma bmpPos_in_file (row : Z) :
  0 <= row < bmpHeight ->
  bmpPos_of flip offset bmpHeight rowSize row
  = offset + source_row flip bmpHeight row * rowSize
  /\ 0 <= source_row flip bmpHeight row < bmpHeight.
Proof.
  intros Hr. rewrite bmpPos_of_source_row.
  assert (Hs : 0 <= source_row flip bmpHeight row < bmpHeight)
    by (unfold source_row; destruct flip; lia).
  split; [|exact Hs].
  apply u32_small. nia.
Qed.

(** A scanline that goes on in the transfer buffer, without a seek and
    without a reload, converts the bytes that precede its row in the
    file: they are in the file all the same. *)
Lemma scanline_goes_on (tft : bool) (row s : Z) (st : State) :
  0 <= row < bmpHeight ->
  0 <= s -> synced data s 0 st ->
  file_position st = bmpPos_of flip offset bmpHeight rowSize row ->
  srcidx st <> sizeof_sdbuf ->
  let st' := scanline tft data flip offset bmpHeight rowSize loadWidth row st in
  stored (rev (log st'))
  = stored (rev (log st)) ++ map (pixel_at data s) (seq 0 (Z.to_nat loadWidth))
  /\ synced data s (Z.to_nat loadWidth) st'.
Proof.
  intros Hr Hs0 Hsync Hp Hi st'. subst st'. unfold scanline.
  set (bmpPos := bmpPos_of flip offset bmpHeight rowSize row) in *.
  destruct (bmpPos_in_file row Hr) as (Ep & Hrow).
  fold bmpPos in Ep.
  set (st0 := emit EvYield st).
  assert (E0 : seek_to tft bmpPos st0 = st0).
  { unfold seek_to. change (file_position st0) with (file_position st).
    now rewrite (proj2 (Z.eqb_eq _ _) Hp). }
  rewrite E0.
  assert (Hsync0 : synced data s 0 st0) by exact Hsync.
  assert (Hin : s + 3 * loadWidth <= Z.of_nat (length data)).
  { destruct Hsync as ((j & Hj & Hj') & Hf & _).
    unfold file_position in Hp. rewrite Hp in Hf.
    unfold sizeof_sdbuf, DRAWPIXELS in *. cbn [Z.of_nat] in Hf. nia. }
  destruct (synced_pixels tft data s (Z.to_nat loadWidth) Hs0 0 st0)
    as [Hs2 He2]; [cbn [Nat.add]; lia | exact Hsync0 |].
  cbn [Nat.add] in Hs2. split.
  - rewrite stored_rev_finish_row, He2. unfold st0. cbn [log emit].
    rewrite stored_rev_cons. cbn [stored flat_map]. now rewrite app_nil_r.
  - now apply synced_finish_row.
Qed.

Lemma alike_scanline (row : Z) (st1 st2 : State) :
  0 <= row < bmpHeight ->
  alike data st1 st2 ->
  alike data
    (scanline true data flip offset bmpHeight rowSize loadWidth row st1)
    (scanline false data flip offset bmpHeight rowSize loadWidth row st2).
Proof.
  intros Hr (E & Ei & Hi & s & Hs0 & S1 & S2).
  set (bmpPos := bmpPos_of flip offset bmpHeight rowSize row).
  destruct (bmpPos_in_file row Hr) as (Ep & Hrow).
  fold bmpPos in Ep.
  assert (Ef : file_position st1 = file_position st2).
  { destruct S1 as (_ & F1 & _), S2 as (_ & F2 & _).
    unfold file_position. rewrite F1, F2, Ei. reflexivity. }
  assert (Hj : exists j, srcidx st1 = 3 * j /\ 0 < j <= DRAWPIXELS).
  { destruct S1 as ((j & Hj & Hj') & _). exists j. lia. }
  destruct Hj as (j & Hj & Hj').
  destruct (Z.eq_dec (file_position st1) bmpPos) as [Hp | Hp];
    [destruct (Z.eq_dec (srcidx st1) sizeof_sdbuf) as [Hx | Hx]|].
  2: { (* both go on in their buffers *)
    destruct (scanline_goes_on true row s st1 Hr Hs0 S1 Hp Hx) as [A1 B1].
    destruct (scanline_goes_on false row s st2 Hr Hs0 S2
                ltac:(now rewrite <- Ef) ltac:(now rewrite <- Ei))
      as [A2 B2].
    split; [now rewrite A1, A2, E|]. split; [|split].
    - unfold scanline. rewrite !srcidx_finish_row.
      unfold seek_to. change (file_position (emit EvYield st1))
        with (file_position st1).
      change (file_position (emit EvYield st2)) with (file_position st2).
      rewrite <- Ef. fold bmpPos. rewrite (proj2 (Z.eqb_eq _ _) Hp).
      rewrite (srcidx_pixels true data _ (emit EvYield st1) j Hj Hj').
      rewrite (srcidx_pixels false data _ (emit EvYield st2) j
                 ltac:(now rewrite <- Hj, Ei) Hj').
      reflexivity.
    - destruct B1 as ((j1 & Hj1 & Hj1') & _).
      unfold scanline in *. rewrite srcidx_finish_row in *.
      unfold seek_to in *. change (file_position (emit EvYield st1))
        with (file_position st1) in *.
      fold bmpPos in Hj1 |- *. rewrite (proj2 (Z.eqb_eq _ _) Hp) in *.
      rewrite (srcidx_pixels true data _ (emit EvYield st1) j Hj Hj').
      pose proof (Z.mod_pos_bound (j + Z.of_nat (Z.to_nat loadWidth) - 1)
                    DRAWPIXELS ltac:(reflexivity)).
      lia.
    - exists (s + 3 * Z.of_nat (Z.to_nat loadWidth)).
      split; [lia|]. split; now apply synced_shift. }
  all: (* both reload at the start of the row *)
    assert (Hfr1 : file_position st1 <> bmpPos \/ srcidx st1 = sizeof_sdbuf)
      by first [left; exact Hp | right; exact Hx];
    assert (Hfr2 : file_position st2 <> bmpPos \/ srcidx st2 = sizeof_sdbuf)
      by (rewrite <- Ef, <- Ei; exact Hfr1);
    destruct (scanline_reads_source_row true data flip offset bmpHeight
                rowSize loadWidth row st1 width_pos Hfr1) as [A1 B1];
      [fold bmpPos; rewrite Ep; nia|];
    destruct (scanline_reads_source_row false data flip offset bmpHeight
                rowSize loadWidth row st2 width_pos Hfr2) as [A2 B2];
      [fold bmpPos; rewrite Ep; nia|];
    fold bmpPos in A1, A2, B1, B2;
    (split; [now rewrite A1, A2, E|]);
    rewrite (srcidx_scanline true data flip offset bmpHeight rowSize
               loadWidth row st1 width_pos Hfr1);
    rewrite (srcidx_scanline false data flip offset bmpHeight rowSize
               loadWidth row st2 width_pos Hfr2);
    (split; [reflexivity|]);
    (split;
     [pose proof (Z.mod_pos_bound (loadWidth - 1) DRAWPIXELS
                    ltac:(reflexivity)); lia|]);
    exists (bmpPos + 3 * Z.of_nat (Z.to_nat loadWidth));
    (split; [rewrite Ep; nia|]);
    split; now apply synced_shift.
Qed.

Lemma alike_scanlines (n : nat) :
  forall row st1 st2,
    0 <= row -> row + Z.of_nat n <= bmpHeight ->
    alike data st1 st2 ->
    alike data
      (scanlines true data flip offset bmpHeight rowSize loadWidth n row st1)
      (scanlines false data flip offset bmpHeight rowSize loadWidth n row st2).
Proof.
  induction n as [|n IH]; intros row st1 st2 Hr Hn H; [exact H|].
  cbn [scanlines]. apply IH; [lia | lia |].
  apply alike_scanline; [lia | exact H].
Qed.

End SameBytes.

End Stack.

(** * Several calls, each with a stack of its own *)

(** ** The life of a reader *)

Lemma call_leaves_file_closed (SD : string -> option (list byte)) (c : call) :
  file_after SD false c = false.
Proof.
  unfold file_after. destruct c as [s f t x y | s ca f c1 c2 p fm | f w h];
    cbn [call_trace].
  - apply coreBMP_leaves_file_closed.
  - apply coreBMP_leaves_file_closed.
  - rewrite bmpDimensions_cases. destruct (SD f) as [data|]; [|reflexivity].
    destruct (starts_with_BM data); cbn [dim_trace];
      match goal with
      | |- fold_left _ (?e :: ?l ++ [EvClose]) _ = _ =>
          change (e :: l ++ [EvClose]) with ((e :: l) ++ [EvClose])
      end; apply fold_stream_closed.
Qed.

Lemma calls_leave_file_closed (SD : string -> option (list byte))
    (cs : list call) :
  fold_left (file_after SD) cs false = false
  /\ stream_open (flat_map (call_trace SD) cs) = false.
Proof.
  unfold stream_open.
  induction cs as [|c cs [IH1 IH2]]; [now split|].
  cbn [fold_left flat_map]. rewrite fold_left_app.
  fold (file_after SD false c). rewrite call_leaves_file_closed. now split.
Qed.

(** X18: between its calls and at the end of its life a reader holds
    no open file.  After any sequence of calls of drawBMP, loadBMP and
    bmpDimensions the [file] member is closed, so the destructor makes
    no call: the calls of the whole life are those of the calls
    made. *)
Theorem X18_destructor_finds_file_closed
    (SD : string -> option (list byte)) (cs : list call) :
  fold_left (file_after SD) cs constructor = false
  /\ lifetime SD cs = flat_map (call_trace SD) cs
  /\ stream_open (lifetime SD cs) = false.
Proof.
  destruct (calls_leave_file_closed SD cs) as [H1 H2].
  unfold lifetime, constructor. rewrite H1. cbn [destructor].
  rewrite app_nil_r. now repeat split.
Qed.


(** ** Drawing and loading the same file *)

(** The scanline loop starts with the transfer buffer marked as used
    up: whatever the stack left in it, it is in step with the file. *)
Lemma synced_start (stack : nat -> byte) (tft : bool) (data : list byte)
    (d : list Z) (x y w h : Z) :
  let st := start_region tft x y w h (set_dest d (after_header stack data)) in
  srcidx st = sizeof_sdbuf
  /\ synced data (Z.min (header_reads data) (Z.of_nat (length data))) 0 st.
Proof.
  intros st.
  assert (Hs : srcidx st = sizeof_sdbuf)
    by (unfold st, start_region; destruct tft; reflexivity).
  assert (Hf : fpos st = Z.min (header_reads data) (Z.of_nat (length data)))
    by (unfold st, start_region; destruct tft; reflexivity).
  split; [exact Hs|]. unfold synced. rewrite Hs, Hf. split; [|split].
  - exists DRAWPIXELS. unfold sizeof_sdbuf, DRAWPIXELS. lia.
  - cbn [Z.of_nat]. lia.
  - intros i Hi. lia.
Qed.

(** X17: drawing an image that lies on the display whole sends the
    display exactly the pixels, in the same order, that loading the
    same file puts into the canvas.  This holds for every file that
    holds the whole image, also for the rows stored top-down that are
    not decoded from their own bytes, and whatever the stack holds at
    the two calls. *)
Theorem X17_draw_sends_what_load_stores
    (stack stack' : nat -> byte)
    (SD : string -> option (list byte)) (can_alloc : Z -> Z -> bool)
    (filename : string) (t : Adafruit_SPITFT) (x y : Z)
    (c0 : option GFXcanvas16) (canvas2 palette : outptr (option unit))
    (fmt : outptr CanvasFormat) (data : list byte) :
  SD filename = Some data ->
  accepted data = true ->
  0 <= tft_width t < 2 ^ 15 -> 0 <= tft_height t < 2 ^ 15 ->
  0 < s32 (le32_at data 18) -> 0 < Z.abs (s32 (le32_at data 22)) ->
  0 <= x -> x + s32 (le32_at data 18) <= tft_width t ->
  0 <= y -> y + Z.abs (s32 (le32_at data 22)) <= tft_height t ->
  can_alloc (s32 (le32_at data 18)) (Z.abs (s32 (le32_at data 22))) = true ->
  le32_at data 10
  + Z.abs (s32 (le32_at data 22)) * rowSize_of (s32 (le32_at data 18))
  <= Z.of_nat (length data) ->
  Z.of_nat (length data) < 2 ^ 32 ->
  exists buf,
    canvas1_out (loadBMP stack' SD can_alloc filename (Some c0) canvas2
                         palette fmt)
    = Some (Some (mkCanvas (s32 (le32_at data 18))
                           (Z.abs (s32 (le32_at data 22))) buf))
    /\ written (trace (drawBMP stack SD filename t x y)) = buf.
Proof.
  intros HSD Hacc Htw Hth Hw Hh Hx Hxw Hy Hyh Hcan Hfile Hlen.
  assert (P15 : 2 ^ 15 = 32768) by reflexivity.
  assert (P29 : 2 ^ 29 = 536870912) by reflexivity.
  assert (P30 : 2 ^ 30 = 1073741824) by reflexivity.
  assert (P31 : 2 ^ 31 = 2147483648) by reflexivity.
  assert (P32 : 2 ^ 32 = 4294967296) by reflexivity.
  set (w := s32 (le32_at data 18)) in *.
  set (h := Z.abs (s32 (le32_at data 22))) in *.
  set (flip := 0 <=? s32 (le32_at data 22)).
  assert (Hn : normalize_height (s32 (le32_at data 22)) = (h, flip)).
  { apply normalize_height_abs.
    pose proof (s32_range (le32_at data 22)). unfold h in *. lia. }
  assert (Hc : crop t x y w h = (x, y, w, h)).
  { rewrite crop_formula by lia. f_equal; [f_equal; [f_equal|]|]; lia. }
  assert (Hoff : offscreen (Some t) x y = false).
  { cbn [offscreen]. apply orb_false_intro; rewrite Z.geb_leb;
      apply Z.leb_gt; lia. }
  pose proof (rowSize_of_bounds w ltac:(lia)) as Hrs.
  pose proof (le32_at_range data 10) as Hoffs.
  rewrite (loadBMP_accepted_run stack' SD can_alloc filename (Some c0) canvas2
             palette fmt data h flip HSD Hacc Hn Hcan Hw Hh).
  fold w. cbn [canvas1_out poke].
  eexists. split; [reflexivity|].
  destruct (memory_run stack' data flip (le32_at data 10) h (rowSize_of w) w
              Hw Hh ltac:(nia)) as (_ & E0 & _ & B).
  rewrite <- B.
  rewrite drawBMP_written_stored.
  rewrite (drawBMP_accepted stack SD filename t x y data HSD Hacc Hoff
             _ _ _ _ _ _ Hn Hc).
  cbn [trace]. fold w.
  rewrite (proj2 (Z.gtb_lt w 0) Hw), (proj2 (Z.gtb_lt h 0) Hh).
  cbn [andb]. rewrite stored_rev_cons. cbn [stored flat_map].
  rewrite app_nil_r.
  apply (alike_scanlines data flip (le32_at data 10) h (rowSize_of w) w
           Hw ltac:(lia) ltac:(lia) Hfile Hlen (Z.to_nat h) 0);
    [lia | lia |].
  destruct (synced_start stack true data (tftbuf stack) x y w h) as [I1 S1].
  destruct (synced_start stack' false data (repeat 0 (Z.to_nat (w * h)))
              0 0 w h) as [I2 S2].
  split; [|split; [|split]].
  - rewrite E0. apply stored_nil_of_length.
    rewrite length_stored_rev. apply stores_after_header.
  - now rewrite I1, I2.
  - rewrite I1. reflexivity.
  - exists (Z.min (header_reads data) (Z.of_nat (length data))).
    split; [|split; assumption].
    rewrite (header_reads_accepted data Hacc). lia.
Qed.

(** * The theorems on the files of the examples *)

(** The premises that were established one by one; a premise that
    evaluates. *)
Ltac given := repeat (split; [assumption|]); assumption.

Ltac holds :=
  vm_compute;
  first [ reflexivity
        | discriminate
        | split; [first [reflexivity | discriminate]
                 | first [reflexivity | discriminate]] ].



Lemma C6_witness :
  0 < 8
  /\ let bmpPos := bmpPos_of true 54 1 24 0 in
     let st' := scanline true strip true 54 1 24 8 0 (after_header leftover strip) in
     bmpPos = u32 (54 + source_row true 1 0 * 24)
     /\ exists evs,
          log st' = rev evs ++ log (after_header leftover strip)
          /\ (file_position (after_header leftover strip) = bmpPos -> seeks evs = 0%nat)
          /\ (file_position (after_header leftover strip) <> bmpPos ->
              seeks evs = 1%nat
              /\ exists rest,
                  evs = EvYield :: [EvEndWrite]
                        ++ EvSeek bmpPos :: [EvEndWrite]
                        ++ EvRead bmpPos sizeof_sdbuf :: rest).
Proof.
  split; [reflexivity|].
  exact (C6_seek_only_when_needed true strip true 54 1 24 8 0
           (after_header leftover strip) eq_refl).
Defined.

Lemma X1_witness :
  fpos (file_seek 1 (opened [])) = Z.of_nat (length [x00])
  /\ fst (readLE16 ([x00] ++ le16 0x4D42 ++ []) (file_seek 1 (opened [])))
     = u16 0x4D42
  /\ fpos (snd (readLE16 ([x00] ++ le16 0x4D42 ++ []) (file_seek 1 (opened []))))
     = fpos (file_seek 1 (opened [])) + 2
  /\ fst (readLE32 ([x00] ++ le32 0x4D42 ++ []) (file_seek 1 (opened [])))
     = u32 0x4D42
  /\ s32 (fst (readLE32 ([x00] ++ le32 0x4D42 ++ []) (file_seek 1 (opened []))))
     = s32 0x4D42
  /\ fpos (snd (readLE32 ([x00] ++ le32 0x4D42 ++ []) (file_seek 1 (opened []))))
     = fpos (file_seek 1 (opened [])) + 4.
Proof.
  split; [reflexivity|].
  exact (X1_readLE_round_trip [x00] [] 0x4D42 (file_seek 1 (opened [])) eq_refl).
Defined.

Lemma X8_witness :
  fmt_out (loadBMP leftover top_down_card (fun _ _ => true) "td.bmp"%string
                   (Some None) (Some None) (Some None) (Some CANVAS_NONE))
  = Some CANVAS_16
  /\ exists c,
       canvas1_out (loadBMP leftover top_down_card (fun _ _ => true) "td.bmp"%string
                            (Some None) (Some None) (Some None)
                            (Some CANVAS_NONE))
       = Some (Some c)
       /\ status (loadBMP leftover top_down_card (fun _ _ => true) "td.bmp"%string
                          (Some None) (Some None) (Some None)
                          (Some CANVAS_NONE))
          = IMAGE_SUCCESS
       /\ 0 < canvas_width c /\ 0 < canvas_height c
       /\ Z.of_nat (length (getBuffer c)) = canvas_width c * canvas_height c
       /\ dim_status (bmpDimensions top_down_card "td.bmp"%string
                                    (Some 0) (Some 0))
          = IMAGE_SUCCESS
       /\ width_out (bmpDimensions top_down_card "td.bmp"%string
                                   (Some 0) (Some 0))
          = Some (canvas_width c)
       /\ height_out (bmpDimensions top_down_card "td.bmp"%string
                                    (Some 0) (Some 0))
          = Some (canvas_height c).
Proof.
  assert (H : fmt_out (loadBMP leftover top_down_card (fun _ _ => true)
                               "td.bmp"%string (Some None) (Some None)
                               (Some None) (Some CANVAS_NONE))
              = Some CANVAS_16) by (vm_compute; reflexivity).
  split; [exact H|].
  exact (X8_canvas_matches_dimensions leftover top_down_card (fun _ _ => true)
           "td.bmp"%string None (Some None) (Some None) CANVAS_NONE 0 0 H).
Defined.

Lemma X10_witness :
  (top_down_card "td.bmp"%string = Some top_down_2x2
   /\ accepted top_down_2x2 = true
   /\ normalize_height (s32 (le32_at top_down_2x2 22)) = (2, false)
   /\ crop tft_320x240 0 0 (s32 (le32_at top_down_2x2 18)) 2 = (0, 0, 2, 2))
  /\ (offscreen (Some tft_320x240) 0 0 = false -> 0 < 2 ->
      yields (trace (drawBMP leftover top_down_card "td.bmp"%string tft_320x240 0 0))
      = Z.to_nat 2
      /\ (seeks (trace (drawBMP leftover top_down_card "td.bmp"%string tft_320x240 0 0))
          <= yields (trace (drawBMP leftover top_down_card "td.bmp"%string
                                    tft_320x240 0 0)))%nat)
  /\ ((fun _ _ => true) (s32 (le32_at top_down_2x2 18)) 2 = true ->
      0 < s32 (le32_at top_down_2x2 18) ->
      yields (trace (loadBMP leftover top_down_card (fun _ _ => true) "td.bmp"%string
                             (Some None) (Some None) (Some None)
                             (Some CANVAS_NONE)))
      = Z.to_nat 2
      /\ (seeks (trace (loadBMP leftover top_down_card (fun _ _ => true)
                                "td.bmp"%string (Some None) (Some None)
                                (Some None) (Some CANVAS_NONE)))
          <= yields (trace (loadBMP leftover top_down_card (fun _ _ => true)
                                    "td.bmp"%string (Some None) (Some None)
                                    (Some None) (Some CANVAS_NONE))))%nat).
Proof.
  assert (H1 : top_down_card "td.bmp"%string = Some top_down_2x2)
    by reflexivity.
  assert (H2 : accepted top_down_2x2 = true) by holds.
  assert (H3 : normalize_height (s32 (le32_at top_down_2x2 22)) = (2, false))
    by holds.
  assert (H4 : crop tft_320x240 0 0 (s32 (le32_at top_down_2x2 18)) 2
               = (0, 0, 2, 2)) by holds.
  split; [given|].
  exact (X10_yield_once_per_scanline leftover top_down_card (fun _ _ => true)
           "td.bmp"%string tft_320x240 0 0 (Some None) (Some None) (Some None)
           (Some CANVAS_NONE) top_down_2x2 2 false 0 0 2 2 H1 H2 H3 H4).
Defined.

Lemma X11_witness :
  (strip_card "strip.bmp"%string = Some strip
   /\ - 2 ^ 15 <= -5 < 2 ^ 15 /\ - 2 ^ 15 <= 0 < 2 ^ 15
   /\ 0 <= tft_width tft_320x240 < 2 ^ 15
   /\ 0 <= tft_height tft_320x240 < 2 ^ 15
   /\ 0 <= s32 (le32_at strip 18) < 2 ^ 30
   /\ Z.abs (s32 (le32_at strip 22)) < 2 ^ 30)
  /\ (windows (trace (drawBMP leftover strip_card "strip.bmp"%string tft_320x240
                              (-5) 0)) <= 1)%nat
  /\ forall wx wy ww wh,
       In (EvSetAddrWindow wx wy ww wh)
          (trace (drawBMP leftover strip_card "strip.bmp"%string tft_320x240 (-5) 0)) ->
       0 <= wx /\ 0 <= wy /\ 0 < ww /\ 0 < wh
       /\ wx + ww <= tft_width tft_320x240
       /\ wy + wh <= tft_height tft_320x240.
Proof.
  assert (H1 : strip_card "strip.bmp"%string = Some strip) by reflexivity.
  assert (H2 : - 2 ^ 15 <= -5 < 2 ^ 15) by holds.
  assert (H3 : - 2 ^ 15 <= 0 < 2 ^ 15) by holds.
  assert (H4 : 0 <= tft_width tft_320x240 < 2 ^ 15) by holds.
  assert (H5 : 0 <= tft_height tft_320x240 < 2 ^ 15) by holds.
  assert (H6 : 0 <= s32 (le32_at strip 18) < 2 ^ 30) by holds.
  assert (H7 : Z.abs (s32 (le32_at strip 22)) < 2 ^ 30) by holds.
  split; [given|].
  exact (X11_window_on_display leftover strip_card "strip.bmp"%string tft_320x240
           (-5) 0 strip H1 H2 H3 H4 H5 H6 H7).
Defined.

Lemma X12_witness :
  (top_down_card "td.bmp"%string = Some top_down_2x2
   /\ accepted top_down_2x2 = true
   /\ normalize_height (s32 (le32_at top_down_2x2 22)) = (2, false)
   /\ 0 < s32 (le32_at top_down_2x2 18) /\ 0 < 2
   /\ s32 (le32_at top_down_2x2 18) * 2 < 2 ^ 32)
  /\ exists buf,
       canvas1_out (loadBMP leftover top_down_card (fun _ _ => true) "td.bmp"%string
                            (Some None) (Some None) (Some None)
                            (Some CANVAS_NONE))
       = Some (Some (mkCanvas (s32 (le32_at top_down_2x2 18)) 2 buf))
       /\ Z.of_nat (length buf) = s32 (le32_at top_down_2x2 18) * 2
       /\ stores_at (trace (loadBMP leftover top_down_card (fun _ _ => true)
                                    "td.bmp"%string (Some None) (Some None)
                                    (Some None) (Some CANVAS_NONE)))
          = combine (zseq 0 (length buf)) buf
       /\ stored (trace (loadBMP leftover top_down_card (fun _ _ => true)
                                 "td.bmp"%string (Some None) (Some None)
                                 (Some None) (Some CANVAS_NONE)))
          = buf.
Proof.
  assert (H1 : top_down_card "td.bmp"%string = Some top_down_2x2)
    by reflexivity.
  assert (H2 : accepted top_down_2x2 = true) by holds.
  assert (H3 : normalize_height (s32 (le32_at top_down_2x2 22)) = (2, false))
    by holds.
  assert (H4 : 0 < s32 (le32_at top_down_2x2 18)) by holds.
  assert (H5 : 0 < 2) by holds.
  assert (H6 : s32 (le32_at top_down_2x2 18) * 2 < 2 ^ 32) by holds.
  split; [given|].
  exact (X12_loadBMP_fills_canvas_in_order leftover top_down_card (fun _ _ => true)
           "td.bmp"%string None (Some None) (Some None) (Some CANVAS_NONE)
           top_down_2x2 2 false H1 H2 H3 eq_refl H4 H5 H6).
Defined.

Lemma X13_witness :
  (top_down_card "td.bmp"%string = Some top_down_2x2
   /\ accepted top_down_2x2 = true
   /\ 0 < s32 (le32_at top_down_2x2 18) < 2 ^ 29
   /\ 0 < Z.abs (s32 (le32_at top_down_2x2 22)) < 2 ^ 30
   /\ le32_at top_down_2x2 10
      + Z.abs (s32 (le32_at top_down_2x2 22))
        * rowSize_of (s32 (le32_at top_down_2x2 18))
      <= Z.of_nat (length top_down_2x2)
   /\ Z.of_nat (length top_down_2x2) < 2 ^ 32
   /\ s32 (le32_at top_down_2x2 18) mod DRAWPIXELS <> DRAWPIXELS - 1)
  /\ canvas1_out (loadBMP leftover top_down_card (fun _ _ => true) "td.bmp"%string
                          (Some None) (Some None) (Some None)
                          (Some CANVAS_NONE))
     = Some (Some (mkCanvas 2 2 (image_rows top_down_2x2 false 54 2 8 2 0 2))).
Proof.
  assert (H1 : top_down_card "td.bmp"%string = Some top_down_2x2)
    by reflexivity.
  assert (H2 : accepted top_down_2x2 = true) by holds.
  assert (H3 : 0 < s32 (le32_at top_down_2x2 18) < 2 ^ 29) by holds.
  assert (H4 : 0 < Z.abs (s32 (le32_at top_down_2x2 22)) < 2 ^ 30) by holds.
  assert (H5 : le32_at top_down_2x2 10
               + Z.abs (s32 (le32_at top_down_2x2 22))
                 * rowSize_of (s32 (le32_at top_down_2x2 18))
               <= Z.of_nat (length top_down_2x2)) by holds.
  assert (H6 : Z.of_nat (length top_down_2x2) < 2 ^ 32) by holds.
  assert (H7 : s32 (le32_at top_down_2x2 18) mod DRAWPIXELS <> DRAWPIXELS - 1)
    by holds.
  split; [given|].
  exact (X13_loadBMP_pixels leftover top_down_card (fun _ _ => true) "td.bmp"%string
           None (Some None) (Some None) (Some CANVAS_NONE) top_down_2x2
           H1 H2 H3 H4 eq_refl H5 H6 (or_intror H7)).
Defined.

Lemma X14_witness :
  (top_down_card "td.bmp"%string = Some top_down_2x2
   /\ accepted top_down_2x2 = true
   /\ offscreen (Some tft_320x240) 0 0 = false
   /\ - 2 ^ 15 <= 0 < 2 ^ 15
   /\ 0 <= tft_width tft_320x240 < 2 ^ 15
   /\ 0 <= tft_height tft_320x240 < 2 ^ 15
   /\ 0 < s32 (le32_at top_down_2x2 18) < 2 ^ 29
   /\ 0 < Z.abs (s32 (le32_at top_down_2x2 22)) < 2 ^ 30
   /\ le32_at top_down_2x2 10
      + Z.abs (s32 (le32_at top_down_2x2 22))
        * rowSize_of (s32 (le32_at top_down_2x2 18))
      <= Z.of_nat (length top_down_2x2)
   /\ Z.of_nat (length top_down_2x2) < 2 ^ 32
   /\ rowSize_of 2 <> sizeof_sdbuf * ((2 + DRAWPIXELS - 1) / DRAWPIXELS))
  /\ written (trace (drawBMP leftover top_down_card "td.bmp"%string tft_320x240 0 0))
     = image_rows top_down_2x2 false 54 2 8 2 0 2.
Proof.
  assert (H1 : top_down_card "td.bmp"%string = Some top_down_2x2)
    by reflexivity.
  assert (H2 : accepted top_down_2x2 = true) by holds.
  assert (H3 : offscreen (Some tft_320x240) 0 0 = false) by reflexivity.
  assert (H4 : - 2 ^ 15 <= 0 < 2 ^ 15) by holds.
  assert (H5 : 0 <= tft_width tft_320x240 < 2 ^ 15) by holds.
  assert (H6 : 0 <= tft_height tft_320x240 < 2 ^ 15) by holds.
  assert (H7 : 0 < s32 (le32_at top_down_2x2 18) < 2 ^ 29) by holds.
  assert (H8 : 0 < Z.abs (s32 (le32_at top_down_2x2 22)) < 2 ^ 30) by holds.
  assert (H9 : le32_at top_down_2x2 10
               + Z.abs (s32 (le32_at top_down_2x2 22))
                 * rowSize_of (s32 (le32_at top_down_2x2 18))
               <= Z.of_nat (length top_down_2x2)) by holds.
  assert (H10 : Z.of_nat (length top_down_2x2) < 2 ^ 32) by holds.
  assert (H11 : rowSize_of 2
                <> sizeof_sdbuf * ((2 + DRAWPIXELS - 1) / DRAWPIXELS))
    by holds.
  split; [given|].
  exact (X14_drawBMP_pixels leftover top_down_card "td.bmp"%string tft_320x240 0 0
           top_down_2x2 H1 H2 H3 H4 H4 H5 H6 H7 H8 H9 H10
           ltac:(holds) ltac:(holds) (or_intror (or_intror H11))).
Defined.

Lemma X15_witness :
  (is_byte 255 /\ is_byte 128 /\ is_byte 7)
  /\ 0 <= color565 255 128 7 < 2 ^ 16
  /\ Z.shiftr (color565 255 128 7) 11 = Z.shiftr 7 3
  /\ Z.land (Z.shiftr (color565 255 128 7) 5) 0x3F = Z.shiftr 128 2
  /\ Z.land (color565 255 128 7) 0x1F = Z.shiftr 255 3.
Proof.
  assert (H1 : is_byte 255) by holds.
  assert (H2 : is_byte 128) by holds.
  assert (H3 : is_byte 7) by holds.
  split; [given|].
  exact (X15_color565_channels 255 128 7 H1 H2 H3).
Defined.

Lemma X16_witness :
  0 <= 199 < 2 ^ 29
  /\ rowSize_of 199 mod 4 = 0
  /\ 3 * 199 <= rowSize_of 199 < 3 * 199 + 4
  /\ (rowSize_of 199 = 3 * 199 <-> 199 mod 4 = 0).
Proof.
  assert (H : 0 <= 199 < 2 ^ 29) by holds.
  split; [exact H|].
  exact (X16_rowSize_padded 199 H).
Defined.

Lemma X19_witness :
  (strip_card "strip.bmp"%string = Some strip
   /\ accepted strip = true
   /\ offscreen (Some tft_320x240) 0 0 = false
   /\ - 2 ^ 15 <= 0 < 2 ^ 15
   /\ 0 <= tft_width tft_320x240 < 2 ^ 15
   /\ 0 <= tft_height tft_320x240 < 2 ^ 15
   /\ 0 < s32 (le32_at strip 18) < 2 ^ 29
   /\ 0 < Z.abs (s32 (le32_at strip 22)) < 2 ^ 30
   /\ le32_at strip 10
      + Z.abs (s32 (le32_at strip 22)) * rowSize_of (s32 (le32_at strip 18))
      <= Z.of_nat (length strip)
   /\ Z.of_nat (length strip) < 2 ^ 32)
  /\ Z.of_nat (reads (trace (drawBMP leftover strip_card "strip.bmp"%string
                                     tft_320x240 0 0)))
     = 1 * ((8 + DRAWPIXELS - 1) / DRAWPIXELS)
  /\ (true = true -> 34 < le32_at strip 10 ->
      Z.of_nat (seeks (trace (drawBMP leftover strip_card "strip.bmp"%string
                                      tft_320x240 0 0))) = 1).
Proof.
  assert (H1 : strip_card "strip.bmp"%string = Some strip) by reflexivity.
  assert (H2 : accepted strip = true) by holds.
  assert (H3 : offscreen (Some tft_320x240) 0 0 = false) by reflexivity.
  assert (H4 : - 2 ^ 15 <= 0 < 2 ^ 15) by holds.
  assert (H5 : 0 <= tft_width tft_320x240 < 2 ^ 15) by holds.
  assert (H6 : 0 <= tft_height tft_320x240 < 2 ^ 15) by holds.
  assert (H7 : 0 < s32 (le32_at strip 18) < 2 ^ 29) by holds.
  assert (H8 : 0 < Z.abs (s32 (le32_at strip 22)) < 2 ^ 30) by holds.
  assert (H9 : le32_at strip 10
               + Z.abs (s32 (le32_at strip 22))
                 * rowSize_of (s32 (le32_at strip 18))
               <= Z.of_nat (length strip)) by holds.
  assert (H10 : Z.of_nat (length strip) < 2 ^ 32) by holds.
  split; [given|].
  exact (X19_drawBMP_reads_and_seeks leftover strip_card "strip.bmp"%string
           tft_320x240 0 0 strip H1 H2 H3 H4 H4 H5 H6 H7 H8 H9 H10
           ltac:(holds) ltac:(holds) (or_introl eq_refl)).
Defined.

Lemma X20_witness :
  (strip_card "strip.bmp"%string = Some strip
   /\ accepted strip = true
   /\ offscreen (Some tft_320x240) 0 0 = false
   /\ - 2 ^ 15 <= 0 < 2 ^ 15
   /\ 0 <= tft_width tft_320x240 < 2 ^ 15
   /\ 0 <= tft_height tft_320x240 < 2 ^ 15
   /\ 0 < s32 (le32_at strip 18) < 2 ^ 29
   /\ 0 < Z.abs (s32 (le32_at strip 22)) < 2 ^ 30
   /\ le32_at strip 10
      + Z.abs (s32 (le32_at strip 22)) * rowSize_of (s32 (le32_at strip 18))
      <= Z.of_nat (length strip)
   /\ Z.of_nat (length strip) < 2 ^ 32)
  /\ forall t1 px t2,
       trace (drawBMP leftover strip_card "strip.bmp"%string tft_320x240 0 0)
       = t1 ++ EvWritePixels px :: t2 ->
       in_transaction t1 = true.
Proof.
  assert (H1 : strip_card "strip.bmp"%string = Some strip) by reflexivity.
  assert (H2 : accepted strip = true) by holds.
  assert (H3 : offscreen (Some tft_320x240) 0 0 = false) by reflexivity.
  assert (H4 : - 2 ^ 15 <= 0 < 2 ^ 15) by holds.
  assert (H5 : 0 <= tft_width tft_320x240 < 2 ^ 15) by holds.
  assert (H6 : 0 <= tft_height tft_320x240 < 2 ^ 15) by holds.
  assert (H7 : 0 < s32 (le32_at strip 18) < 2 ^ 29) by holds.
  assert (H8 : 0 < Z.abs (s32 (le32_at strip 22)) < 2 ^ 30) by holds.
  assert (H9 : le32_at strip 10
               + Z.abs (s32 (le32_at strip 22))
                 * rowSize_of (s32 (le32_at strip 18))
               <= Z.of_nat (length strip)) by holds.
  assert (H10 : Z.of_nat (length strip) < 2 ^ 32) by holds.
  split; [given|].
  exact (X20_drawBMP_writes_inside_transaction leftover strip_card "strip.bmp"%string
           tft_320x240 0 0 strip H1 H2 H3 H4 H4 H5 H6 H7 H8 H9 H10
           ltac:(holds) ltac:(holds) (or_introl eq_refl)).
Defined.

Lemma X21_witness :
  (top_down_card "td.bmp"%string = Some top_down_2x2
   /\ accepted top_down_2x2 = true
   /\ offscreen (Some tft_320x240) 0 0 = false
   /\ - 2 ^ 15 <= 0 < 2 ^ 15
   /\ 0 <= tft_width tft_320x240 < 2 ^ 15
   /\ 0 <= tft_height tft_320x240 < 2 ^ 15
   /\ 0 < s32 (le32_at top_down_2x2 18) < 2 ^ 29
   /\ 0 < Z.abs (s32 (le32_at top_down_2x2 22)) < 2 ^ 30
   /\ le32_at top_down_2x2 10
      + Z.abs (s32 (le32_at top_down_2x2 22))
        * rowSize_of (s32 (le32_at top_down_2x2 18))
      <= Z.of_nat (length top_down_2x2)
   /\ Z.of_nat (length top_down_2x2) < 2 ^ 32
   /\ rowSize_of 2 <> sizeof_sdbuf * ((2 + DRAWPIXELS - 1) / DRAWPIXELS))
  /\ Forall (io_within (le32_at top_down_2x2 10)
                       (le32_at top_down_2x2 10
                        + Z.abs (s32 (le32_at top_down_2x2 22))
                          * rowSize_of (s32 (le32_at top_down_2x2 18))))
            (trace (drawBMP leftover top_down_card "td.bmp"%string tft_320x240 0 0)).
Proof.
  assert (H1 : top_down_card "td.bmp"%string = Some top_down_2x2)
    by reflexivity.
  assert (H2 : accepted top_down_2x2 = true) by holds.
  assert (H3 : offscreen (Some tft_320x240) 0 0 = false) by reflexivity.
  assert (H4 : - 2 ^ 15 <= 0 < 2 ^ 15) by holds.
  assert (H5 : 0 <= tft_width tft_320x240 < 2 ^ 15) by holds.
  assert (H6 : 0 <= tft_height tft_320x240 < 2 ^ 15) by holds.
  assert (H7 : 0 < s32 (le32_at top_down_2x2 18) < 2 ^ 29) by holds.
  assert (H8 : 0 < Z.abs (s32 (le32_at top_down_2x2 22)) < 2 ^ 30) by holds.
  assert (H9 : le32_at top_down_2x2 10
               + Z.abs (s32 (le32_at top_down_2x2 22))
                 * rowSize_of (s32 (le32_at top_down_2x2 18))
               <= Z.of_nat (length top_down_2x2)) by holds.
  assert (H10 : Z.of_nat (length top_down_2x2) < 2 ^ 32) by holds.
  assert (H11 : rowSize_of 2
                <> sizeof_sdbuf * ((2 + DRAWPIXELS - 1) / DRAWPIXELS))
    by holds.
  split; [given|].
  exact (X21_drawBMP_seeks_and_reads_start_in_image leftover top_down_card "td.bmp"%string
           tft_320x240 0 0 top_down_2x2 H1 H2 H3 H4 H4 H5 H6 H7 H8 H9 H10
           ltac:(holds) ltac:(holds) (or_intror (or_intror H11))).
Defined.


Lemma C7_witness :
  stored (trace (drawBMP leftover strip_card "strip.bmp"%string tft_320x240
                         0 0))
  = formula_rows strip (0 <=? s32 (le32_at strip 22)) (le32_at strip 10)
      (Z.abs (s32 (le32_at strip 22))) (rowSize_of (s32 (le32_at strip 18)))
      (Z.min (s32 (le32_at strip 18) + Z.min 0 0)
             (tft_width tft_320x240 - Z.max 0 0))
      0
      (Z.to_nat (Z.min (Z.abs (s32 (le32_at strip 22)) + Z.min 0 0)
                       (tft_height tft_320x240 - Z.max 0 0)))
  /\ stored (trace (loadBMP leftover strip_card (fun _ _ => true)
                            "strip.bmp"%string (Some None) None None None))
     = formula_rows strip (0 <=? s32 (le32_at strip 22)) (le32_at strip 10)
         (Z.abs (s32 (le32_at strip 22)))
         (rowSize_of (s32 (le32_at strip 18))) (s32 (le32_at strip 18))
         0 (Z.to_nat (Z.abs (s32 (le32_at strip 22)))).
Proof.
  destruct (C7_color_conversion leftover strip_card (fun _ _ => true)
              "strip.bmp"%string None None 0 0 None None None None
              tft_320x240 None strip) as (_ & _ & _ & _ & _ & _ & Hd & Hl).
  assert (H1 : strip_card "strip.bmp"%string = Some strip) by reflexivity.
  assert (H2 : accepted strip = true) by holds.
  assert (H3 : 0 < s32 (le32_at strip 18) < 2 ^ 29) by holds.
  assert (H4 : 0 < Z.abs (s32 (le32_at strip 22)) < 2 ^ 30) by holds.
  assert (H5 : le32_at strip 10
               + Z.abs (s32 (le32_at strip 22))
                 * rowSize_of (s32 (le32_at strip 18))
               <= Z.of_nat (length strip)) by holds.
  assert (H6 : Z.of_nat (length strip) < 2 ^ 32) by holds.
  assert (H7 : offscreen (Some tft_320x240) 0 0 = false) by reflexivity.
  assert (H8 : - 2 ^ 15 <= 0 < 2 ^ 15) by holds.
  assert (H9 : 0 <= tft_width tft_320x240 < 2 ^ 15) by holds.
  assert (H10 : 0 <= tft_height tft_320x240 < 2 ^ 15) by holds.
  assert (H11 : 0 < Z.min (s32 (le32_at strip 18) + Z.min 0 0)
                          (tft_width tft_320x240 - Z.max 0 0)) by holds.
  assert (H12 : 0 < Z.min (Z.abs (s32 (le32_at strip 22)) + Z.min 0 0)
                          (tft_height tft_320x240 - Z.max 0 0)) by holds.
  assert (H13 : s32 (le32_at strip 18) * Z.abs (s32 (le32_at strip 22))
                < 2 ^ 32) by holds.
  assert (H14 : (0 <=? s32 (le32_at strip 22)) = true) by holds.
  assert (H15 : 0 < s32 (le32_at strip 22)) by holds.
  split.
  - exact (proj2 (Hd H1 H2 H7 H8 H8 H9 H10 H3 H4 H11 H12) H5 H6
                 (or_introl H14)).
  - exact (proj1 (proj2 (Hl H1 H2 H3 H4 H13 eq_refl) H5 H6 (or_introl H15))).
Defined.

Lemma X2_witness :
  0 <= fpos (opened [])
  /\ (fst (readLE16_direct xaa xbb strip (opened []))
      = fst (readLE16 strip (opened []))
      /\ fpos (snd (readLE16_direct xaa xbb strip (opened [])))
         = fpos (snd (readLE16 strip (opened []))))
  /\ (fst (readLE32_direct xaa xbb xcc xdd strip (opened []))
      = fst (readLE32 strip (opened []))
      /\ fpos (snd (readLE32_direct xaa xbb xcc xdd strip (opened [])))
         = fpos (snd (readLE32 strip (opened [])))).
Proof.
  assert (H0 : 0 <= fpos (opened [])) by holds.
  assert (H2 : fpos (opened []) + 2 <= Z.of_nat (length strip)) by holds.
  assert (H4 : fpos (opened []) + 4 <= Z.of_nat (length strip)) by holds.
  destruct (X2_reader_branches_agree strip (opened []) xaa xbb xcc xdd H0)
    as (A & B).
  split; [exact H0|]. split; [exact (A H2) | exact (B H4)].
Defined.

Lemma X17_witness :
  (two_rows_199_card "rows199.bmp"%string = Some two_rows_199
   /\ accepted two_rows_199 = true
   /\ 0 <= tft_width tft_320x240 < 2 ^ 15
   /\ 0 <= tft_height tft_320x240 < 2 ^ 15
   /\ 0 < s32 (le32_at two_rows_199 18)
   /\ 0 < Z.abs (s32 (le32_at two_rows_199 22))
   /\ 0 <= 10
   /\ 10 + s32 (le32_at two_rows_199 18) <= tft_width tft_320x240
   /\ 0 <= 20
   /\ 20 + Z.abs (s32 (le32_at two_rows_199 22)) <= tft_height tft_320x240
   /\ le32_at two_rows_199 10
      + Z.abs (s32 (le32_at two_rows_199 22))
        * rowSize_of (s32 (le32_at two_rows_199 18))
      <= Z.of_nat (length two_rows_199)
   /\ Z.of_nat (length two_rows_199) < 2 ^ 32)
  /\ exists buf,
       canvas1_out (loadBMP leftover' two_rows_199_card (fun _ _ => true)
                            "rows199.bmp"%string (Some None) (Some None)
                            (Some None) (Some CANVAS_NONE))
       = Some (Some (mkCanvas (s32 (le32_at two_rows_199 18))
                              (Z.abs (s32 (le32_at two_rows_199 22))) buf))
       /\ written (trace (drawBMP leftover two_rows_199_card
                                  "rows199.bmp"%string tft_320x240 10 20))
          = buf.
Proof.
  assert (H1 : two_rows_199_card "rows199.bmp"%string = Some two_rows_199)
    by reflexivity.
  assert (H2 : accepted two_rows_199 = true) by holds.
  assert (H3 : 0 <= tft_width tft_320x240 < 2 ^ 15) by holds.
  assert (H4 : 0 <= tft_height tft_320x240 < 2 ^ 15) by holds.
  assert (H5 : 0 < s32 (le32_at two_rows_199 18)) by holds.
  assert (H6 : 0 < Z.abs (s32 (le32_at two_rows_199 22))) by holds.
  assert (H7 : 0 <= 10) by holds.
  assert (H8 : 10 + s32 (le32_at two_rows_199 18) <= tft_width tft_320x240)
    by holds.
  assert (H9 : 0 <= 20) by holds.
  assert (H10 : 20 + Z.abs (s32 (le32_at two_rows_199 22))
                <= tft_height tft_320x240) by holds.
  assert (H11 : le32_at two_rows_199 10
                + Z.abs (s32 (le32_at two_rows_199 22))
                  * rowSize_of (s32 (le32_at two_rows_199 18))
                <= Z.of_nat (length two_rows_199)) by holds.
  assert (H12 : Z.of_nat (length two_rows_199) < 2 ^ 32) by holds.
  split; [given|].
  exact (X17_draw_sends_what_load_stores leftover leftover' two_rows_199_card
           (fun _ _ => true) "rows199.bmp"%string tft_320x240 10 20 None
           (Some None) (Some None) (Some CANVAS_NONE) two_rows_199
           H1 H2 H3 H4 H5 H6 H7 H8 H9 H10 eq_refl H11 H12).
Defined.
